(** * codex-usage: the usage aggregation engine of [codex_usage_tracker.py]

    A shallow embedding of the tracker's core: the [TokenUsage] counter,
    the session log parser [_parse_session_file] and the aggregation done
    by [generate_snapshot], followed by the properties stated about them.

    Conventions of the embedding.
    - A Python [int] is a [Z].  A Python [float] is an IEEE binary64 value,
      written as a [spec_float] and computed on with the operations of
      [SpecFloat] at precision 53 and maximal exponent 1024.
    - An aware [datetime] normalised to UTC is the number of microseconds
      since the epoch, a [Z].  The range of [datetime], from year 1 to year
      9999, is checked where the tracker computes a new instant: in
      [_parse_iso8601] and for the cutoff of a window.  The local calendar
      date of an event, [local_date], is taken to exist.
    - A value decoded by [json.loads] is a [json]; a [dict] is the list of
      its items, looked up by key with [dict_get].
    - Exceptions that the source lets escape, or catches, are kept in a
      small error monad [result].  An exception is named by the class that
      an [except] clause matches it by: a [UnicodeDecodeError] is a
      [ValueError]; a [JSONDecodeError], which the parser catches on its
      own, is the line [Undecodable].
    - Built-ins of the Python runtime whose algorithms are not part of the
      tracker ([int] and [float] on text, [str], the ISO-8601 codec, the
      local time zone) are the fields of the class [Runtime]. *)

From Stdlib Require Import ZArith List String Ascii Bool Lia.
From Stdlib Require Import Permutation Sorted.
From Stdlib Require Import SpecFloat.
From Stdlib Require OrderedTypeEx.
From Stdlib Require DecimalString DecimalPos.
Import ListNotations.

Set Warnings "-register-all".

Local Open Scope string_scope.
Local Open Scope list_scope.
Local Open Scope Z_scope.

(** ** Python values *)

Definition float := spec_float.

Definition prec64 : Z := 53.
Definition emax64 : Z := 1024.

Definition fmul (x y : float) : float := SFmul prec64 emax64 x y.
Definition fltb (x y : float) : bool := SFltb x y.

Inductive json : Type :=
| JNull
| JBool (b : bool)
| JInt (n : Z)
| JFloat (x : float)
| JStr (s : string)
| JList (items : list json)
| JDict (fields : list (string * json)).

Definition pydict := list (string * json).

(** [d.get(key)]: the value bound to [key], [None] when there is none. *)
Fixpoint dict_get (d : pydict) (key : string) : json :=
  match d with
  | [] => JNull
  | (k, v) :: rest => if String.eqb k key then v else dict_get rest key
  end.

(** [value == "text"] for a decoded value. *)
Definition is_str (v : json) (text : string) : bool :=
  match v with
  | JStr s => String.eqb s text
  | _ => false
  end.

(** Truth value of a decoded value, as [or] and [if] test it. *)
Definition truthy (v : json) : bool :=
  match v with
  | JNull => false
  | JBool b => b
  | JInt n => negb (n =? 0)
  | JFloat (S754_zero _) => false
  | JFloat _ => true
  | JStr s => negb (String.eqb s "")
  | JList items => match items with [] => false | _ => true end
  | JDict fields => match fields with [] => false | _ => true end
  end.

(** ** Exceptions *)

Inductive exn : Type :=
| TypeError
| ValueError
| OverflowError
| AttributeError
| OSError
| OtherError (name : string).

Inductive result (A : Type) : Type :=
| Ok (a : A)
| Raise (e : exn).

Arguments Ok {A} a.
Arguments Raise {A} e.

Definition bind {A B : Type} (r : result A) (k : A -> result B) : result B :=
  match r with
  | Ok a => k a
  | Raise e => Raise e
  end.

Notation "x <- r ;; k" := (bind r (fun x => k))
  (at level 61, r at next level, right associativity).

(** ** The runtime *)

Definition datetime := Z.

Class Runtime : Type := {
  (** [int(text)]; [None] stands for [ValueError]. *)
  int_of_str : string -> option Z;
  (** [float(text)]; [None] stands for [ValueError]. *)
  float_of_str : string -> option float;
  (** [str(value)] on a decoded value that is not itself a [str]. *)
  repr_json : json -> string;
  (** [datetime.fromisoformat(text)]: the wall time in microseconds and the
      UTC offset when the text carries one; [None] stands for [ValueError]. *)
  fromisoformat : string -> option (Z * option Z);
  (** [datetime.fromtimestamp(epoch, tz=timezone.utc)]; [None] stands for
      [OverflowError], [OSError] or [ValueError]. *)
  fromtimestamp : Z -> option datetime;
  (** [value.isoformat().replace("+00:00", "Z")] on a UTC instant. *)
  isoformat_z : datetime -> string;
  (** [ts.astimezone().date().isoformat()]: the local calendar date. *)
  local_date : datetime -> string;
  (** [datetime.now().astimezone().tzname()]. *)
  tzname : option string
}.

(** The first and the last instant of [datetime]: 0001-01-01T00:00:00 and
    9999-12-31T23:59:59.999999, in microseconds since the epoch. *)
Definition datetime_min : Z := -62135596800000000.
Definition datetime_max : Z := 253402300799999999.

Definition in_range (t : Z) : bool :=
  (datetime_min <=? t) && (t <=? datetime_max).

(** [t - delta] on a [datetime] and a [timedelta]: the result must be a
    [datetime], or [OverflowError] is raised. *)
Definition datetime_sub (t : datetime) (delta : Z) : result datetime :=
  if in_range (t - delta) then Ok (t - delta) else Raise OverflowError.

(** [timedelta(minutes=minutes)], in microseconds: the days of a
    [timedelta] have a magnitude of at most 999999999. *)
Definition timedelta_minutes (minutes : Z) : result Z :=
  let days := minutes / 1440 in
  if (-999999999 <=? days) && (days <=? 999999999)
  then Ok (minutes * 60000000)
  else Raise OverflowError.

(** ** Conversions of the runtime *)

(** [int(x)] on a float truncates toward zero. *)
Definition int_of_float (x : float) : result Z :=
  match x with
  | S754_zero _ => Ok 0
  | S754_finite s m e =>
      let magnitude := Z.shiftl (Zpos m) e in
      Ok (if s then - magnitude else magnitude)
  | S754_nan => Raise ValueError
  | S754_infinity _ => Raise OverflowError
  end.

(** [float(n)] on an int rounds to nearest, ties to even. *)
Definition float_of_int (n : Z) : result float :=
  match binary_normalize prec64 emax64 n 0 false with
  | S754_infinity _ => Raise OverflowError
  | x => Ok x
  end.

(** An int as the operand of a float operation, before rounding. *)
Definition exact_of_int (n : Z) : float :=
  match n with
  | Z0 => S754_zero false
  | Zpos m => S754_finite false m 0
  | Zneg m => S754_finite true m 0
  end.

(** [a / b] on two ints, [b] not zero: the correctly rounded quotient. *)
Definition true_div (a b : Z) : result float :=
  match SFdiv prec64 emax64 (exact_of_int a) (exact_of_int b) with
  | S754_infinity _ => Raise OverflowError
  | x => Ok x
  end.

Definition float_100 : float :=
  Eval vm_compute in binary_normalize prec64 emax64 100 0 false.



(** [min(100.0, x)]: the first argument unless the second is smaller. *)
Definition min_100 (x : float) : float :=
  if fltb x float_100 then x else float_100.

Section Conversions.
Context {RT : Runtime}.

(** [int(value)] *)
Definition py_int (value : json) : result Z :=
  match value with
  | JNull => Raise TypeError
  | JBool b => Ok (if b then 1 else 0)
  | JInt n => Ok n
  | JFloat x => int_of_float x
  | JStr s =>
      match int_of_str s with
      | Some n => Ok n
      | None => Raise ValueError
      end
  | JList _ | JDict _ => Raise TypeError
  end.

(** [float(value)] *)
Definition py_float (value : json) : result float :=
  match value with
  | JNull => Raise TypeError
  | JBool b => float_of_int (if b then 1 else 0)
  | JInt n => float_of_int n
  | JFloat x => Ok x
  | JStr s =>
      match float_of_str s with
      | Some x => Ok x
      | None => Raise ValueError
      end
  | JList _ | JDict _ => Raise TypeError
  end.

(** [str(value)] *)
Definition py_str (value : json) : string :=
  match value with
  | JStr s => s
  | _ => repr_json value
  end.

Definition _safe_dict (value : json) : pydict :=
  match value with
  | JDict fields => fields
  | _ => []
  end.

Definition _safe_str (value : json) : option string :=
  match value with
  | JNull => None
  | _ => Some (py_str value)
  end.

Definition _safe_int (value : json) (default : Z) : result Z :=
  match value with
  | JNull => Ok default
  | JBool b => py_int (JBool b)
  | _ =>
      match py_int value with
      | Raise TypeError | Raise ValueError => Ok default
      | r => r
      end
  end.

Definition _safe_int_or_none (value : json) : result (option Z) :=
  match value with
  | JNull => Ok None
  | _ =>
      match py_int value with
      | Ok n => Ok (Some n)
      | Raise TypeError | Raise ValueError => Ok None
      | Raise e => Raise e
      end
  end.

Definition _safe_float_or_none (value : json) : result (option float) :=
  match value with
  | JNull => Ok None
  | _ =>
      match py_float value with
      | Ok x => Ok (Some x)
      | Raise TypeError | Raise ValueError => Ok None
      | Raise e => Raise e
      end
  end.

(** [value.replace("Z", "+00:00")] *)
Fixpoint replace_Z (value : string) : string :=
  match value with
  | EmptyString => EmptyString
  | String c rest =>
      if Ascii.eqb c "Z"%char
      then String.append "+00:00" (replace_Z rest)
      else String c (replace_Z rest)
  end.

(** [_parse_iso8601].  A text without offset is taken as UTC and
    [astimezone] returns it as it is, as it does for an offset of zero, whose
    zone is [timezone.utc] itself; with another offset [astimezone]
    subtracts the offset, which raises [OverflowError] out of the range of
    [datetime]. *)
Definition _parse_iso8601 (value : json) : result (option datetime) :=
  match value with
  | JStr s =>
      if String.eqb s "" then Ok None
      else
        match fromisoformat (replace_Z s) with
        | None => Ok None
        | Some (wall, None) => Ok (Some wall)
        | Some (wall, Some offset) =>
            if offset =? 0 then Ok (Some wall)
            else
              utc <- datetime_sub wall offset ;;
              Ok (Some utc)
        end
  | _ => Ok None
  end.

Definition _epoch_to_iso8601 (value : option Z) : option string :=
  match value with
  | None => None
  | Some epoch => option_map isoformat_z (fromtimestamp epoch)
  end.

(** [int((target - now).total_seconds())]: the difference in
    microseconds, divided by [10**6] as a float, truncated. *)
Definition _seconds_until_epoch (epoch : option Z) (now : datetime)
  : result (option Z) :=
  match epoch with
  | None => Ok None
  | Some e =>
      match fromtimestamp e with
      | None => Ok None
      | Some target =>
          seconds <- true_div (target - now) 1000000 ;;
          n <- int_of_float seconds ;;
          Ok (Some n)
      end
  end.

Definition _to_iso8601 (value : option datetime) : option string :=
  option_map isoformat_z value.

End Conversions.

(** ** [TokenUsage] *)

Record TokenUsage : Type := mkTokenUsage {
  input_tokens : Z;
  cached_input_tokens : Z;
  output_tokens : Z;
  reasoning_output_tokens : Z;
  total_tokens : Z
}.

(** [TokenUsage()] *)
Definition new_usage : TokenUsage := mkTokenUsage 0 0 0 0 0.

(** [self.add(other)] updates [self] in place; the embedding returns the
    updated [self]. *)
Definition add (self other : TokenUsage) : TokenUsage :=
  mkTokenUsage
    (input_tokens self + input_tokens other)
    (cached_input_tokens self + cached_input_tokens other)
    (output_tokens self + output_tokens other)
    (reasoning_output_tokens self + reasoning_output_tokens other)
    (total_tokens self + total_tokens other).

Definition delta (self previous : TokenUsage) : TokenUsage :=
  mkTokenUsage
    (Z.max 0 (input_tokens self - input_tokens previous))
    (Z.max 0 (cached_input_tokens self - cached_input_tokens previous))
    (Z.max 0 (output_tokens self - output_tokens previous))
    (Z.max 0 (reasoning_output_tokens self - reasoning_output_tokens previous))
    (Z.max 0 (total_tokens self - total_tokens previous)).

Definition has_activity (self : TokenUsage) : bool :=
  (input_tokens self >? 0)
  || (cached_input_tokens self >? 0)
  || (output_tokens self >? 0)
  || (reasoning_output_tokens self >? 0)
  || (total_tokens self >? 0).

Section FromMapping.
Context {RT : Runtime}.

Definition from_mapping (value : json) : result TokenUsage :=
  match value with
  | JDict fields =>
      i <- _safe_int (dict_get fields "input_tokens") 0 ;;
      c <- _safe_int (dict_get fields "cached_input_tokens") 0 ;;
      o <- _safe_int (dict_get fields "output_tokens") 0 ;;
      r <- _safe_int (dict_get fields "reasoning_output_tokens") 0 ;;
      t <- _safe_int (dict_get fields "total_tokens") 0 ;;
      Ok (mkTokenUsage i c o r t)
  | _ => Ok new_usage
  end.

End FromMapping.

(** ** The session log parser *)

(** A [Path]: its text and its [stem]. *)
Record Path : Type := mkPath {
  path_text : string;
  stem : string
}.

Record ParsedSession : Type := mkParsedSession {
  session_id : string;
  file_path : Path;
  started_at : option datetime;
  last_event_at : option datetime;
  cli_version : option string;
  totals : TokenUsage;
  events : list (datetime * TokenUsage);
  latest_rate_limits : option pydict;
  rate_limits_timestamp : option datetime
}.

(** What reading one line of a session file gives: a line that is empty
    once stripped, a line that [json.loads] rejects with a
    [JSONDecodeError], a decoded record, an [OSError] raised by the read,
    or another exception raised by the read or by [json.loads]: a
    [UnicodeDecodeError] of the read, which is a [ValueError]; the
    [ValueError] of [json.loads] on an integer literal beyond the digit
    limit; a [RecursionError]. *)
Inductive line : Type :=
| Blank
| Undecodable
| Decoded (item : json)
| ReadFails
| Raises (e : exn).

(** The local variables of [_parse_session_file] that the loop updates. *)
Record locals : Type := mkLocals {
  l_session_id : string;
  l_started_at : option datetime;
  l_last_event_at : option datetime;
  l_cli_version : option string;
  l_totals : TokenUsage;
  l_prev_totals : option TokenUsage;
  l_events : list (datetime * TokenUsage);
  l_latest_rate_limits : option pydict;
  l_rate_limits_timestamp : option datetime
}.

Definition initial_locals (path : Path) : locals :=
  mkLocals (stem path) None None None new_usage None [] None None.

(** [a or b] on two optional instants (an instant is always true). *)
Definition or_else {A : Type} (a b : option A) : option A :=
  match a with
  | Some _ => a
  | None => b
  end.

(** [if timestamp and (last_event_at is None or timestamp > last_event_at):
       last_event_at = timestamp] *)
Definition touch (timestamp last : option datetime) : option datetime :=
  match timestamp with
  | Some t =>
      match last with
      | None => Some t
      | Some l => if t >? l then Some t else last
      end
  | None => last
  end.

(** [delta = total_usage if prev_totals is None
            else total_usage.delta(prev_totals)] *)
Definition increment (prev_totals : option TokenUsage) (total_usage : TokenUsage)
  : TokenUsage :=
  match prev_totals with
  | None => total_usage
  | Some previous => delta total_usage previous
  end.

Section Parser.
Context {RT : Runtime}.

(** The assignments of the [session_meta] branch of the loop body, with
    [started] what [_parse_iso8601] gave for the timestamp of the
    payload. *)
Definition on_session_meta (timestamp started : option datetime)
  (payload : pydict) (st : locals) : locals :=
  let id := dict_get payload "id" in
  mkLocals
    (if truthy id then py_str id else l_session_id st)
    (or_else started (or_else timestamp (l_started_at st)))
    (touch timestamp (l_last_event_at st))
    (match _safe_str (dict_get payload "cli_version") with
     | Some v => if String.eqb v "" then l_cli_version st else Some v
     | None => l_cli_version st
     end)
    (l_totals st) (l_prev_totals st) (l_events st)
    (l_latest_rate_limits st) (l_rate_limits_timestamp st).

(** Lines 191 to 199: the cumulative counter of a [token_count] record.
    [clock] is what [datetime.now(timezone.utc)] returns if it is called
    for this record. *)
Definition on_total_usage (clock : datetime) (timestamp : option datetime)
  (total_usage : TokenUsage) (st : locals) : locals :=
  if has_activity total_usage then
    let d := increment (l_prev_totals st) total_usage in
    if has_activity d then
      let event_ts := match timestamp with Some t => t | None => clock end in
      mkLocals (l_session_id st) (l_started_at st) (l_last_event_at st)
        (l_cli_version st)
        (add (l_totals st) d) (Some total_usage)
        (l_events st ++ [(event_ts, d)])
        (l_latest_rate_limits st) (l_rate_limits_timestamp st)
    else
      mkLocals (l_session_id st) (l_started_at st) (l_last_event_at st)
        (l_cli_version st)
        (l_totals st) (Some total_usage) (l_events st)
        (l_latest_rate_limits st) (l_rate_limits_timestamp st)
  else st.

(** Lines 201 to 204: the rate limits of a [token_count] record. *)
Definition on_rate_limits (timestamp : option datetime) (rate_limits : json)
  (st : locals) : locals :=
  match rate_limits with
  | JDict fields =>
      mkLocals (l_session_id st) (l_started_at st) (l_last_event_at st)
        (l_cli_version st) (l_totals st) (l_prev_totals st) (l_events st)
        (Some fields)
        (or_else timestamp (l_rate_limits_timestamp st))
  | _ => st
  end.

Definition set_last_event_at (last : option datetime) (st : locals) : locals :=
  mkLocals (l_session_id st) (l_started_at st) last
    (l_cli_version st) (l_totals st) (l_prev_totals st) (l_events st)
    (l_latest_rate_limits st) (l_rate_limits_timestamp st).

(** The [token_count] branch of the loop body. *)
Definition on_token_count (clock : datetime) (timestamp : option datetime)
  (payload : pydict) (st : locals) : result locals :=
  let st1 := set_last_event_at (touch timestamp (l_last_event_at st)) st in
  let info_dict := _safe_dict (dict_get payload "info") in
  total_usage <- from_mapping (dict_get info_dict "total_token_usage") ;;
  let st2 := on_total_usage clock timestamp total_usage st1 in
  Ok (on_rate_limits timestamp (dict_get payload "rate_limits") st2).

(** The loop body on a decoded record.  [item.get] on a value that is
    not a [dict] raises [AttributeError]; [_parse_iso8601] can raise
    [OverflowError]. *)
Definition on_item (clock : datetime) (item : json) (st : locals)
  : result locals :=
  match item with
  | JDict fields =>
      timestamp <- _parse_iso8601 (dict_get fields "timestamp") ;;
      let item_type := dict_get fields "type" in
      let payload := _safe_dict (dict_get fields "payload") in
      if is_str item_type "session_meta" then
        started <- _parse_iso8601 (dict_get payload "timestamp") ;;
        Ok (on_session_meta timestamp started payload st)
      else if negb (is_str item_type "event_msg")
              || negb (is_str (dict_get payload "type") "token_count") then
        Ok st
      else on_token_count clock timestamp payload st
  | _ => Raise AttributeError
  end.

(** The loop over the lines of the file, from line [n] on; [clock k] is
    the wall clock while line [k] is handled. *)
Fixpoint read_lines (clock : nat -> datetime) (n : nat) (lines : list line)
  (st : locals) : result locals :=
  match lines with
  | [] => Ok st
  | Blank :: rest => read_lines clock (S n) rest st
  | Undecodable :: rest => read_lines clock (S n) rest st
  | Decoded item :: rest =>
      st' <- on_item (clock n) item st ;;
      read_lines clock (S n) rest st'
  | ReadFails :: rest => Raise OSError
  | Raises e :: rest => Raise e
  end.

Definition to_session (path : Path) (st : locals) : ParsedSession :=
  mkParsedSession (l_session_id st) path
    (l_started_at st) (l_last_event_at st) (l_cli_version st)
    (l_totals st) (l_events st)
    (l_latest_rate_limits st) (l_rate_limits_timestamp st).

Definition is_empty {A : Type} (l : list A) : bool :=
  match l with
  | [] => true
  | _ :: _ => false
  end.

Definition _parse_session_file (clock : nat -> datetime) (path : Path)
  (lines : list line) : result (option ParsedSession) :=
  match read_lines clock 0 lines (initial_locals path) with
  | Raise OSError => Ok None
  | Raise e => Raise e
  | Ok st =>
      if is_empty (l_events st) && (total_tokens (l_totals st) =? 0)
      then Ok None
      else Ok (Some (to_session path st))
  end.

End Parser.

(** ** The aggregation *)

(** [sorted(items, key=key, reverse=reverse)] and [list.sort]: a stable
    sort that compares keys with [<] only; with [reverse] the list is
    reversed, sorted and reversed again, which keeps equal keys in their
    original order. *)
Section Sorted.
Context {A K : Type} (lt : K -> K -> bool) (key : A -> K).

Fixpoint insert_sorted (x : A) (l : list A) : list A :=
  match l with
  | [] => [x]
  | y :: rest =>
      if lt (key y) (key x) then y :: insert_sorted x rest
      else x :: y :: rest
  end.

Definition sort_stable (l : list A) : list A :=
  fold_right insert_sorted [] l.

Definition py_sorted (reverse : bool) (l : list A) : list A :=
  if reverse then rev (sort_stable (rev l)) else sort_stable l.

End Sorted.

(** [max(items, key=key)] on a list that is not empty, [first] being its
    first item: the first of the items with the greatest key. *)
Fixpoint py_max {A : Type} (key : A -> Z) (first : A) (others : list A) : A :=
  match others with
  | [] => first
  | x :: rest => py_max key (if key first <? key x then x else first) rest
  end.

(** The attributes of the tracker that [__init__] derives from the
    configuration. *)
Record UsageTracker : Type := mkUsageTracker {
  codex_home : string;
  config_path : string;
  session_window_minutes : Z;
  week_window_minutes : Z;
  session_limit_tokens : option Z;
  week_limit_tokens : option Z
}.

Definition Event : Type := datetime * TokenUsage.

(** Line 252, [cutoff = now - timedelta(minutes=minutes)], which raises
    [OverflowError] when the [timedelta] or the cutoff is out of range. *)
Definition window_cutoff (now : datetime) (minutes : Z) : result datetime :=
  delta <- timedelta_minutes minutes ;;
  datetime_sub now delta.

(** The call [sum_window(minutes)], a closure over [now] and
    [all_events]. *)
Definition sum_window_call (now : datetime) (all_events : list Event)
  (minutes : Z) : result TokenUsage :=
  cutoff <- window_cutoff now minutes ;;
  Ok (fold_left
        (fun total (event : Event) =>
           if fst event >=? cutoff then add total (snd event) else total)
        all_events new_usage).

(** What [sum_window(minutes)] returns when it returns, the cutoff being
    [now - minutes * 60000000] then. *)
Definition sum_window (now : datetime) (all_events : list Event) (minutes : Z)
  : TokenUsage :=
  let cutoff := now - minutes * 60000000 in
  fold_left
    (fun total (event : Event) =>
       if fst event >=? cutoff then add total (snd event) else total)
    all_events new_usage.

Definition sum_all (all_events : list Event) : TokenUsage :=
  fold_left (fun total (event : Event) => add total (snd event))
    all_events new_usage.

(** What the loop over the session files builds. *)
Record scan : Type := mkScan {
  parsed_sessions : list ParsedSession;
  all_events : list Event;
  scan_rate_limits : option pydict;
  scan_rate_limits_at : option datetime
}.

Definition empty_scan : scan := mkScan [] [] None None.

(** Lines 244 to 247. *)
Definition keep_latest (parsed : ParsedSession)
  (current : option pydict * option datetime)
  : option pydict * option datetime :=
  match latest_rate_limits parsed, rate_limits_timestamp parsed with
  | Some ((_ :: _) as limits), Some at_ =>
      match snd current with
      | None => (Some limits, Some at_)
      | Some latest_at =>
          if at_ >? latest_at then (Some limits, Some at_) else current
      end
  | _, _ => current
  end.

Definition add_session (parsed : ParsedSession) (acc : scan) : scan :=
  let latest :=
    keep_latest parsed (scan_rate_limits acc, scan_rate_limits_at acc) in
  mkScan (parsed_sessions acc ++ [parsed])
    (all_events acc ++ events parsed)
    (fst latest) (snd latest).

(** [daily_totals.setdefault(day_key, TokenUsage()).add(usage)] on a dict
    kept as the list of its items in insertion order. *)
Fixpoint bucket_add (day_key : string) (usage : TokenUsage)
  (daily : list (string * TokenUsage)) : list (string * TokenUsage) :=
  match daily with
  | [] => [(day_key, add new_usage usage)]
  | (day, bucket) :: rest =>
      if String.eqb day day_key then (day, add bucket usage) :: rest
      else (day, bucket) :: bucket_add day_key usage rest
  end.

(** [max((ts for ts, _ in all_events), default=None)] *)
Definition latest_instant (all_events : list Event) : option datetime :=
  match all_events with
  | [] => None
  | first :: others => Some (py_max (fun t => t) (fst first) (map fst others))
  end.

(** [sorted(parsed_sessions, key=..., reverse=True)[:10]] *)
Definition top_sessions (sessions : list ParsedSession) : list ParsedSession :=
  firstn 10
    (py_sorted Z.ltb (fun sess => total_tokens (totals sess)) true sessions).

(** [max(parsed_sessions, key=lambda sess: sess.last_event_at or epoch)] *)
Definition activity_key (sess : ParsedSession) : Z :=
  match last_event_at sess with
  | Some t => t
  | None => 0
  end.

Definition active_session (sessions : list ParsedSession)
  : option ParsedSession :=
  match sessions with
  | [] => None
  | first :: others => Some (py_max activity_key first others)
  end.

(** Lines 277 to 280: the percent of a configured limit, when the rate
    limits gave none. *)
Definition percent_or_limit (percent : option float) (limit : option Z)
  (window_usage : TokenUsage) : result (option float) :=
  match percent, limit with
  | None, Some l =>
      if negb (l =? 0) && (l >? 0) then
        q <- true_div (total_tokens window_usage) l ;;
        Ok (Some (min_100 (fmul q float_100)))
      else Ok percent
  | _, _ => Ok percent
  end.

(** ** The snapshot document *)

Module Doc.

Module Window.
Record t : Type := make {
  window_minutes : Z;
  usage : TokenUsage;
  used_percent : option float;
  resets_at : option string;
  resets_at_epoch : option Z;
  resets_in_seconds : option Z
}.
End Window.

Module Rate.
Record t : Type := make {
  used_percent : option float;
  window_minutes : Z;
  resets_at_epoch : option Z;
  resets_at : option string
}.
End Rate.

Module RateLimits.
Record t : Type := make {
  captured_at : option string;
  primary : Rate.t;
  secondary : Rate.t;
  credits : option pydict
}.
End RateLimits.

Module Windows.
Record t : Type := make {
  last_5h : TokenUsage;
  last_24h : TokenUsage;
  last_7d : TokenUsage;
  last_30d : TokenUsage;
  all_time : TokenUsage
}.
End Windows.

Module Session.
Record t : Type := make {
  session_id : option string;
  file_path : option string;
  started_at : option string;
  last_event_at : option string;
  totals : TokenUsage;
  cli_version : option string
}.
End Session.

Module Config.
Record t : Type := make {
  path : string;
  session_limit_tokens : option Z;
  week_limit_tokens : option Z;
  session_window_minutes : Z;
  week_window_minutes : Z
}.
End Config.

Record Snapshot : Type := make {
  generated_at : string;
  codex_home : string;
  files_scanned : nat;
  sessions_count : nat;
  events_count : nat;
  last_activity_at : option string;
  windows : Windows.t;
  session_window : Window.t;
  weekly_window : Window.t;
  rate_limits : RateLimits.t;
  active_session : Session.t;
  daily_totals : list (string * TokenUsage);
  top_sessions : list Session.t;
  config : Config.t;
  timezone : string
}.

End Doc.

Section Snapshot.
Context {RT : Runtime}.

(** The loop over the discovered files, from file [k] on; [clock k] is
    the wall clock while file [k] is parsed. *)
Fixpoint scan_files (clock : nat -> nat -> datetime) (k : nat)
  (session_files : list (Path * list line)) (acc : scan) : result scan :=
  match session_files with
  | [] => Ok acc
  | (path, lines) :: rest =>
      parsed <- _parse_session_file (clock k) path lines ;;
      match parsed with
      | None => scan_files clock (S k) rest acc
      | Some p => scan_files clock (S k) rest (add_session p acc)
      end
  end.

Definition session_entry (item : ParsedSession) : Doc.Session.t :=
  Doc.Session.make
    (Some (session_id item))
    (Some (path_text (file_path item)))
    (_to_iso8601 (started_at item))
    (_to_iso8601 (last_event_at item))
    (totals item)
    (cli_version item).

Definition no_session_entry : Doc.Session.t :=
  Doc.Session.make None None None None new_usage None.

Definition daily_buckets (sorted_events : list Event)
  : list (string * TokenUsage) :=
  fold_left
    (fun daily (event : Event) =>
       bucket_add (local_date (fst event)) (snd event) daily)
    sorted_events [].

(** [generate_snapshot] from the point where [_discover_session_files]
    has returned, given the instant [now] read at its start, the wall
    clock [clock] during the parse and the discovered session files with
    their lines. *)
Definition generate_snapshot (self : UsageTracker) (now : datetime)
  (clock : nat -> nat -> datetime)
  (session_files : list (Path * list line)) : result Doc.Snapshot :=
  let tz_name :=
    match tzname with
    | Some name => if String.eqb name "" then "local" else name
    | None => "local"
    end in
  sc <- scan_files clock 0 session_files empty_scan ;;
  let sorted_events := py_sorted Z.ltb (fst : Event -> Z) false (all_events sc) in
  let all_time_usage := sum_all sorted_events in
  last_5h <- sum_window_call now sorted_events (5 * 60) ;;
  last_24h <- sum_window_call now sorted_events (24 * 60) ;;
  last_7d <- sum_window_call now sorted_events (7 * 24 * 60) ;;
  last_30d <- sum_window_call now sorted_events (30 * 24 * 60) ;;
  session_window_usage <-
    sum_window_call now sorted_events (session_window_minutes self) ;;
  weekly_window_usage <-
    sum_window_call now sorted_events (week_window_minutes self) ;;
  let limits :=
    match scan_rate_limits sc with Some d => d | None => [] end in
  let primary_rate := _safe_dict (dict_get limits "primary") in
  let secondary_rate := _safe_dict (dict_get limits "secondary") in
  session_reported <- _safe_float_or_none (dict_get primary_rate "used_percent") ;;
  weekly_reported <- _safe_float_or_none (dict_get secondary_rate "used_percent") ;;
  session_percent <-
    percent_or_limit session_reported (session_limit_tokens self)
      session_window_usage ;;
  weekly_percent <-
    percent_or_limit weekly_reported (week_limit_tokens self)
      weekly_window_usage ;;
  session_resets_epoch <- _safe_int_or_none (dict_get primary_rate "resets_at") ;;
  weekly_resets_epoch <- _safe_int_or_none (dict_get secondary_rate "resets_at") ;;
  let session_resets_at := _epoch_to_iso8601 session_resets_epoch in
  let weekly_resets_at := _epoch_to_iso8601 weekly_resets_epoch in
  session_resets_in_seconds <- _seconds_until_epoch session_resets_epoch now ;;
  weekly_resets_in_seconds <- _seconds_until_epoch weekly_resets_epoch now ;;
  let daily_totals_serialized :=
    py_sorted String.ltb
      (fst : string * TokenUsage -> string) true
      (daily_buckets sorted_events) in
  primary_minutes <-
    _safe_int (dict_get primary_rate "window_minutes")
      (session_window_minutes self) ;;
  secondary_minutes <-
    _safe_int (dict_get secondary_rate "window_minutes")
      (week_window_minutes self) ;;
  Ok (Doc.make
        (isoformat_z now)
        (codex_home self)
        (List.length session_files)
        (List.length (parsed_sessions sc))
        (List.length sorted_events)
        (_to_iso8601 (latest_instant sorted_events))
        (Doc.Windows.make last_5h last_24h last_7d last_30d all_time_usage)
        (Doc.Window.make (session_window_minutes self) session_window_usage
           session_percent session_resets_at session_resets_epoch
           session_resets_in_seconds)
        (Doc.Window.make (week_window_minutes self) weekly_window_usage
           weekly_percent weekly_resets_at weekly_resets_epoch
           weekly_resets_in_seconds)
        (Doc.RateLimits.make
           (_to_iso8601 (scan_rate_limits_at sc))
           (Doc.Rate.make session_percent primary_minutes
              session_resets_epoch session_resets_at)
           (Doc.Rate.make weekly_percent secondary_minutes
              weekly_resets_epoch weekly_resets_at)
           (match _safe_dict (dict_get limits "credits") with
            | [] => None
            | credits => Some credits
            end))
        (match active_session (parsed_sessions sc) with
         | Some active => session_entry active
         | None => no_session_entry
         end)
        daily_totals_serialized
        (map session_entry (top_sessions (parsed_sessions sc)))
        (Doc.Config.make (config_path self)
           (session_limit_tokens self) (week_limit_tokens self)
           (session_window_minutes self) (week_window_minutes self))
        tz_name).

End Snapshot.

(** ** A runtime for the examples

    [Sample.runtime] is a runtime whose local zone is UTC.  It reads and
    writes instants as [YYYY-MM-DDTHH:MM:SS] followed by [Z] or by an
    offset [+HH:MM] or [-HH:MM], and numbers as plain decimal text.  The
    examples below only use texts on which it agrees with Python. *)
Module Sample.

Definition digit_of (c : ascii) : option Z :=
  let n := Z.of_nat (nat_of_ascii c) in
  if (48 <=? n) && (n <=? 57) then Some (n - 48) else None.

Fixpoint digits_from (acc : Z) (s : string) : option Z :=
  match s with
  | EmptyString => Some acc
  | String c rest =>
      match digit_of c with
      | Some d => digits_from (10 * acc + d) rest
      | None => None
      end
  end.

Definition natural (s : string) : option Z :=
  match s with
  | EmptyString => None
  | _ => digits_from 0 s
  end.

Definition integer (s : string) : option Z :=
  match s with
  | String "-"%char rest => option_map Z.opp (natural rest)
  | _ => natural s
  end.

Definition char_of_digit (d : Z) : ascii :=
  ascii_of_nat (Z.to_nat (48 + d mod 10)).

Fixpoint padded (width : nat) (n : Z) (suffix : string) : string :=
  match width with
  | O => suffix
  | S w => padded w (n / 10) (String (char_of_digit n) suffix)
  end.

(** Days since the epoch of a civil date, and back. *)
Definition days_from_civil (y m d : Z) : Z :=
  let y' := if m <=? 2 then y - 1 else y in
  let era := y' / 400 in
  let yoe := y' - era * 400 in
  let doy := (153 * (if m >? 2 then m - 3 else m + 9) + 2) / 5 + d - 1 in
  let doe := yoe * 365 + yoe / 4 - yoe / 100 + doy in
  era * 146097 + doe - 719468.

Definition civil_from_days (days : Z) : Z * Z * Z :=
  let z := days + 719468 in
  let era := z / 146097 in
  let doe := z - era * 146097 in
  let yoe := (doe - doe / 1460 + doe / 36524 - doe / 146096) / 365 in
  let doy := doe - (365 * yoe + yoe / 4 - yoe / 100) in
  let mp := (5 * doy + 2) / 153 in
  let d := doy - (153 * mp + 2) / 5 + 1 in
  let m := if mp <? 10 then mp + 3 else mp - 9 in
  (yoe + era * 400 + (if m <=? 2 then 1 else 0), m, d).

Definition field (s : string) (start len : nat) : option Z :=
  natural (substring start len s).

Definition offset_of (s : string) : option (option Z) :=
  match s with
  | EmptyString => Some None
  | String sign rest =>
      match field rest 0 2, field rest 3 2 with
      | Some h, Some m =>
          let magnitude := (h * 3600 + m * 60) * 1000000 in
          if Ascii.eqb sign "+"%char then Some (Some magnitude)
          else if Ascii.eqb sign "-"%char then Some (Some (- magnitude))
          else None
      | _, _ => None
      end
  end.

Definition read_iso (s : string) : option (Z * option Z) :=
  match field s 0 4, field s 5 2, field s 8 2,
        field s 11 2, field s 14 2, field s 17 2,
        offset_of (substring 19 6 s) with
  | Some y, Some mo, Some d, Some h, Some mi, Some sec, Some offset =>
      Some (((days_from_civil y mo d * 86400 + h * 3600 + mi * 60 + sec)
             * 1000000), offset)
  | _, _, _, _, _, _, _ => None
  end.

Definition write_date (instant : datetime) : string :=
  let '(y, m, d) := civil_from_days (instant / 86400000000) in
  padded 4 y (String "-"%char (padded 2 m (String "-"%char (padded 2 d "")))).

Definition write_iso (instant : datetime) : string :=
  let secs := (instant / 1000000) mod 86400 in
  let micros := instant mod 1000000 in
  String.append (write_date instant)
    (String "T"%char
       (padded 2 (secs / 3600)
          (String ":"%char
             (padded 2 (secs / 60 mod 60)
                (String ":"%char
                   (padded 2 (secs mod 60)
                      (if micros =? 0 then "Z"
                       else String "."%char (padded 6 micros "Z")))))))).

Fixpoint decimal (fuel : nat) (n : Z) (suffix : string) : string :=
  match fuel with
  | O => suffix
  | S f =>
      let text := String (char_of_digit n) suffix in
      if n / 10 =? 0 then text else decimal f (n / 10) text
  end.

Definition write_json (value : json) : string :=
  match value with
  | JNull => "None"
  | JBool true => "True"
  | JBool false => "False"
  | JInt n =>
      if n <? 0
      then String "-"%char (decimal (S (Z.to_nat (Z.log2 (- n)))) (- n) "")
      else decimal (S (Z.to_nat (Z.log2 n))) n ""
  | JStr s => s
  | _ => "<object>"
  end.

Definition read_float (s : string) : option float :=
  match integer s with
  | Some n =>
      match float_of_int n with
      | Ok x => Some x
      | Raise _ => None
      end
  | None => None
  end.

Definition runtime : Runtime := {|
  int_of_str := integer;
  float_of_str := read_float;
  repr_json := write_json;
  fromisoformat := read_iso;
  fromtimestamp := fun epoch => Some (epoch * 1000000);
  isoformat_z := write_iso;
  local_date := write_date;
  tzname := Some "UTC"
|}.

End Sample.

(** ** Log records and predicates used in the statements *)

(** An [event_msg] record of inner type [token_count], with a textual
    timestamp and the items of its [total_token_usage]. *)
Definition token_count_record (timestamp : json) (usage : json) : json :=
  JDict [("timestamp", timestamp);
         ("type", JStr "event_msg");
         ("payload",
          JDict [("type", JStr "token_count");
                 ("info", JDict [("total_token_usage", usage)])])].

(** The same, with a [rate_limits] structure. *)
Definition rate_limits_record (timestamp : json) (usage : json)
  (rate_limits : json) : json :=
  JDict [("timestamp", timestamp);
         ("type", JStr "event_msg");
         ("payload",
          JDict [("type", JStr "token_count");
                 ("info", JDict [("total_token_usage", usage)]);
                 ("rate_limits", rate_limits)])].

(** A counter that only carries [total_tokens]. *)
Definition only_total (n : Z) : json := JDict [("total_tokens", JInt n)].

Definition session_meta_record (timestamp : json) (id : json) : json :=
  JDict [("timestamp", timestamp);
         ("type", JStr "session_meta");
         ("payload", JDict [("id", id)])].

(** All five fields are at least zero. *)
Definition nonneg (u : TokenUsage) : Prop :=
  0 <= input_tokens u /\ 0 <= cached_input_tokens u /\ 0 <= output_tokens u
  /\ 0 <= reasoning_output_tokens u /\ 0 <= total_tokens u.

(** Some field is greater than zero. *)
Definition some_positive (u : TokenUsage) : Prop :=
  0 < input_tokens u \/ 0 < cached_input_tokens u \/ 0 < output_tokens u
  \/ 0 < reasoning_output_tokens u \/ 0 < total_tokens u.

(** Some field is different from zero. *)
Definition some_nonzero (u : TokenUsage) : Prop :=
  input_tokens u <> 0 \/ cached_input_tokens u <> 0 \/ output_tokens u <> 0
  \/ reasoning_output_tokens u <> 0 \/ total_tokens u <> 0.

(** Fieldwise order. *)
Definition usage_le (a b : TokenUsage) : Prop :=
  input_tokens a <= input_tokens b
  /\ cached_input_tokens a <= cached_input_tokens b
  /\ output_tokens a <= output_tokens b
  /\ reasoning_output_tokens a <= reasoning_output_tokens b
  /\ total_tokens a <= total_tokens b.

(** A decoded value that [int] does not turn into a negative number. *)
Definition nonneg_value {RT : Runtime} (v : json) : Prop :=
  match v with
  | JInt n => 0 <= n
  | JFloat (S754_finite true _ _) => False
  | JStr s =>
      match int_of_str s with
      | Some n => 0 <= n
      | None => True
      end
  | _ => True
  end.

(** The payload of a record, as the loop body takes it. *)
Definition payload_of (fields : pydict) : pydict :=
  _safe_dict (dict_get fields "payload").

(** The record is an [event_msg] of inner type [token_count]. *)
Definition is_token_count (fields : pydict) : bool :=
  is_str (dict_get fields "type") "event_msg"
  && is_str (dict_get (payload_of fields) "type") "token_count".

(** A line that cannot add usage: it is skipped, it is a record other
    than a [token_count] one, or the read fails on it with an [OSError]. *)
Definition carries_no_usage (l : line) : bool :=
  match l with
  | Blank | Undecodable | ReadFails => true
  | Decoded (JDict fields) => negb (is_token_count fields)
  | Decoded _ => false
  | Raises OSError => true
  | Raises _ => false
  end.

(** [_parse_iso8601] returns on this value. *)
Definition parses {RT : Runtime} (value : json) : bool :=
  match _parse_iso8601 value with
  | Ok _ => true
  | Raise _ => false
  end.

(** The timestamps that the loop body parses on this line are parsed
    without an exception: the timestamp of the record and, for a
    [session_meta] record, that of its payload. *)
Definition timestamps_parse {RT : Runtime} (l : line) : bool :=
  match l with
  | Decoded (JDict fields) =>
      parses (dict_get fields "timestamp")
      && (negb (is_str (dict_get fields "type") "session_meta")
          || parses (dict_get (payload_of fields) "timestamp"))
  | _ => true
  end.

(** A line for which the parser reads the wall clock at most through a
    parsable timestamp: every [token_count] record has one. *)
Definition stamped {RT : Runtime} (l : line) : bool :=
  match l with
  | Decoded (JDict fields) =>
      negb (is_token_count fields)
      || match _parse_iso8601 (dict_get fields "timestamp") with
         | Ok (Some _) => true
         | _ => false
         end
  | _ => true
  end.

(** The usage counter of a decoded [token_count] payload. *)
Definition usage_value (payload : pydict) : json :=
  dict_get (_safe_dict (dict_get payload "info")) "total_token_usage".

(** The totals of the session are the sum of its events. *)
Definition totals_match (st : locals) : Prop :=
  l_totals st = sum_all (l_events st).

(** The session has rate limits that the aggregation considers: a
    structure that is not empty, with an instant. *)
Definition eligible (p : ParsedSession) (limits : pydict) (at_ : datetime)
  : Prop :=
  latest_rate_limits p = Some limits /\ limits <> []
  /\ rate_limits_timestamp p = Some at_.

(** [limits] and [at_] are those of the first session, in the order of the
    list, among the eligible sessions with the greatest instant; they are
    absent when no session is eligible. *)
Definition latest_ok (sessions : list ParsedSession) (limits : option pydict)
  (at_ : option datetime) : Prop :=
  ((forall p l t, In p sessions -> ~ eligible p l t)
   /\ limits = None /\ at_ = None)
  \/ (exists (i : nat) (p : ParsedSession) (l : pydict) (t : datetime),
        nth_error sessions i = Some p
        /\ eligible p l t
        /\ limits = Some l /\ at_ = Some t
        /\ forall (j : nat) (q : ParsedSession) (lq : pydict) (tq : datetime),
             nth_error sessions j = Some q -> eligible q lq tq ->
             tq <= t /\ ((j < i)%nat -> tq < t)).

(** A line whose usage counter, if it has one, holds no value that
    converts to a negative number. *)
Definition clean_line {RT : Runtime} (l : line) : Prop :=
  match l with
  | Decoded (JDict fields) =>
      forall key,
        nonneg_value
          (dict_get (_safe_dict (usage_value (payload_of fields))) key)
  | _ => True
  end.

(** No event carries a negative field. *)
Definition events_nonneg (events : list Event) : Prop :=
  Forall (fun e : Event => nonneg (snd e)) events.

(** ** Sample logs *)

Module Examples.

Definition path_a : Path := mkPath "sessions/rollout-a.jsonl" "rollout-a".
Definition path_b : Path := mkPath "sessions/rollout-b.jsonl" "rollout-b".

(** A wall clock that shows the same instant throughout a run. *)
Definition still_clock (t : datetime) : nat -> nat -> datetime :=
  fun _ _ => t.

(** 2024-01-01T12:00:00Z *)
Definition noon : datetime := 1704110400000000.

Definition tracker : UsageTracker :=
  mkUsageTracker "/home/u/.codex" "/home/u/.codex/usage_tracker/config.json"
    300 10080 None None.

(** The same tracker with a session limit of 100 tokens. *)
Definition limited_tracker : UsageTracker :=
  mkUsageTracker "/home/u/.codex" "/home/u/.codex/usage_tracker/config.json"
    300 10080 (Some 100) None.

(** Cumulative readings 100, 150, 140, 200 of [total_tokens]. *)
Definition readings_log : list line :=
  [Decoded (token_count_record (JStr "2024-01-01T10:00:00Z") (only_total 100));
   Decoded (token_count_record (JStr "2024-01-01T10:01:00Z") (only_total 150));
   Decoded (token_count_record (JStr "2024-01-01T10:02:00Z") (only_total 140));
   Decoded (token_count_record (JStr "2024-01-01T10:03:00Z") (only_total 200))].

(** One record with usage and no timestamp. *)
Definition unstamped_log : list line :=
  [Decoded (token_count_record JNull (only_total 10))].

(** Two sessions whose rate limits were captured at the same instant. *)
Definition limits_log (percent : Z) : list line :=
  [Decoded (rate_limits_record (JStr "2024-01-01T10:00:00Z") (only_total 10)
              (JDict [("primary", JDict [("used_percent", JInt percent)])]))].

(** A first reading with a negative field, ten hours before [noon], and
    in another session a reading one hour before [noon]. *)
Definition negative_log : list line :=
  [Decoded (token_count_record (JStr "2024-01-01T02:00:00Z")
              (JDict [("input_tokens", JInt (-5)); ("total_tokens", JInt 10)]))].

Definition recent_log : list line :=
  [Decoded (token_count_record (JStr "2024-01-01T11:00:00Z")
              (JDict [("input_tokens", JInt 5); ("total_tokens", JInt 5)]))].

(** A session that used tokens at 10:00 and whose record of 12:00
    carries no counter, and a session that used tokens at 11:00. *)
Definition quiet_end_log : list line :=
  [Decoded (token_count_record (JStr "2024-01-01T10:00:00Z") (only_total 100));
   Decoded (token_count_record (JStr "2024-01-01T12:00:00Z") JNull)].

Definition busy_log : list line :=
  [Decoded (token_count_record (JStr "2024-01-01T11:00:00Z") (only_total 50))].

(** A log with a [session_meta] record only. *)
Definition meta_log : list line :=
  [Decoded (session_meta_record (JStr "2024-01-01T10:00:00Z") (JStr "abc"))].

(** A session as far as the ranking reads it. *)
Definition ranked (id : string) (total : Z) : ParsedSession :=
  mkParsedSession id path_a None None None (mkTokenUsage 0 0 0 0 total)
    [(0, mkTokenUsage 0 0 0 0 total)] None None.

Definition fifteen : list ParsedSession :=
  [ranked "s01" 70; ranked "s02" 10; ranked "s03" 150; ranked "s04" 30;
   ranked "s05" 90; ranked "s06" 20; ranked "s07" 130; ranked "s08" 50;
   ranked "s09" 110; ranked "s10" 40; ranked "s11" 140; ranked "s12" 60;
   ranked "s13" 120; ranked "s14" 80; ranked "s15" 100].

End Examples.

(** ** Further functions and predicates *)

(** [self.to_dict()] *)
Definition to_dict (self : TokenUsage) : pydict :=
  [("input_tokens", JInt (input_tokens self));
   ("cached_input_tokens", JInt (cached_input_tokens self));
   ("output_tokens", JInt (output_tokens self));
   ("reasoning_output_tokens", JInt (reasoning_output_tokens self));
   ("total_tokens", JInt (total_tokens self))].

(** The cursor as a counter: all zero while it is absent. *)
Definition cursor_value (prev_totals : option TokenUsage) : TokenUsage :=
  match prev_totals with
  | Some previous => previous
  | None => new_usage
  end.

(** The cumulative counters that the loop takes from the lines, in order:
    those of the [token_count] records whose counter decodes and has
    activity. *)
Fixpoint readings {RT : Runtime} (lines : list line) : list TokenUsage :=
  match lines with
  | [] => []
  | Decoded (JDict fields) :: rest =>
      if is_token_count fields then
        match from_mapping (usage_value (payload_of fields)) with
        | Ok u => if has_activity u then u :: readings rest else readings rest
        | Raise _ => readings rest
        end
      else readings rest
  | _ :: rest => readings rest
  end.

(** Each counter is, field by field, at least the one before it. *)
Fixpoint rising (previous : TokenUsage) (counters : list TokenUsage) : Prop :=
  match counters with
  | [] => True
  | u :: rest => usage_le previous u /\ rising u rest
  end.

Definition nondecreasing (counters : list TokenUsage) : Prop :=
  match counters with
  | [] => True
  | u :: rest => rising u rest
  end.

(** The fieldwise sum of a list of counters. *)
Definition sum_usages (counters : list TokenUsage) : TokenUsage :=
  fold_right add new_usage counters.

(** A decoded value that is not a JSON object. *)
Definition not_object (item : json) : Prop :=
  match item with
  | JDict _ => False
  | _ => True
  end.

(** The line is a [session_meta] record. *)
Definition is_session_meta (l : line) : bool :=
  match l with
  | Decoded (JDict fields) => is_str (dict_get fields "type") "session_meta"
  | _ => false
  end.

(** The exceptions that the parser lets escape. *)
Definition escapes {A : Type} (r : result A) : Prop :=
  match r with
  | Ok _ => True
  | Raise e => e = AttributeError \/ e = OverflowError
  end.

(** Every event recorded so far has a field greater than zero. *)
Definition events_active (st : locals) : Prop :=
  Forall (fun e : Event => some_positive (snd e)) (l_events st).

(** The totals are, field by field, at least the cursor. *)
Definition totals_cover_cursor (st : locals) : Prop :=
  usage_le (cursor_value (l_prev_totals st)) (l_totals st).

(** Every event recorded so far is at most as late as the last-seen
    instant. *)
Definition events_before_last_seen (st : locals) : Prop :=
  Forall (fun e : Event =>
            exists t, l_last_event_at st = Some t /\ fst e <= t)
    (l_events st).

(** The session identifier is the stem of the path, and no start instant
    or client version is known. *)
Definition meta_defaults (path : Path) (st : locals) : Prop :=
  l_session_id st = stem path /\ l_started_at st = None
  /\ l_cli_version st = None.

(** The only exception that a conversion lets escape. *)
Definition only_overflow {A : Type} (r : result A) : Prop :=
  match r with
  | Ok _ => True
  | Raise e => e = OverflowError
  end.

(** What the scan has gathered agrees with its sessions: the events are
    those of the sessions, in order, and every session has events that add
    up to its totals. *)
Definition scan_consistent (acc : scan) : Prop :=
  all_events acc = flat_map events (parsed_sessions acc)
  /\ Forall (fun s : ParsedSession =>
               events s <> [] /\ totals s = sum_all (events s))
       (parsed_sessions acc).

(** The events of the run as [generate_snapshot] sorts them. *)
Definition sorted_events_of (sc : scan) : list Event :=
  py_sorted Z.ltb (fst : Event -> Z) false (all_events sc).

(** The buckets agree with the events handled so far: one bucket per
    local date met, each the sum of the events of its date. *)
Definition buckets_of {RT : Runtime} (events : list Event)
  (daily : list (string * TokenUsage)) : Prop :=
  NoDup (map fst daily)
  /\ (forall day u, In (day, u) daily ->
        u = sum_all
              (filter (fun e : Event => String.eqb (local_date (fst e)) day)
                 events))
  /\ (forall e : Event, In e events -> In (local_date (fst e)) (map fst daily))
  /\ (forall day, In day (map fst daily) ->
        exists e : Event, In e events /\ local_date (fst e) = day).

(** The rate limits that a line brings to the parser: those of a
    [token_count] record whose [rate_limits] is a mapping, with the instant
    of the record's timestamp when it has one that parses. *)
Definition limits_of {RT : Runtime} (l : line)
  : option (pydict * option datetime) :=
  match l with
  | Decoded (JDict fields) =>
      if is_token_count fields then
        match dict_get (payload_of fields) "rate_limits" with
        | JDict limits =>
            match _parse_iso8601 (dict_get fields "timestamp") with
            | Ok stamp => Some (limits, stamp)
            | Raise _ => None
            end
        | _ => None
        end
      else None
  | _ => None
  end.

(** [0.0] *)
Definition float_zero : float := S754_zero false.

(** No line of the file can add usage, and its timestamps are parsed
    without an exception. *)
Definition file_without_usage {RT : Runtime} (file : Path * list line)
  : Prop :=
  Forall (fun l => carries_no_usage l = true /\ timestamps_parse l = true)
    (snd file).

(** The lengths of the six windows that [generate_snapshot] sums. *)
Definition window_lengths (self : UsageTracker) : list Z :=
  [5 * 60; 24 * 60; 7 * 24 * 60; 30 * 24 * 60;
   session_window_minutes self; week_window_minutes self].

(** Line 252 gives a cutoff for each of the six windows. *)
Definition windows_in_range (self : UsageTracker) (now : datetime) : Prop :=
  forall minutes : Z,
    In minutes (window_lengths self) ->
    exists cutoff : datetime, window_cutoff now minutes = Ok cutoff.

(** The decimal digits of an int, after [-] when it is negative. *)
Definition decimal (n : Z) : string :=
  DecimalString.NilZero.string_of_int (Z.to_int n).






Section Report.
Context {RT : Runtime}.


End Report.

(** What [_load_config] finds at the configuration path: [path.exists()]
    raises an [OSError], as it does before Python 3.12 when the path cannot
    be examined; there is no file; the read or the decoding of the file
    raises an [Exception]; or the file holds a decoded value. *)
Inductive config_file : Type :=
| ExistsRaises
| NoFile
| LoadRaises
| Loaded (value : json).

(** [path.exists()] is called before the [try]; what the [try] raises is
    caught. *)
Definition _load_config (file : config_file) : result pydict :=
  match file with
  | ExistsRaises => Raise OSError
  | NoFile => Ok []
  | LoadRaises => Ok []
  | Loaded (JDict fields) => Ok fields
  | Loaded _ => Ok []
  end.

Section Init.
Context {RT : Runtime}.

(** [UsageTracker.__init__], given what [codex_home.expanduser().resolve()]
    and [config_path.expanduser()] give, a path as text or the exception
    they raise ([RuntimeError] without a home directory, [OSError]), and
    what is found at the configuration path. *)
Definition __init__ (resolved_home expanded_config : result string)
  (file : config_file) : result UsageTracker :=
  codex_home <- resolved_home ;;
  config_path <- expanded_config ;;
  config <- _load_config file ;;
  session_window_minutes <-
    _safe_int (dict_get config "session_window_minutes") 300 ;;
  week_window_minutes <-
    _safe_int (dict_get config "week_window_minutes") 10080 ;;
  session_limit_tokens <-
    _safe_int_or_none (dict_get config "session_limit_tokens") ;;
  week_limit_tokens <-
    _safe_int_or_none (dict_get config "week_limit_tokens") ;;
  Ok (mkUsageTracker codex_home config_path
        session_window_minutes week_window_minutes
        session_limit_tokens week_limit_tokens).

End Init.

(** An infinite float, as [json.load] gives for [Infinity] or [1e999]. *)
Definition infinite (v : json) : Prop :=
  exists sign : bool, v = JFloat (S754_infinity sign).

(** The keys that [__init__] reads from the configuration. *)
Definition config_keys : list string :=
  ["session_window_minutes"; "week_window_minutes";
   "session_limit_tokens"; "week_limit_tokens"].

(** What a file adds to the sessions of a run when the parse does not
    read the wall clock: the session parsed from it, if there is one. *)
Definition file_sessions {RT : Runtime} (file : Path * list line)
  : list ParsedSession :=
  match _parse_session_file (fun _ => 0) (fst file) (snd file) with
  | Ok (Some parsed) => [parsed]
  | _ => []
  end.

(** Every [token_count] record of every file has a timestamp that parses. *)
Definition all_stamped {RT : Runtime} (files : list (Path * list line))
  : Prop :=
  forall path lines, In (path, lines) files ->
                     Forall (fun l => stamped l = true) lines.

(** More sample logs. *)
Module MoreExamples.

(** Readings that only grow: 100, 150, 200, with a meta record first. *)
Definition healthy_log : list line :=
  [Decoded (session_meta_record (JStr "2024-01-01T09:59:00Z") (JStr "abc"));
   Decoded (token_count_record (JStr "2024-01-01T10:00:00Z")
              (JDict [("input_tokens", JInt 60); ("total_tokens", JInt 100)]));
   Decoded (token_count_record (JStr "2024-01-01T10:01:00Z")
              (JDict [("input_tokens", JInt 90); ("total_tokens", JInt 150)]));
   Decoded (token_count_record (JStr "2024-01-01T10:02:00Z")
              (JDict [("input_tokens", JInt 120); ("total_tokens", JInt 200)]))].

(** A log whose read fails after two records. *)
Definition failing_log : list line :=
  [Decoded (token_count_record (JStr "2024-01-01T10:00:00Z") (only_total 100));
   Decoded (token_count_record (JStr "2024-01-01T10:01:00Z") (only_total 150));
   ReadFails;
   Decoded (token_count_record (JStr "2024-01-01T10:02:00Z") (only_total 200))].

(** A log with a line that decodes to a list. *)
Definition list_line_log : list line :=
  [Decoded (token_count_record (JStr "2024-01-01T10:00:00Z") (only_total 100));
   Decoded (JList [JInt 1; JInt 2])].

Definition path_c : Path := mkPath "archived_sessions/c.jsonl" "c".

(** Rate limits at 10:00, then rate limits on a record without timestamp. *)
Definition two_limits_log : list line :=
  [Decoded (rate_limits_record (JStr "2024-01-01T10:00:00Z") (only_total 10)
              (JDict [("primary", JDict [("used_percent", JInt 20)])]));
   Decoded (rate_limits_record JNull (only_total 30)
              (JDict [("primary", JDict [("used_percent", JInt 40)])]));
   Decoded (token_count_record (JStr "2024-01-01T10:05:00Z") (only_total 50))].

End MoreExamples.

(** * Properties *)

(** ** The usage counter *)

Ltac usage_fields :=
  repeat match goal with
  | u : TokenUsage |- _ => destruct u
  end;
  unfold nonneg, some_positive, some_nonzero, usage_le, add, delta,
    has_activity, new_usage in *;
  simpl in *.

Lemma add_comm (a b : TokenUsage) : add a b = add b a.
Proof. usage_fields. f_equal; lia. Qed.

Lemma add_assoc (a b c : TokenUsage) : add a (add b c) = add (add a b) c.
Proof. usage_fields. f_equal; lia. Qed.

Lemma add_new_usage_l (a : TokenUsage) : add new_usage a = a.
Proof. usage_fields. reflexivity. Qed.

Lemma add_new_usage_r (a : TokenUsage) : add a new_usage = a.
Proof. usage_fields. f_equal; lia. Qed.

Lemma delta_self (a : TokenUsage) : delta a a = new_usage.
Proof. usage_fields. f_equal; lia. Qed.

Lemma delta_nonneg (a b : TokenUsage) : nonneg (delta a b).
Proof. usage_fields. repeat split; lia. Qed.

Lemma add_nonneg (a b : TokenUsage) : nonneg a -> nonneg b -> nonneg (add a b).
Proof. usage_fields. intros; repeat split; lia. Qed.

Lemma new_usage_nonneg : nonneg new_usage.
Proof. unfold nonneg; simpl; lia. Qed.

Lemma has_activity_true (u : TokenUsage) :
  has_activity u = true <-> some_positive u.
Proof.
  usage_fields.
  rewrite !orb_true_iff, !Z.gtb_lt. tauto.
Qed.

Lemma has_activity_false (u : TokenUsage) :
  has_activity u = false <-> ~ some_positive u.
Proof.
  rewrite <- has_activity_true. destruct (has_activity u); split; congruence.
Qed.

Lemma nonneg_positive_iff_nonzero (u : TokenUsage) :
  nonneg u -> (some_positive u <-> some_nonzero u).
Proof. usage_fields. lia. Qed.

Lemma some_positive_nonzero (u : TokenUsage) : some_positive u -> some_nonzero u.
Proof. usage_fields. lia. Qed.

Lemma usage_le_refl (a : TokenUsage) : usage_le a a.
Proof. usage_fields. lia. Qed.

Lemma usage_le_trans (a b c : TokenUsage) :
  usage_le a b -> usage_le b c -> usage_le a c.
Proof. usage_fields. lia. Qed.

Lemma usage_le_add (a b c d : TokenUsage) :
  usage_le a b -> usage_le c d -> usage_le (add a c) (add b d).
Proof. usage_fields. lia. Qed.

Lemma usage_le_add_nonneg (a b c : TokenUsage) :
  usage_le a b -> nonneg c -> usage_le a (add b c).
Proof. usage_fields. lia. Qed.

Section Decoding.
Context {RT : Runtime}.

Lemma _safe_int_nonneg (v : json) (default n : Z) :
  nonneg_value v -> 0 <= default -> _safe_int v default = Ok n -> 0 <= n.
Proof.
  intros Hv Hd.
  destruct v as [ | b | k | x | s | items | fields ]; simpl in *.
  - intros H; injection H as <-; exact Hd.
  - intros H; injection H as <-; destruct b; lia.
  - intros H; injection H as <-; exact Hv.
  - destruct x as [ sz | si | | sf m e ]; simpl.
    + intros H; injection H as <-; lia.
    + discriminate.
    + intros H; injection H as <-; exact Hd.
    + destruct sf; [ contradiction | ].
      intros H; injection H as <-. apply Z.shiftl_nonneg. lia.
  - destruct (int_of_str s) as [ k | ].
    + intros H; injection H as <-; exact Hv.
    + intros H; injection H as <-; exact Hd.
  - intros H; injection H as <-; exact Hd.
  - intros H; injection H as <-; exact Hd.
Qed.

Lemma from_mapping_not_dict (v : json) :
  (forall fields, v <> JDict fields) -> from_mapping v = Ok new_usage.
Proof.
  intros H. destruct v; try reflexivity. exfalso. eapply H. reflexivity.
Qed.

Lemma bind_Ok {A B : Type} (r : result A) (k : A -> result B) (b : B) :
  bind r k = Ok b -> exists a, r = Ok a /\ k a = Ok b.
Proof.
  destruct r as [ a | e ]; simpl; [ | discriminate ].
  intros H. exists a. split; [ reflexivity | exact H ].
Qed.

Lemma from_mapping_nonneg (v : json) (u : TokenUsage) :
  (forall key, nonneg_value (dict_get (_safe_dict v) key)) ->
  from_mapping v = Ok u -> nonneg u.
Proof.
  intros Hv.
  destruct v as [ | b | k | x | s | items | fields ]; simpl;
    try (intros H; injection H as <-; exact new_usage_nonneg).
  intros H.
  apply bind_Ok in H as (i & Hi & H).
  apply bind_Ok in H as (c & Hc & H).
  apply bind_Ok in H as (o & Ho & H).
  apply bind_Ok in H as (r & Hr & H).
  apply bind_Ok in H as (t & Ht & H).
  injection H as <-.
  simpl in Hv.
  unfold nonneg; simpl.
  repeat split;
    eapply _safe_int_nonneg; try eassumption; try apply Hv; lia.
Qed.

End Decoding.

(** C7 (amended).  The result of [delta] has all five fields at least
    zero whatever the two counters are, also when every field of the
    subtrahend exceeds the field of [self]; [add] of two counters without
    negative fields has none; and a counter decoded by [from_mapping] has
    no negative field provided that no value of the mapping converts to a
    negative number.  The decoder itself does not clamp. *)
Theorem usage_counter_nonneg :
  forall RT : Runtime,
    (forall a b : TokenUsage, nonneg (delta a b))
    /\ (forall a b : TokenUsage, nonneg a -> nonneg b -> nonneg (add a b))
    /\ (forall (v : json) (u : TokenUsage),
          (forall key, nonneg_value (dict_get (_safe_dict v) key)) ->
          from_mapping v = Ok u -> nonneg u).
Proof.
  intros RT. split; [ | split ].
  - exact delta_nonneg.
  - exact add_nonneg.
  - exact from_mapping_nonneg.
Qed.

Lemma usage_counter_nonneg_witness :
  nonneg (delta (mkTokenUsage 1 2 3 4 5) (mkTokenUsage 9 9 9 9 9))
  /\ nonneg (add (mkTokenUsage 1 0 2 0 3) (mkTokenUsage 4 5 0 0 9))
  /\ nonneg (mkTokenUsage 3 0 0 0 7).
Proof.
  destruct (usage_counter_nonneg Sample.runtime) as (Hdelta & Hadd & Hmap).
  split; [ apply Hdelta | split ].
  - apply Hadd; unfold nonneg; simpl; lia.
  - apply (Hmap (JDict [("input_tokens", JInt 3); ("total_tokens", JInt 7)])).
    + intros key. cbn [dict_get _safe_dict].
      destruct (String.eqb "input_tokens" key); [ simpl; lia | ].
      destruct (String.eqb "total_tokens" key); [ simpl; lia | exact I ].
    + reflexivity.
Defined.

(** A negative number in a record is decoded as it stands. *)
Lemma decoded_counter_negative :
  from_mapping (RT := Sample.runtime)
    (JDict [("input_tokens", JInt (-5)); ("total_tokens", JInt 10)])
  = Ok (mkTokenUsage (-5) 0 0 0 10)
  /\ ~ nonneg (mkTokenUsage (-5) 0 0 0 10).
Proof.
  split; [ reflexivity | ].
  unfold nonneg; simpl. lia.
Qed.

(** ** The parser, record by record *)

Section ParserFacts.
Context {RT : Runtime}.

(** The rate limits of a record leave the usage variables alone. *)
Lemma on_rate_limits_usage (timestamp : option datetime) (rate_limits : json)
  (st : locals) :
  let st' := on_rate_limits timestamp rate_limits st in
  l_prev_totals st' = l_prev_totals st
  /\ l_events st' = l_events st
  /\ l_totals st' = l_totals st
  /\ l_last_event_at st' = l_last_event_at st.
Proof. destruct rate_limits; simpl; auto. Qed.

Lemma on_total_usage_last_event_at (clock : datetime)
  (timestamp : option datetime) (u : TokenUsage) (st : locals) :
  l_last_event_at (on_total_usage clock timestamp u st) = l_last_event_at st.
Proof.
  unfold on_total_usage.
  destruct (has_activity u); [ | reflexivity ].
  destruct (has_activity (increment (l_prev_totals st) u)); reflexivity.
Qed.

(** When the counter of the record decodes, the [token_count] branch
    returns, and its result is the three updates in sequence. *)
Lemma on_token_count_Ok (clock : datetime) (timestamp : option datetime)
  (payload : pydict) (st : locals) (u : TokenUsage) :
  from_mapping (usage_value payload) = Ok u ->
  on_token_count clock timestamp payload st
  = Ok (on_rate_limits timestamp (dict_get payload "rate_limits")
          (on_total_usage clock timestamp u
             (set_last_event_at (touch timestamp (l_last_event_at st)) st))).
Proof.
  unfold on_token_count, usage_value. intros ->. reflexivity.
Qed.

(** After a counter with a positive field, the increment has a positive
    field exactly when it has a field that is not zero. *)
Lemma increment_activity (prev : option TokenUsage) (u : TokenUsage) :
  some_positive u ->
  (has_activity (increment prev u) = true <-> some_nonzero (increment prev u)).
Proof.
  intros Hu. rewrite has_activity_true.
  destruct prev as [ p | ]; simpl.
  - apply nonneg_positive_iff_nonzero, delta_nonneg.
  - split; [ apply some_positive_nonzero | intros _; exact Hu ].
Qed.

(** A [token_count] record, seen from the item: the loop body takes the
    [token_count] branch. *)
Lemma on_item_token_count (clock : datetime) (fields : pydict) (st : locals) :
  is_token_count fields = true ->
  on_item clock (JDict fields) st
  = (timestamp <- _parse_iso8601 (dict_get fields "timestamp") ;;
     on_token_count clock timestamp (payload_of fields) st).
Proof.
  unfold is_token_count, on_item, payload_of.
  intros H. apply andb_true_iff in H as (Htype & Hinner).
  destruct (dict_get fields "type") as [ | | | | s | | ]; try discriminate.
  simpl in Htype. apply String.eqb_eq in Htype. subst s.
  destruct (_parse_iso8601 (dict_get fields "timestamp")) as [ t | e ];
    [ | reflexivity ].
  simpl. rewrite Hinner. reflexivity.
Qed.

(** What a record that is read without an exception does to the locals. *)
Lemma on_item_cases (clock : datetime) (fields : pydict) (st st' : locals) :
  on_item clock (JDict fields) st = Ok st' ->
  exists timestamp : option datetime,
    _parse_iso8601 (dict_get fields "timestamp") = Ok timestamp
    /\ ((is_str (dict_get fields "type") "session_meta" = true
         /\ is_token_count fields = false
         /\ exists started : option datetime,
              _parse_iso8601 (dict_get (payload_of fields) "timestamp")
              = Ok started
              /\ st' = on_session_meta timestamp started (payload_of fields) st)
        \/ (is_str (dict_get fields "type") "session_meta" = false
            /\ is_token_count fields = false /\ st' = st)
        \/ (is_token_count fields = true
            /\ exists u,
                 from_mapping (usage_value (payload_of fields)) = Ok u
                 /\ st' = on_rate_limits timestamp
                            (dict_get (payload_of fields) "rate_limits")
                            (on_total_usage clock timestamp u
                               (set_last_event_at
                                  (touch timestamp (l_last_event_at st)) st)))).
Proof.
  intros Hrun.
  destruct (_parse_iso8601 (dict_get fields "timestamp"))
    as [ timestamp | e ] eqn:Hts;
    [ | unfold on_item in Hrun; rewrite Hts in Hrun; discriminate ].
  exists timestamp. split; [ reflexivity | ].
  destruct (is_token_count fields) eqn:Hkind.
  - right. right. split; [ reflexivity | ].
    rewrite (on_item_token_count clock fields st Hkind), Hts in Hrun.
    cbn [bind] in Hrun. unfold on_token_count in Hrun.
    apply bind_Ok in Hrun as (u & Hu & Hrun). injection Hrun as <-.
    exists u. split; [ exact Hu | reflexivity ].
  - unfold on_item in Hrun. rewrite Hts in Hrun. cbn [bind] in Hrun.
    unfold is_token_count, payload_of in Hkind.
    destruct (is_str (dict_get fields "type") "session_meta") eqn:Hmeta.
    + left. apply bind_Ok in Hrun as (started & Hstarted & Hrun).
      injection Hrun as <-. split; [ reflexivity | ].
      split; [ reflexivity | ].
      exists started. split; [ exact Hstarted | reflexivity ].
    + right. left. rewrite <- negb_andb, Hkind in Hrun. simpl in Hrun.
      injection Hrun as <-. repeat split.
Qed.

End ParserFacts.

(** C4 (amended).  For every [token_count] record whose counter decodes:
    when the cumulative counter has no field greater than zero, the cursor,
    the events and the totals stay as they were; when it has one, the
    cursor becomes that counter whatever the increment is, and an event is
    appended, stamped with the record's instant or with the wall clock,
    exactly when the increment has a field that is not zero. *)
Theorem token_count_cursor_rule :
  forall (RT : Runtime) (clock : datetime) (timestamp : option datetime)
         (payload : pydict) (st : locals) (total_usage : TokenUsage),
    from_mapping (usage_value payload) = Ok total_usage ->
    exists st',
      on_token_count clock timestamp payload st = Ok st'
      /\ (~ some_positive total_usage ->
          l_prev_totals st' = l_prev_totals st
          /\ l_events st' = l_events st
          /\ l_totals st' = l_totals st)
      /\ (some_positive total_usage ->
          let d := increment (l_prev_totals st) total_usage in
          let event_ts := match timestamp with Some t => t | None => clock end in
          l_prev_totals st' = Some total_usage
          /\ (some_nonzero d ->
              l_events st' = l_events st ++ [(event_ts, d)]
              /\ l_totals st' = add (l_totals st) d)
          /\ (~ some_nonzero d ->
              l_events st' = l_events st /\ l_totals st' = l_totals st)).
Proof.
  intros RT clock timestamp payload st total_usage Hdecode.
  eexists. split; [ apply on_token_count_Ok; exact Hdecode | ].
  pose proof (on_rate_limits_usage timestamp (dict_get payload "rate_limits")
    (on_total_usage clock timestamp total_usage
       (set_last_event_at (touch timestamp (l_last_event_at st)) st)))
    as (Hprev & Hevents & Htotals & _).
  rewrite Hprev, Hevents, Htotals. clear Hprev Hevents Htotals.
  unfold on_total_usage.
  split.
  - intros Hnone. apply has_activity_false in Hnone. rewrite Hnone.
    simpl. auto.
  - intros Hsome. pose proof Hsome as Hact.
    apply has_activity_true in Hact. rewrite Hact.
    cbn [l_prev_totals set_last_event_at].
    pose proof (increment_activity (l_prev_totals st) total_usage Hsome) as Hiff.
    destruct (has_activity (increment (l_prev_totals st) total_usage)) eqn:Hd;
      simpl.
    + split; [ reflexivity | ]. split; [ auto | ].
      intros Hzero. exfalso. apply Hzero, Hiff. reflexivity.
    + split; [ reflexivity | ]. split; [ | auto ].
      intros Hnz. apply Hiff in Hnz. discriminate.
Qed.

Lemma token_count_cursor_rule_witness :
  exists st',
    on_token_count (RT := Sample.runtime) 7 (Some 3)
      [("type", JStr "token_count");
       ("info", JDict [("total_token_usage", only_total 150)])]
      (mkLocals "s" None None None (mkTokenUsage 0 0 0 0 100)
         (Some (mkTokenUsage 0 0 0 0 100)) [(1, mkTokenUsage 0 0 0 0 100)]
         None None)
    = Ok st'
    /\ l_prev_totals st' = Some (mkTokenUsage 0 0 0 0 150)
    /\ l_events st'
       = [(1, mkTokenUsage 0 0 0 0 100); (3, mkTokenUsage 0 0 0 0 50)].
Proof.
  destruct (token_count_cursor_rule Sample.runtime 7 (Some 3)
    [("type", JStr "token_count");
     ("info", JDict [("total_token_usage", only_total 150)])]
    (mkLocals "s" None None None (mkTokenUsage 0 0 0 0 100)
       (Some (mkTokenUsage 0 0 0 0 100)) [(1, mkTokenUsage 0 0 0 0 100)]
       None None)
    (mkTokenUsage 0 0 0 0 150) eq_refl) as (st' & Hrun & _ & Hsome).
  exists st'. split; [ exact Hrun | ].
  assert (Hpos : some_positive (mkTokenUsage 0 0 0 0 150)).
  { unfold some_positive; simpl; lia. }
  destruct (Hsome Hpos) as (Hprev & Hnz & _).
  split; [ exact Hprev | ].
  apply Hnz. unfold some_nonzero; simpl; lia.
Defined.

(** A counter whose only field that is not zero is negative is passed
    over: the cursor stays absent. *)
Lemma negative_counter_passed_over :
  from_mapping (RT := Sample.runtime)
    (usage_value (payload_of
       [("timestamp", JStr "2024-01-01T00:00:00Z");
        ("type", JStr "event_msg");
        ("payload",
         JDict [("type", JStr "token_count");
                ("info", JDict [("total_token_usage", only_total (-5))])])]))
  = Ok (mkTokenUsage 0 0 0 0 (-5))
  /\ some_nonzero (mkTokenUsage 0 0 0 0 (-5))
  /\ exists st',
       on_item (RT := Sample.runtime) 0
         (token_count_record (JStr "2024-01-01T00:00:00Z") (only_total (-5)))
         (initial_locals (mkPath "sessions/rollout-a.jsonl" "rollout-a"))
       = Ok st'
       /\ l_prev_totals st' = None
       /\ l_prev_totals st' <> Some (mkTokenUsage 0 0 0 0 (-5)).
Proof.
  split; [ reflexivity | ].
  split; [ unfold some_nonzero; simpl; lia | ].
  eexists. split; [ vm_compute; reflexivity | ].
  split; [ reflexivity | discriminate ].
Qed.

(** C1 (amended).  For four [token_count] records that carry only
    [total_tokens], with the cumulative readings 100, 150, 140 and 200,
    and whose timestamps [_parse_iso8601] parses without an exception:
    the four records are read; the increments computed record by record
    are 100, 50, 0 and 60, the first being the reading itself and the third
    the clamped regression; the cursor is 140 after the third record; and,
    the zero increment giving no event, the events of the session are 100,
    50 and 60, with totals 210. *)
Theorem cumulative_readings_100_150_140_200 :
  forall (RT : Runtime) (clock : nat -> datetime) (path : Path)
         (ts1 ts2 ts3 ts4 : json) (t1 t2 t3 t4 : option datetime),
    _parse_iso8601 ts1 = Ok t1 ->
    _parse_iso8601 ts2 = Ok t2 ->
    _parse_iso8601 ts3 = Ok t3 ->
    _parse_iso8601 ts4 = Ok t4 ->
    let u := fun n => mkTokenUsage 0 0 0 0 n in
    let stamp := fun (k : nat) (t : option datetime) =>
      match t with Some t => t | None => clock k end in
    let r := fun (ts : json) (n : Z) => token_count_record ts (only_total n) in
    exists st1 st2 st3 st4 : locals,
      on_item (clock 0%nat) (r ts1 100) (initial_locals path) = Ok st1
      /\ on_item (clock 1%nat) (r ts2 150) st1 = Ok st2
      /\ on_item (clock 2%nat) (r ts3 140) st2 = Ok st3
      /\ on_item (clock 3%nat) (r ts4 200) st3 = Ok st4
      /\ read_lines clock 0
           [Decoded (r ts1 100); Decoded (r ts2 150);
            Decoded (r ts3 140); Decoded (r ts4 200)]
           (initial_locals path) = Ok st4
      /\ increment (l_prev_totals (initial_locals path)) (u 100) = u 100
      /\ increment (l_prev_totals st1) (u 150) = u 50
      /\ increment (l_prev_totals st2) (u 140) = u 0
      /\ increment (l_prev_totals st3) (u 200) = u 60
      /\ l_prev_totals st3 = Some (u 140)
      /\ l_events st3 = [(stamp 0%nat t1, u 100); (stamp 1%nat t2, u 50)]
      /\ l_events st4
         = [(stamp 0%nat t1, u 100); (stamp 1%nat t2, u 50);
            (stamp 3%nat t4, u 60)]
      /\ l_totals st4 = u 210.
Proof.
  intros RT clock path ts1 ts2 ts3 ts4 t1 t2 t3 t4 H1 H2 H3 H4 u stamp r.
  assert (Hstep : forall (k : nat) (ts : json) (t : option datetime) (n : Z)
                         (st : locals),
             _parse_iso8601 ts = Ok t ->
             on_item (clock k) (r ts n) st
             = on_token_count (clock k) t
                 [("type", JStr "token_count");
                  ("info", JDict [("total_token_usage", only_total n)])] st).
  { intros k ts t n st Hts. unfold r, token_count_record.
    rewrite on_item_token_count by reflexivity.
    change (dict_get _ "timestamp") with ts. rewrite Hts. reflexivity. }
  do 4 eexists.
  split; [ rewrite (Hstep _ _ _ _ _ H1); cbv; reflexivity | ].
  split; [ rewrite (Hstep _ _ _ _ _ H2); cbv; reflexivity | ].
  split; [ rewrite (Hstep _ _ _ _ _ H3); cbv; reflexivity | ].
  split; [ rewrite (Hstep _ _ _ _ _ H4); cbv; reflexivity | ].
  split.
  { cbn [read_lines].
    rewrite (Hstep _ _ _ _ _ H1).
    match goal with
    | |- context [on_token_count ?c ?t ?q ?s] =>
        let v := eval cbv in (on_token_count c t q s) in
        change (on_token_count c t q s) with v
    end.
    cbn [bind]. rewrite (Hstep _ _ _ _ _ H2).
    match goal with
    | |- context [on_token_count ?c ?t ?q ?s] =>
        let v := eval cbv in (on_token_count c t q s) in
        change (on_token_count c t q s) with v
    end.
    cbn [bind]. rewrite (Hstep _ _ _ _ _ H3).
    match goal with
    | |- context [on_token_count ?c ?t ?q ?s] =>
        let v := eval cbv in (on_token_count c t q s) in
        change (on_token_count c t q s) with v
    end.
    cbn [bind]. rewrite (Hstep _ _ _ _ _ H4). cbv. reflexivity. }
  repeat split; cbv; reflexivity.
Qed.

Lemma cumulative_readings_100_150_140_200_witness :
  exists st : locals,
    read_lines (RT := Sample.runtime) (fun _ => Examples.noon) 0
      Examples.readings_log (initial_locals Examples.path_a) = Ok st
    /\ map (fun e : Event => total_tokens (snd e)) (l_events st)
       = [100; 50; 60]
    /\ l_totals st = mkTokenUsage 0 0 0 0 210.
Proof.
  destruct (cumulative_readings_100_150_140_200 Sample.runtime
              (fun _ => Examples.noon) Examples.path_a
              (JStr "2024-01-01T10:00:00Z") (JStr "2024-01-01T10:01:00Z")
              (JStr "2024-01-01T10:02:00Z") (JStr "2024-01-01T10:03:00Z")
              (Some 1704103200000000) (Some 1704103260000000)
              (Some 1704103320000000) (Some 1704103380000000)
              eq_refl eq_refl eq_refl eq_refl)
    as (st1 & st2 & st3 & st4 & _ & _ & _ & _ & Hrun & _ & _ & _ & _ & _ & _
        & Hevents & Htotals).
  exists st4. split; [ exact Hrun | ].
  split; [ rewrite Hevents; reflexivity | exact Htotals ].
Defined.

(** With only [total_tokens] in the records, the session has three events,
    not four. *)
Lemma readings_give_three_events :
  exists session : ParsedSession,
    _parse_session_file (RT := Sample.runtime) (fun _ => Examples.noon)
      Examples.path_a Examples.readings_log = Ok (Some session)
    /\ map (fun e : Event => total_tokens (snd e)) (events session)
       = [100; 50; 60]
    /\ map (fun e : Event => total_tokens (snd e)) (events session)
       <> [100; 50; 0; 60].
Proof.
  eexists. split; [ vm_compute; reflexivity | ].
  split; [ reflexivity | discriminate ].
Qed.

(** ** The totals of a session are the sum of its events *)

Lemma sum_all_from (events : list Event) (start : TokenUsage) :
  fold_left (fun total (event : Event) => add total (snd event)) events start
  = add start (sum_all events).
Proof.
  unfold sum_all. revert start.
  induction events as [ | e rest IH ]; intros start; simpl.
  - symmetry. apply add_new_usage_r.
  - rewrite IH, (IH (add new_usage (snd e))).
    rewrite add_new_usage_l. symmetry. apply add_assoc.
Qed.

Lemma sum_all_snoc (events : list Event) (e : Event) :
  sum_all (events ++ [e]) = add (sum_all events) (snd e).
Proof.
  unfold sum_all at 1. rewrite fold_left_app. simpl.
  reflexivity.
Qed.

Section Totals.
Context {RT : Runtime}.

Lemma initial_totals_match (path : Path) : totals_match (initial_locals path).
Proof. reflexivity. Qed.

Lemma on_total_usage_totals_match (clock : datetime)
  (timestamp : option datetime) (u : TokenUsage) (st : locals) :
  totals_match st -> totals_match (on_total_usage clock timestamp u st).
Proof.
  unfold totals_match, on_total_usage. intros H.
  destruct (has_activity u); [ | exact H ].
  destruct (has_activity (increment (l_prev_totals st) u)); simpl.
  - rewrite sum_all_snoc, H. reflexivity.
  - exact H.
Qed.

Lemma on_item_totals_match (clock : datetime) (item : json) (st st' : locals) :
  on_item clock item st = Ok st' -> totals_match st -> totals_match st'.
Proof.
  destruct item as [ | | | | | | fields ]; try discriminate.
  intros Hrun Hst.
  destruct (on_item_cases clock fields st st' Hrun)
    as (timestamp & _
        & [ (_ & _ & started & _ & ->)
          | [ (_ & _ & ->) | (_ & u & _ & ->) ] ]);
    try exact Hst.
  unfold totals_match.
  destruct (on_rate_limits_usage timestamp
    (dict_get (payload_of fields) "rate_limits")
    (on_total_usage clock timestamp u
       (set_last_event_at (touch timestamp (l_last_event_at st)) st)))
    as (_ & -> & -> & _).
  apply on_total_usage_totals_match. exact Hst.
Qed.

Lemma read_lines_totals_match (clock : nat -> datetime) (lines : list line) :
  forall (n : nat) (st st' : locals),
    read_lines clock n lines st = Ok st' ->
    totals_match st -> totals_match st'.
Proof.
  induction lines as [ | l rest IH ]; intros n st st'; simpl.
  - intros H; injection H as <-. auto.
  - destruct l as [ | | item | | e ]; try (apply IH); try discriminate.
    intros H Hst. apply bind_Ok in H as (mid & Hmid & H).
    eapply IH; [ exact H | ].
    eapply on_item_totals_match; eassumption.
Qed.

(** Lines that carry no usage, and whose timestamps are parsed without
    an exception, leave the events and the totals alone, or the read
    fails. *)
Lemma read_lines_no_usage (clock : nat -> datetime) (lines : list line) :
  Forall (fun l => carries_no_usage l = true /\ timestamps_parse l = true)
    lines ->
  forall (n : nat) (st : locals),
    read_lines clock n lines st = Raise OSError
    \/ exists st', read_lines clock n lines st = Ok st'
                   /\ l_events st' = l_events st
                   /\ l_totals st' = l_totals st.
Proof.
  induction 1 as [ | l rest (Hl & Hts) _ IH ]; intros n st; simpl.
  - right. exists st. auto.
  - destruct l as [ | | item | | e ]; try (apply IH).
    + destruct item as [ | | | | | | fields ]; try discriminate.
      simpl in Hl. apply negb_true_iff in Hl.
      unfold timestamps_parse, parses in Hts.
      unfold on_item.
      destruct (_parse_iso8601 (dict_get fields "timestamp"))
        as [ timestamp | e ]; [ | discriminate ].
      cbn [bind andb] in *.
      destruct (is_str (dict_get fields "type") "session_meta").
      { unfold payload_of in Hts. cbn [negb orb] in Hts.
        destruct (_parse_iso8601
                    (dict_get (_safe_dict (dict_get fields "payload"))
                       "timestamp")) as [ started | e ];
          [ | discriminate ].
        cbn [bind].
        destruct (IH (S n) (on_session_meta timestamp started
                              (_safe_dict (dict_get fields "payload")) st))
          as [ Hfail | (st' & Hrun & Hev & Htot) ]; [ left; exact Hfail | ].
        right. exists st'. auto. }
      unfold is_token_count, payload_of in Hl.
      rewrite <- negb_andb, Hl. simpl. apply IH.
    + left. reflexivity.
    + destruct e; try discriminate. left. reflexivity.
Qed.

End Totals.

(** ** Absence *)

Section Absence.
Context {RT : Runtime}.

Lemma percent_or_limit_no_usage (limit : option Z) :
  exists percent, percent_or_limit None limit new_usage = Ok percent.
Proof.
  destruct limit as [ [ | l | l ] | ]; simpl; eexists; reflexivity.
Qed.

(** The cutoff of a window, when line 252 gives one. *)
Lemma window_cutoff_value (now : datetime) (minutes : Z) (cutoff : datetime) :
  window_cutoff now minutes = Ok cutoff -> cutoff = now - minutes * 60000000.
Proof.
  unfold window_cutoff, timedelta_minutes, datetime_sub.
  destruct ((-999999999 <=? minutes / 1440) && (minutes / 1440 <=? 999999999));
    [ | discriminate ].
  cbn [bind].
  destruct (in_range (now - minutes * 60000000)); [ | discriminate ].
  intros H; injection H as <-. reflexivity.
Qed.

(** A call of [sum_window] that returns gives [sum_window]. *)
Lemma sum_window_call_Ok (now : datetime) (events : list Event) (minutes : Z)
  (usage : TokenUsage) :
  sum_window_call now events minutes = Ok usage ->
  usage = sum_window now events minutes.
Proof.
  unfold sum_window_call. intros H.
  apply bind_Ok in H as (cutoff & Hcutoff & H). injection H as <-.
  rewrite (window_cutoff_value _ _ _ Hcutoff). reflexivity.
Qed.

(** It returns when line 252 gives a cutoff. *)
Lemma sum_window_call_returns (now : datetime) (events : list Event)
  (minutes : Z) (cutoff : datetime) :
  window_cutoff now minutes = Ok cutoff ->
  sum_window_call now events minutes = Ok (sum_window now events minutes).
Proof.
  intros Hcutoff. unfold sum_window_call. rewrite Hcutoff. cbn [bind].
  rewrite (window_cutoff_value _ _ _ Hcutoff). reflexivity.
Qed.

Lemma windows_in_range_calls (self : UsageTracker) (now : datetime)
  (events : list Event) :
  windows_in_range self now ->
  forall minutes : Z,
    In minutes (window_lengths self) ->
    sum_window_call now events minutes = Ok (sum_window now events minutes).
Proof.
  intros Hrange minutes Hin.
  destruct (Hrange minutes Hin) as (cutoff & Hcutoff).
  apply (sum_window_call_returns _ _ _ _ Hcutoff).
Qed.

(** A run that finds no session still returns a document, when the
    cutoffs of its windows are in range. *)
Lemma generate_snapshot_no_session (self : UsageTracker) (now : datetime)
  (clock : nat -> nat -> datetime) (files : list (Path * list line)) :
  windows_in_range self now ->
  scan_files clock 0 files empty_scan = Ok empty_scan ->
  exists doc, generate_snapshot self now clock files = Ok doc
              /\ Doc.sessions_count doc = 0%nat
              /\ Doc.events_count doc = 0%nat.
Proof.
  intros Hrange Hscan. unfold generate_snapshot. rewrite Hscan.
  cbn [bind empty_scan all_events scan_rate_limits scan_rate_limits_at
       parsed_sessions py_sorted sort_stable fold_right].
  rewrite !(windows_in_range_calls self now [] Hrange)
    by (unfold window_lengths; simpl; auto 10).
  cbn [bind dict_get _safe_dict
       _safe_float_or_none _safe_int_or_none _safe_int _seconds_until_epoch
       _epoch_to_iso8601 sum_window fold_left].
  destruct (percent_or_limit_no_usage (session_limit_tokens self)) as (p1 & ->).
  destruct (percent_or_limit_no_usage (week_limit_tokens self)) as (p2 & ->).
  cbn [bind]. eexists. split; [ reflexivity | ]. split; reflexivity.
Qed.

Lemma parse_completed (clock : nat -> datetime) (path : Path)
  (lines : list line) (st : locals) :
  read_lines clock 0 lines (initial_locals path) = Ok st ->
  _parse_session_file clock path lines
  = if is_empty (l_events st) && (total_tokens (l_totals st) =? 0)
    then Ok None else Ok (Some (to_session path st)).
Proof. unfold _parse_session_file. intros ->. reflexivity. Qed.

Lemma parse_no_usage (clock : nat -> datetime) (path : Path)
  (lines : list line) :
  Forall (fun l => carries_no_usage l = true /\ timestamps_parse l = true)
    lines ->
  _parse_session_file clock path lines = Ok None.
Proof.
  intros Hlines.
  destruct (read_lines_no_usage clock lines Hlines 0 (initial_locals path))
    as [ Hfail | (st & Hrun & Hev & Htot) ].
  - unfold _parse_session_file. rewrite Hfail. reflexivity.
  - rewrite (parse_completed _ _ _ _ Hrun), Hev, Htot. reflexivity.
Qed.

End Absence.

(** C8.  When the file is read to its end, the parser returns absence
    exactly when the list of events is empty and the totals are all zero.
    A log without any [token_count] record, such as one that holds a
    [session_meta] record only, whose timestamps are parsed without an
    exception, gives absence; a run over it counts no session, the cutoffs
    of the windows being in range, and in a longer run it leaves the scan
    as it was. *)
Theorem absence_rule :
  forall (RT : Runtime) (path : Path) (lines : list line),
    (forall (clock : nat -> datetime) (st : locals),
        read_lines clock 0 lines (initial_locals path) = Ok st ->
        (_parse_session_file clock path lines = Ok None
         <-> l_events st = [] /\ l_totals st = new_usage))
    /\ (Forall (fun l => carries_no_usage l = true
                         /\ timestamps_parse l = true) lines ->
        (forall clock, _parse_session_file clock path lines = Ok None)
        /\ (forall self now clock,
              windows_in_range self now ->
              exists doc,
                generate_snapshot self now clock [(path, lines)] = Ok doc
                /\ Doc.files_scanned doc = 1%nat
                /\ Doc.sessions_count doc = 0%nat)
        /\ (forall clock k rest acc,
              scan_files clock k ((path, lines) :: rest) acc
              = scan_files clock (S k) rest acc)).
Proof.
  intros RT path lines. split.
  - intros clock st Hrun.
    rewrite (parse_completed _ _ _ _ Hrun).
    pose proof (read_lines_totals_match clock lines 0 _ _ Hrun
                  (initial_totals_match path)) as Hsum.
    unfold totals_match in Hsum.
    destruct (l_events st) as [ | e rest ] eqn:Hev; simpl.
    + rewrite Hsum. simpl. split; auto.
    + split; [ discriminate | intros (Habs & _); discriminate ].
  - intros Hlines.
    assert (Hparse : forall clock, _parse_session_file clock path lines = Ok None)
      by (intros clock; apply parse_no_usage; exact Hlines).
    split; [ exact Hparse | ]. split.
    + intros self now clock Hrange.
      destruct (generate_snapshot_no_session self now clock [(path, lines)]
                  Hrange)
        as (doc & Hdoc & Hcount & _).
      { simpl. rewrite Hparse. reflexivity. }
      exists doc. split; [ exact Hdoc | ]. split; [ | exact Hcount ].
      revert Hdoc. unfold generate_snapshot.
      cbn [scan_files]. rewrite Hparse. cbn [bind].
      intros Hdoc.
      repeat match type of Hdoc with
      | bind ?r _ = Ok _ =>
          let x := fresh "x" in
          apply bind_Ok in Hdoc as (x & _ & Hdoc)
      end.
      injection Hdoc as <-. reflexivity.
    + intros clock k rest acc. simpl. rewrite Hparse. reflexivity.
Qed.

Lemma absence_rule_witness :
  _parse_session_file (RT := Sample.runtime) (fun _ => Examples.noon)
    Examples.path_a Examples.meta_log = Ok None
  /\ exists doc,
       generate_snapshot (RT := Sample.runtime) Examples.tracker Examples.noon
         (Examples.still_clock Examples.noon)
         [(Examples.path_a, Examples.meta_log)] = Ok doc
       /\ Doc.sessions_count doc = 0%nat.
Proof.
  destruct (absence_rule Sample.runtime Examples.path_a Examples.meta_log)
    as (Hiff & Hmeta).
  split.
  - refine (proj2 (Hiff (fun _ => Examples.noon) _ _) _).
    + vm_compute. reflexivity.
    + split; reflexivity.
  - assert (Hlines : Forall (fun l => carries_no_usage l = true
                                      /\ timestamps_parse
                                           (RT := Sample.runtime) l = true)
                       Examples.meta_log)
      by (repeat constructor).
    destruct (Hmeta Hlines) as (_ & Hdoc & _).
    destruct (Hdoc Examples.tracker Examples.noon
                (Examples.still_clock Examples.noon))
      as (doc & Hrun & _ & Hcount).
    + intros minutes Hin.
      repeat (destruct Hin as [ <- | Hin ];
              [ eexists; vm_compute; reflexivity | ]).
      destruct Hin.
    + exists doc. split; [ exact Hrun | exact Hcount ].
Defined.

(** A timestamp that leaves the range of [datetime] once converted to UTC
    makes the parser raise, also on a [session_meta] record; and a window
    of [10 ** 10] minutes has no cutoff, so that the run raises. *)
Lemma out_of_range_raises :
  _parse_iso8601 (RT := Sample.runtime) (JStr "0001-01-01T00:00:00+01:00")
  = Raise OverflowError
  /\ _parse_session_file (RT := Sample.runtime) (fun _ => Examples.noon)
       Examples.path_a
       [Decoded (session_meta_record (JStr "0001-01-01T00:00:00+01:00")
                   (JStr "abc"))]
     = Raise OverflowError
  /\ generate_snapshot (RT := Sample.runtime)
       (mkUsageTracker "/home/u/.codex"
          "/home/u/.codex/usage_tracker/config.json" 300 (10 ^ 10) None None)
       Examples.noon (Examples.still_clock Examples.noon)
       [(Examples.path_a, Examples.meta_log)]
     = Raise OverflowError.
Proof. repeat split; vm_compute; reflexivity. Qed.

(** ** The last-seen instant *)

Section LastSeen.
Context {RT : Runtime}.

Lemma on_total_usage_idle (clock : datetime) (timestamp : option datetime)
  (u : TokenUsage) (st : locals) :
  ~ some_positive u -> on_total_usage clock timestamp u st = st.
Proof.
  intros H. apply has_activity_false in H.
  unfold on_total_usage. rewrite H. reflexivity.
Qed.

Lemma touch_newer (t : datetime) (last : option datetime) :
  (forall l, last = Some l -> l < t) -> touch (Some t) last = Some t.
Proof.
  intros H. destruct last as [ l | ]; simpl; [ | reflexivity ].
  specialize (H l eq_refl). rewrite Z.gtb_ltb.
  destruct (l <? t) eqn:Hcmp; [ reflexivity | ].
  apply Z.ltb_ge in Hcmp. lia.
Qed.

Lemma on_token_count_last_seen (clock : datetime) (fields : pydict)
  (st : locals) (t : datetime) (u : TokenUsage) :
  is_token_count fields = true ->
  _parse_iso8601 (dict_get fields "timestamp") = Ok (Some t) ->
  (forall l, l_last_event_at st = Some l -> l < t) ->
  from_mapping (usage_value (payload_of fields)) = Ok u ->
  exists st',
    on_item clock (JDict fields) st = Ok st'
    /\ l_last_event_at st' = Some t
    /\ (~ some_positive u ->
        l_events st' = l_events st
        /\ l_prev_totals st' = l_prev_totals st
        /\ l_totals st' = l_totals st).
Proof.
  intros Hkind Hts Hnewer Hdecode.
  rewrite (on_item_token_count clock fields st Hkind), Hts.
  cbn [bind].
  rewrite (on_token_count_Ok clock (Some t) _ st u Hdecode).
  eexists. split; [ reflexivity | ].
  destruct (on_rate_limits_usage (Some t)
    (dict_get (payload_of fields) "rate_limits")
    (on_total_usage clock (Some t) u
       (set_last_event_at (touch (Some t) (l_last_event_at st)) st)))
    as (-> & -> & -> & ->).
  split.
  - rewrite on_total_usage_last_event_at. simpl.
    apply touch_newer. exact Hnewer.
  - intros Hidle. rewrite (on_total_usage_idle _ _ _ _ Hidle). simpl. auto.
Qed.

End LastSeen.

(** C10.  A [token_count] record whose timestamp parses to an instant
    newer than the last-seen instant of the session, or met when there is
    none yet, sets the last-seen instant to its own, provided its counter
    decodes; this holds when the counter has no field greater than zero,
    where the record adds no event and leaves the cursor, and when the
    counter is absent.  So the most recently active session can be one
    whose latest record added no usage: in the sample run the session that
    last used tokens at 10:00 and was last seen at 12:00 is the active
    one, before the session that used tokens at 11:00. *)
Theorem token_count_touches_last_seen :
  (forall (RT : Runtime) (clock : datetime) (fields : pydict) (st : locals)
          (t : datetime) (u : TokenUsage),
      is_token_count fields = true ->
      _parse_iso8601 (dict_get fields "timestamp") = Ok (Some t) ->
      (forall l, l_last_event_at st = Some l -> l < t) ->
      from_mapping (usage_value (payload_of fields)) = Ok u ->
      exists st',
        on_item clock (JDict fields) st = Ok st'
        /\ l_last_event_at st' = Some t
        /\ (~ some_positive u ->
            l_events st' = l_events st
            /\ l_prev_totals st' = l_prev_totals st
            /\ l_totals st' = l_totals st))
  /\ (forall (RT : Runtime) (clock : datetime) (fields : pydict) (st : locals)
             (t : datetime),
      is_token_count fields = true ->
      _parse_iso8601 (dict_get fields "timestamp") = Ok (Some t) ->
      (forall l, l_last_event_at st = Some l -> l < t) ->
      (forall usage, usage_value (payload_of fields) <> JDict usage) ->
      exists st',
        on_item clock (JDict fields) st = Ok st'
        /\ l_last_event_at st' = Some t
        /\ l_events st' = l_events st
        /\ l_prev_totals st' = l_prev_totals st)
  /\ (exists (sc : scan) (active other : ParsedSession),
        scan_files (RT := Sample.runtime) (Examples.still_clock Examples.noon) 0
          [(Examples.path_a, Examples.quiet_end_log);
           (Examples.path_b, Examples.busy_log)] empty_scan = Ok sc
        /\ parsed_sessions sc = [active; other]
        /\ active_session (parsed_sessions sc) = Some active
        /\ last_event_at active = Some Examples.noon
        /\ map fst (events active) = [Examples.noon - 7200000000]
        /\ map fst (events other) = [Examples.noon - 3600000000]).
Proof.
  split; [ | split ].
  - intros RT. apply on_token_count_last_seen.
  - intros RT clock fields st t Hkind Hts Hnewer Habsent.
    destruct (on_token_count_last_seen clock fields st t new_usage
                Hkind Hts Hnewer) as (st' & Hrun & Hlast & Hidle).
    { apply from_mapping_not_dict. exact Habsent. }
    exists st'. split; [ exact Hrun | ]. split; [ exact Hlast | ].
    destruct Hidle as (Hev & Hprev & _).
    { unfold some_positive; simpl; lia. }
    auto.
  - do 3 eexists. split; [ vm_compute; reflexivity | ].
    repeat split.
Qed.

Lemma token_count_touches_last_seen_witness :
  exists st',
    on_item (RT := Sample.runtime) Examples.noon
      (token_count_record (JStr "2024-01-01T12:00:00Z") JNull)
      (mkLocals "rollout-a" None (Some (Examples.noon - 7200000000)) None
         (mkTokenUsage 0 0 0 0 100) (Some (mkTokenUsage 0 0 0 0 100))
         [(Examples.noon - 7200000000, mkTokenUsage 0 0 0 0 100)] None None)
    = Ok st'
    /\ l_last_event_at st' = Some Examples.noon
    /\ l_events st' = [(Examples.noon - 7200000000, mkTokenUsage 0 0 0 0 100)].
Proof.
  destruct token_count_touches_last_seen as (_ & Habsent & _).
  destruct (Habsent Sample.runtime Examples.noon
    [("timestamp", JStr "2024-01-01T12:00:00Z");
     ("type", JStr "event_msg");
     ("payload",
      JDict [("type", JStr "token_count");
             ("info", JDict [("total_token_usage", JNull)])])]
    (mkLocals "rollout-a" None (Some (Examples.noon - 7200000000)) None
       (mkTokenUsage 0 0 0 0 100) (Some (mkTokenUsage 0 0 0 0 100))
       [(Examples.noon - 7200000000, mkTokenUsage 0 0 0 0 100)] None None)
    Examples.noon)
    as (st' & Hrun & Hlast & Hev & _).
  - reflexivity.
  - vm_compute. reflexivity.
  - intros l Hl. injection Hl as <-. vm_compute. reflexivity.
  - intros usage. vm_compute. discriminate.
  - exists st'. split; [ exact Hrun | ]. split; [ exact Hlast | exact Hev ].
Defined.

(** ** The latest rate limits *)

Lemma not_eligible_keep (p : ParsedSession)
  (current : option pydict * option datetime) :
  (forall l t, ~ eligible p l t) -> keep_latest p current = current.
Proof.
  intros H. unfold keep_latest.
  destruct (latest_rate_limits p) as [ [ | item limits ] | ] eqn:Hl;
    try reflexivity.
  destruct (rate_limits_timestamp p) as [ t | ] eqn:Ht; try reflexivity.
  exfalso. apply (H (item :: limits) t).
  unfold eligible. rewrite Hl, Ht. repeat split. discriminate.
Qed.

Lemma eligible_keep (p : ParsedSession) (l : pydict) (t : datetime)
  (current : option pydict * option datetime) :
  eligible p l t ->
  keep_latest p current
  = match snd current with
    | None => (Some l, Some t)
    | Some latest_at => if t >? latest_at then (Some l, Some t) else current
    end.
Proof.
  intros (Hl & Hne & Ht). unfold keep_latest. rewrite Hl, Ht.
  destruct l as [ | item limits ]; [ contradiction | reflexivity ].
Qed.

Lemma eligible_dec (p : ParsedSession) :
  (exists l t, eligible p l t) \/ (forall l t, ~ eligible p l t).
Proof.
  unfold eligible.
  destruct (latest_rate_limits p) as [ [ | item limits ] | ].
  - right. intros l t (H & Hne & _). injection H as <-. contradiction.
  - destruct (rate_limits_timestamp p) as [ t | ].
    + left. exists (item :: limits), t. repeat split. discriminate.
    + right. intros l t (_ & _ & H). discriminate.
  - right. intros l t (H & _). discriminate.
Qed.

Lemma eligible_unique (p : ParsedSession) (l l' : pydict) (t t' : datetime) :
  eligible p l t -> eligible p l' t' -> l = l' /\ t = t'.
Proof.
  intros (Hl & _ & Ht) (Hl' & _ & Ht'). split; congruence.
Qed.

Lemma nth_error_snoc {A : Type} (l : list A) (x y : A) (j : nat) :
  nth_error (l ++ [x]) j = Some y ->
  ((j < List.length l)%nat /\ nth_error l j = Some y)
  \/ (j = List.length l /\ y = x).
Proof.
  intros H.
  destruct (Nat.lt_ge_cases j (List.length l)) as [ Hlt | Hge ].
  - left. split; [ exact Hlt | ]. rewrite nth_error_app1 in H; assumption.
  - right. rewrite nth_error_app2 in H by exact Hge.
    destruct (j - List.length l)%nat as [ | k ] eqn:Hk; simpl in H.
    + injection H as <-. split; [ lia | reflexivity ].
    + destruct k; discriminate.
Qed.

Lemma latest_ok_nil : latest_ok [] None None.
Proof. left. split; [ intros p l t [] | auto ]. Qed.

Lemma latest_ok_snoc (sessions : list ParsedSession) (p : ParsedSession)
  (limits : option pydict) (at_ : option datetime) :
  latest_ok sessions limits at_ ->
  latest_ok (sessions ++ [p])
    (fst (keep_latest p (limits, at_))) (snd (keep_latest p (limits, at_))).
Proof.
  intros Hok.
  destruct (eligible_dec p) as [ (l & t & Hel) | Hnot ].
  - rewrite (eligible_keep p l t _ Hel). simpl.
    destruct Hok as [ (Hnone & -> & ->) | (i & q & lq & tq & Hi & Hq & -> & -> & Hmax) ].
    + right. exists (List.length sessions), p, l, t.
      split; [ rewrite nth_error_app2, Nat.sub_diag by lia; reflexivity | ].
      split; [ exact Hel | ]. split; [ reflexivity | ]. split; [ reflexivity | ].
      intros j r lr tr Hj Hr.
      apply nth_error_snoc in Hj as [ (Hlt & Hj) | (-> & ->) ].
      * exfalso. apply (Hnone r lr tr); [ | exact Hr ].
        eapply nth_error_In. exact Hj.
      * destruct (eligible_unique _ _ _ _ _ Hel Hr) as (_ & <-). lia.
    + right. destruct (t >? tq) eqn:Hcmp; simpl.
      * rewrite Z.gtb_ltb in Hcmp. apply Z.ltb_lt in Hcmp.
        exists (List.length sessions), p, l, t.
        split; [ rewrite nth_error_app2, Nat.sub_diag by lia; reflexivity | ].
        split; [ exact Hel | ]. split; [ reflexivity | ]. split; [ reflexivity | ].
        intros j r lr tr Hj Hr.
        apply nth_error_snoc in Hj as [ (Hlt & Hj) | (-> & ->) ].
        -- destruct (Hmax j r lr tr Hj Hr) as (Hle & _). lia.
        -- destruct (eligible_unique _ _ _ _ _ Hel Hr) as (_ & <-). lia.
      * rewrite Z.gtb_ltb in Hcmp. apply Z.ltb_ge in Hcmp.
        exists i, q, lq, tq.
        assert (Hlen : (i < List.length sessions)%nat)
          by (apply nth_error_Some; congruence).
        split; [ rewrite nth_error_app1 by exact Hlen; exact Hi | ].
        split; [ exact Hq | ]. split; [ reflexivity | ]. split; [ reflexivity | ].
        intros j r lr tr Hj Hr.
        apply nth_error_snoc in Hj as [ (Hlt & Hj) | (-> & ->) ].
        -- exact (Hmax j r lr tr Hj Hr).
        -- destruct (eligible_unique _ _ _ _ _ Hel Hr) as (_ & <-).
           split; [ exact Hcmp | lia ].
  - rewrite (not_eligible_keep p _ Hnot). simpl.
    destruct Hok as [ (Hnone & -> & ->) | (i & q & lq & tq & Hi & Hq & -> & -> & Hmax) ].
    + left. split; [ | auto ].
      intros r lr tr Hin. apply in_app_or in Hin as [ Hin | [ <- | [] ] ].
      * apply Hnone. exact Hin.
      * apply Hnot.
    + right. exists i, q, lq, tq.
      assert (Hlen : (i < List.length sessions)%nat)
        by (apply nth_error_Some; congruence).
      split; [ rewrite nth_error_app1 by exact Hlen; exact Hi | ].
      split; [ exact Hq | ]. split; [ reflexivity | ]. split; [ reflexivity | ].
      intros j r lr tr Hj Hr.
      apply nth_error_snoc in Hj as [ (Hlt & Hj) | (-> & ->) ].
      * exact (Hmax j r lr tr Hj Hr).
      * exfalso. exact (Hnot lr tr Hr).
Qed.

Section ScanFacts.
Context {RT : Runtime}.

Lemma scan_files_latest_ok (clock : nat -> nat -> datetime)
  (files : list (Path * list line)) :
  forall (k : nat) (acc sc : scan),
    scan_files clock k files acc = Ok sc ->
    latest_ok (parsed_sessions acc) (scan_rate_limits acc)
      (scan_rate_limits_at acc) ->
    latest_ok (parsed_sessions sc) (scan_rate_limits sc)
      (scan_rate_limits_at sc).
Proof.
  induction files as [ | (path, lines) rest IH ]; intros k acc sc; simpl.
  - intros H; injection H as <-. auto.
  - intros H Hacc. apply bind_Ok in H as (parsed & _ & H).
    destruct parsed as [ p | ].
    + eapply IH; [ exact H | ]. simpl. apply latest_ok_snoc. exact Hacc.
    + eapply IH; eassumption.
Qed.

End ScanFacts.

(** C3 (amended).  After the loop over the session files, the retained
    rate limits are absent when no parsed session has both a structure
    that is not empty and an instant for it; otherwise they are those of
    an eligible session whose instant no eligible session exceeds, and
    every eligible session met before it has a strictly older instant:
    among sessions with equal instants the one met first is retained. *)
Theorem latest_rate_limits_rule :
  forall (RT : Runtime) (clock : nat -> nat -> datetime)
         (files : list (Path * list line)) (sc : scan),
    scan_files clock 0 files empty_scan = Ok sc ->
    ((forall p l t, In p (parsed_sessions sc) -> ~ eligible p l t)
     /\ scan_rate_limits sc = None /\ scan_rate_limits_at sc = None)
    \/ (exists (i : nat) (p : ParsedSession) (l : pydict) (t : datetime),
          nth_error (parsed_sessions sc) i = Some p
          /\ eligible p l t
          /\ scan_rate_limits sc = Some l /\ scan_rate_limits_at sc = Some t
          /\ forall (j : nat) (q : ParsedSession) (lq : pydict) (tq : datetime),
               nth_error (parsed_sessions sc) j = Some q -> eligible q lq tq ->
               tq <= t /\ ((j < i)%nat -> tq < t)).
Proof.
  intros RT clock files sc Hscan.
  exact (scan_files_latest_ok clock files 0 empty_scan sc Hscan latest_ok_nil).
Qed.

Lemma latest_rate_limits_rule_witness :
  exists sc : scan,
    scan_files (RT := Sample.runtime) (Examples.still_clock Examples.noon) 0
      [(Examples.path_a, Examples.limits_log 10);
       (Examples.path_b, Examples.busy_log)] empty_scan = Ok sc
    /\ (((forall p l t, In p (parsed_sessions sc) -> ~ eligible p l t)
         /\ scan_rate_limits sc = None /\ scan_rate_limits_at sc = None)
        \/ (exists (i : nat) (p : ParsedSession) (l : pydict) (t : datetime),
              nth_error (parsed_sessions sc) i = Some p
              /\ eligible p l t
              /\ scan_rate_limits sc = Some l /\ scan_rate_limits_at sc = Some t
              /\ forall (j : nat) (q : ParsedSession) (lq : pydict)
                        (tq : datetime),
                   nth_error (parsed_sessions sc) j = Some q ->
                   eligible q lq tq ->
                   tq <= t /\ ((j < i)%nat -> tq < t))).
Proof.
  destruct (scan_files (RT := Sample.runtime)
              (Examples.still_clock Examples.noon) 0
              [(Examples.path_a, Examples.limits_log 10);
               (Examples.path_b, Examples.busy_log)] empty_scan)
    as [ sc | e ] eqn:Hscan.
  - exists sc. split; [ reflexivity | ].
    exact (latest_rate_limits_rule Sample.runtime _ _ sc Hscan).
  - vm_compute in Hscan. discriminate.
Defined.

(** Two sessions whose rate limits carry the same instant: the limits of
    the session met first are retained, not those of the one met later. *)
Lemma equal_instants_first_wins :
  exists (sc : scan) (first second : ParsedSession),
    scan_files (RT := Sample.runtime) (Examples.still_clock Examples.noon) 0
      [(Examples.path_a, Examples.limits_log 10);
       (Examples.path_b, Examples.limits_log 20)] empty_scan = Ok sc
    /\ parsed_sessions sc = [first; second]
    /\ rate_limits_timestamp first = rate_limits_timestamp second
    /\ latest_rate_limits first
       = Some [("primary", JDict [("used_percent", JInt 10)])]
    /\ latest_rate_limits second
       = Some [("primary", JDict [("used_percent", JInt 20)])]
    /\ scan_rate_limits sc = latest_rate_limits first
    /\ scan_rate_limits sc <> latest_rate_limits second.
Proof.
  do 3 eexists. split; [ vm_compute; reflexivity | ].
  split; [ reflexivity | ].
  repeat (split; [ reflexivity | ]).
  simpl. intros H. discriminate H.
Qed.

(** ** Rolling windows *)

(** The sum of the events that pass a test, as the loops of
    [generate_snapshot] compute it. *)
Lemma selected_sum_le (f g : Event -> bool) (events : list Event) :
  Forall (fun e : Event => nonneg (snd e)) events ->
  (forall e, f e = true -> g e = true) ->
  forall a b : TokenUsage,
    usage_le a b ->
    usage_le
      (fold_left (fun total e => if f e then add total (snd e) else total)
         events a)
      (fold_left (fun total e => if g e then add total (snd e) else total)
         events b).
Proof.
  intros Hnonneg Himp.
  induction Hnonneg as [ | e rest He _ IH ]; intros a b Hab; simpl.
  - exact Hab.
  - apply IH.
    destruct (f e) eqn:Hf.
    + rewrite (Himp e Hf). apply usage_le_add; [ exact Hab | apply usage_le_refl ].
    + destruct (g e); [ | exact Hab ].
      apply usage_le_add_nonneg; assumption.
Qed.

Lemma selected_sum_filter (f : Event -> bool) (events : list Event) :
  forall a : TokenUsage,
    fold_left (fun total e => if f e then add total (snd e) else total) events a
    = fold_left (fun total (e : Event) => add total (snd e)) (filter f events) a.
Proof.
  induction events as [ | e rest IH ]; intros a; simpl.
  - reflexivity.
  - destruct (f e); simpl; apply IH.
Qed.

Lemma sum_window_filter (now : datetime) (events : list Event) (minutes : Z) :
  sum_window now events minutes
  = sum_all
      (filter (fun e : Event => fst e >=? now - minutes * 60000000) events).
Proof. unfold sum_window, sum_all. apply selected_sum_filter. Qed.

Lemma sum_window_le (now : datetime) (events : list Event) (m1 m2 : Z) :
  Forall (fun e : Event => nonneg (snd e)) events ->
  m1 <= m2 ->
  usage_le (sum_window now events m1) (sum_window now events m2).
Proof.
  intros Hnonneg Hle. unfold sum_window.
  apply selected_sum_le; [ exact Hnonneg | | apply usage_le_refl ].
  intros e He. rewrite Z.geb_leb in *. apply Z.leb_le in He. apply Z.leb_le. lia.
Qed.

Lemma sum_window_le_all (now : datetime) (events : list Event) (minutes : Z) :
  Forall (fun e : Event => nonneg (snd e)) events ->
  usage_le (sum_window now events minutes) (sum_all events).
Proof.
  intros Hnonneg. unfold sum_window, sum_all.
  apply (selected_sum_le _ (fun _ => true));
    [ exact Hnonneg | reflexivity | apply usage_le_refl ].
Qed.

(** C6 (amended).  For every list of events whose counters have no
    negative field and every [now], the window sums grow with the window,
    field by field: 5 hours, 24 hours, 7 days, 30 days, all time; and the
    sum of a window is the sum of the events whose instant is at least
    [now] minus the length of the window. *)
Theorem windows_monotone :
  forall (now : datetime) (events : list Event),
    Forall (fun e : Event => nonneg (snd e)) events ->
    usage_le (sum_window now events (5 * 60)) (sum_window now events (24 * 60))
    /\ usage_le (sum_window now events (24 * 60))
         (sum_window now events (7 * 24 * 60))
    /\ usage_le (sum_window now events (7 * 24 * 60))
         (sum_window now events (30 * 24 * 60))
    /\ usage_le (sum_window now events (30 * 24 * 60)) (sum_all events)
    /\ forall minutes : Z,
         sum_window now events minutes
         = sum_all
             (filter (fun e : Event => fst e >=? now - minutes * 60000000)
                events).
Proof.
  intros now events Hnonneg.
  split; [ apply sum_window_le; [ exact Hnonneg | lia ] | ].
  split; [ apply sum_window_le; [ exact Hnonneg | lia ] | ].
  split; [ apply sum_window_le; [ exact Hnonneg | lia ] | ].
  split; [ apply sum_window_le_all; exact Hnonneg | ].
  intros minutes. apply sum_window_filter.
Qed.

Lemma windows_monotone_witness :
  usage_le
    (sum_window Examples.noon
       [(Examples.noon - 36000000000, mkTokenUsage 7 0 3 0 10);
        (Examples.noon - 3600000000, mkTokenUsage 2 1 2 0 5)] (5 * 60))
    (sum_window Examples.noon
       [(Examples.noon - 36000000000, mkTokenUsage 7 0 3 0 10);
        (Examples.noon - 3600000000, mkTokenUsage 2 1 2 0 5)] (24 * 60)).
Proof.
  refine (proj1 (windows_monotone Examples.noon
    [(Examples.noon - 36000000000, mkTokenUsage 7 0 3 0 10);
     (Examples.noon - 3600000000, mkTokenUsage 2 1 2 0 5)] _)).
  repeat constructor; simpl; lia.
Defined.

(** A first reading with a negative field, decoded as it stands, makes
    the sum over 5 hours exceed the sum over 24 hours in that field. *)
Lemma negative_reading_breaks_windows :
  exists doc : Doc.Snapshot,
    generate_snapshot (RT := Sample.runtime) Examples.tracker Examples.noon
      (Examples.still_clock Examples.noon)
      [(Examples.path_a, Examples.negative_log);
       (Examples.path_b, Examples.recent_log)] = Ok doc
    /\ Doc.Windows.last_5h (Doc.windows doc) = mkTokenUsage 5 0 0 0 5
    /\ Doc.Windows.last_24h (Doc.windows doc) = mkTokenUsage 0 0 0 0 15
    /\ ~ usage_le (Doc.Windows.last_5h (Doc.windows doc))
          (Doc.Windows.last_24h (Doc.windows doc)).
Proof.
  eexists. split; [ vm_compute; reflexivity | ].
  split; [ reflexivity | ]. split; [ reflexivity | ].
  unfold usage_le. simpl. lia.
Qed.

(** ** Sorting *)

Lemma StronglySorted_snoc {A : Type} (R : A -> A -> Prop) (l : list A) (x : A) :
  StronglySorted R l -> Forall (fun y => R y x) l ->
  StronglySorted R (l ++ [x]).
Proof.
  induction 1 as [ | y rest Hrest IH Hy ]; intros Hx; simpl.
  - constructor; constructor.
  - inversion Hx as [ | ? ? Hyx Hrestx ]; subst.
    constructor; [ apply IH; exact Hrestx | ].
    apply Forall_app. split; [ exact Hy | constructor; [ exact Hyx | constructor ] ].
Qed.

Lemma StronglySorted_app_cross {A : Type} (R : A -> A -> Prop) (l1 l2 : list A) :
  StronglySorted R (l1 ++ l2) ->
  forall a b, In a l1 -> In b l2 -> R a b.
Proof.
  induction l1 as [ | x rest IH ]; simpl; intros Hs a b Ha Hb.
  - contradiction.
  - inversion Hs as [ | ? ? Hrest Hx ]; subst.
    destruct Ha as [ <- | Ha ].
    + rewrite Forall_forall in Hx. apply Hx. apply in_or_app. right. exact Hb.
    + eapply IH; eassumption.
Qed.

Lemma StronglySorted_app_l {A : Type} (R : A -> A -> Prop) (l1 l2 : list A) :
  StronglySorted R (l1 ++ l2) -> StronglySorted R l1.
Proof.
  induction l1 as [ | x rest IH ]; simpl; intros Hs.
  - constructor.
  - inversion Hs as [ | ? ? Hrest Hx ]; subst.
    constructor; [ apply IH; exact Hrest | ].
    apply Forall_app in Hx. tauto.
Qed.

Section SortFacts.
Context {A : Type} (key : A -> Z).

Lemma insert_sorted_perm (x : A) (l : list A) :
  Permutation (insert_sorted Z.ltb key x l) (x :: l).
Proof.
  induction l as [ | y rest IH ]; simpl.
  - apply Permutation_refl.
  - destruct (key y <? key x).
    + eapply perm_trans; [ apply perm_skip, IH | apply perm_swap ].
    + apply Permutation_refl.
Qed.

Lemma sort_stable_perm (l : list A) :
  Permutation (sort_stable Z.ltb key l) l.
Proof.
  induction l as [ | x rest IH ]; simpl.
  - apply perm_nil.
  - eapply perm_trans; [ apply insert_sorted_perm | apply perm_skip, IH ].
Qed.

Lemma insert_sorted_ascending (x : A) (l : list A) :
  StronglySorted (fun a b => key a <= key b) l ->
  StronglySorted (fun a b => key a <= key b) (insert_sorted Z.ltb key x l).
Proof.
  induction 1 as [ | y rest Hrest IH Hy ]; simpl.
  - constructor; constructor.
  - destruct (key y <? key x) eqn:Hcmp.
    + apply Z.ltb_lt in Hcmp. constructor; [ exact IH | ].
      eapply Permutation_Forall;
        [ apply Permutation_sym, insert_sorted_perm | ].
      constructor; [ lia | exact Hy ].
    + apply Z.ltb_ge in Hcmp. constructor.
      * constructor; assumption.
      * constructor; [ exact Hcmp | ].
        eapply Forall_impl; [ | exact Hy ].
        intros z Hz. simpl in Hz. lia.
Qed.

Lemma sort_stable_ascending (l : list A) :
  StronglySorted (fun a b => key a <= key b) (sort_stable Z.ltb key l).
Proof.
  induction l as [ | x rest IH ]; simpl.
  - constructor.
  - apply insert_sorted_ascending. exact IH.
Qed.

(** Insertion keeps the item before the items of the same key. *)
Lemma insert_sorted_filter (v : Z) (x : A) (l : list A) :
  filter (fun a => key a =? v) (insert_sorted Z.ltb key x l)
  = filter (fun a => key a =? v) (x :: l).
Proof.
  induction l as [ | y rest IH ]; [ reflexivity | ].
  cbn [insert_sorted].
  destruct (key y <? key x) eqn:Hcmp; [ | reflexivity ].
  apply Z.ltb_lt in Hcmp.
  cbn [filter] in *. rewrite IH.
  destruct (key x =? v) eqn:Hx; [ | reflexivity ].
  apply Z.eqb_eq in Hx.
  destruct (key y =? v) eqn:Hy; [ | reflexivity ].
  apply Z.eqb_eq in Hy. lia.
Qed.

Lemma sort_stable_filter (v : Z) (l : list A) :
  filter (fun a => key a =? v) (sort_stable Z.ltb key l)
  = filter (fun a => key a =? v) l.
Proof.
  induction l as [ | x rest IH ]; [ reflexivity | ].
  cbn [sort_stable fold_right]. rewrite insert_sorted_filter.
  cbn [filter]. fold (sort_stable Z.ltb key rest). rewrite IH. reflexivity.
Qed.

Lemma StronglySorted_rev (l : list A) :
  StronglySorted (fun a b => key a <= key b) l -> StronglySorted (fun a b => key b <= key a) (rev l).
Proof.
  induction 1 as [ | y rest Hrest IH Hy ]; simpl.
  - constructor.
  - apply StronglySorted_snoc; [ exact IH | ].
    apply Forall_rev. exact Hy.
Qed.

(** The sort with [reverse=True]. *)
Lemma py_sorted_reverse_perm (l : list A) :
  Permutation (py_sorted Z.ltb key true l) l.
Proof.
  unfold py_sorted.
  eapply perm_trans; [ apply Permutation_sym, Permutation_rev | ].
  eapply perm_trans; [ apply sort_stable_perm | ].
  apply Permutation_sym, Permutation_rev.
Qed.

Lemma py_sorted_reverse_descending (l : list A) :
  StronglySorted (fun a b => key b <= key a) (py_sorted Z.ltb key true l).
Proof. apply StronglySorted_rev, sort_stable_ascending. Qed.

Lemma py_sorted_reverse_stable (v : Z) (l : list A) :
  filter (fun a => key a =? v) (py_sorted Z.ltb key true l)
  = filter (fun a => key a =? v) l.
Proof.
  unfold py_sorted.
  rewrite filter_rev, sort_stable_filter, filter_rev. apply rev_involutive.
Qed.

(** With keys that are all different, a descending list is strictly so. *)
Lemma descending_strict (l : list A) :
  StronglySorted (fun a b => key b <= key a) l -> NoDup (map key l) ->
  StronglySorted (fun a b => key b < key a) l.
Proof.
  induction 1 as [ | x rest Hrest IH Hx ]; simpl; intros Hdup.
  - constructor.
  - inversion Hdup as [ | ? ? Hnotin Hdup' ]; subst.
    constructor; [ apply IH; exact Hdup' | ].
    rewrite Forall_forall in *. intros y Hy.
    specialize (Hx y Hy). simpl in Hx.
    assert (key y <> key x).
    { intros Heq. apply Hnotin. rewrite <- Heq. apply in_map. exact Hy. }
    lia.
Qed.

End SortFacts.

(** ** Top sessions *)

Lemma NoDup_app_disjoint {A : Type} (l1 l2 : list A) (a : A) :
  NoDup (l1 ++ l2) -> In a l1 -> In a l2 -> False.
Proof.
  induction l1 as [ | x rest IH ]; simpl; intros Hdup H1 H2.
  - contradiction.
  - inversion Hdup as [ | ? ? Hnotin Hdup' ]; subst.
    destruct H1 as [ <- | H1 ].
    + apply Hnotin. apply in_or_app. right. exact H2.
    + apply IH; assumption.
Qed.

(** C9.  The top sessions are the first ten of the sessions sorted by
    their total tokens, descending: they are at most ten, in descending
    order of total; a session left out has a total at most that of every
    session kept; for every total, the kept sessions of that total are an
    initial part of the sessions of that total in discovery order.  Given
    15 sessions with different totals, ten are kept, in strictly
    descending order, and each session left out has a total below that of
    every session kept. *)
Theorem top_sessions_rule :
  forall sessions : list ParsedSession,
    let key := fun sess : ParsedSession => total_tokens (totals sess) in
    let top := top_sessions sessions in
    (List.length top <= 10)%nat
    /\ List.length top = Nat.min 10 (List.length sessions)
    /\ (forall sess, In sess top -> In sess sessions)
    /\ StronglySorted (fun a b => key b <= key a) top
    /\ (forall left_out kept,
          In left_out sessions -> ~ In left_out top -> In kept top ->
          key left_out <= key kept)
    /\ (forall v : Z,
          exists others,
            filter (fun sess => key sess =? v) sessions
            = filter (fun sess => key sess =? v) top ++ others)
    /\ (List.length sessions = 15%nat -> NoDup (map key sessions) ->
        List.length top = 10%nat
        /\ StronglySorted (fun a b => key b < key a) top
        /\ forall left_out kept,
             In left_out sessions -> ~ In left_out top -> In kept top ->
             key left_out < key kept).
Proof.
  intros sessions key top.
  set (ranking := py_sorted Z.ltb key true sessions).
  assert (Hperm : Permutation ranking sessions)
    by apply py_sorted_reverse_perm.
  assert (Hsorted : StronglySorted (fun a b => key b <= key a) ranking)
    by apply py_sorted_reverse_descending.
  assert (Hsplit : ranking = top ++ skipn 10 ranking)
    by (symmetry; apply firstn_skipn).
  assert (Hlen : List.length top = Nat.min 10 (List.length sessions)).
  { unfold top, top_sessions. fold key. fold ranking.
    rewrite length_firstn, (Permutation_length Hperm). reflexivity. }
  assert (Hout : forall left_out,
            In left_out sessions -> ~ In left_out top ->
            In left_out (skipn 10 ranking)).
  { intros s Hs Hnot.
    apply (Permutation_in _ (Permutation_sym Hperm)) in Hs.
    rewrite Hsplit in Hs. apply in_app_or in Hs as [ Hs | Hs ];
      [ contradiction | exact Hs ]. }
  split; [ rewrite Hlen; apply Nat.le_min_l | ].
  split; [ exact Hlen | ].
  split.
  { intros s Hs. apply (Permutation_in _ Hperm).
    rewrite Hsplit. apply in_or_app. left. exact Hs. }
  split.
  { rewrite Hsplit in Hsorted. eapply StronglySorted_app_l. exact Hsorted. }
  split.
  { intros s t Hs Hnot Ht.
    rewrite Hsplit in Hsorted.
    exact (StronglySorted_app_cross _ _ _ Hsorted t s Ht (Hout s Hs Hnot)). }
  split.
  { intros v. exists (filter (fun sess => key sess =? v) (skipn 10 ranking)).
    rewrite <- filter_app, <- Hsplit.
    symmetry. apply py_sorted_reverse_stable. }
  intros Hfifteen Hdup.
  assert (Hdup' : NoDup (map key ranking)).
  { eapply Permutation_NoDup; [ | exact Hdup ].
    apply Permutation_map, Permutation_sym, Hperm. }
  split; [ rewrite Hlen, Hfifteen; reflexivity | ].
  split.
  { apply descending_strict.
    - rewrite Hsplit in Hsorted. eapply StronglySorted_app_l. exact Hsorted.
    - rewrite Hsplit, map_app in Hdup'.
      eapply NoDup_app_remove_r. exact Hdup'. }
  intros s t Hs Hnot Ht.
  pose proof (Hout s Hs Hnot) as Hrest.
  assert (Hle : key s <= key t).
  { rewrite Hsplit in Hsorted.
    exact (StronglySorted_app_cross _ _ _ Hsorted t s Ht Hrest). }
  assert (Hne : key s <> key t).
  { intros Heq. rewrite Hsplit, map_app in Hdup'.
    apply (NoDup_app_disjoint _ _ (key t) Hdup').
    - apply in_map. exact Ht.
    - rewrite <- Heq. apply in_map. exact Hrest. }
  lia.
Qed.

Lemma top_sessions_rule_witness :
  List.length (top_sessions Examples.fifteen) = 10%nat
  /\ map session_id (top_sessions Examples.fifteen)
     = ["s03"; "s11"; "s07"; "s13"; "s09"; "s15"; "s05"; "s14"; "s01"; "s12"]
  /\ StronglySorted
       (fun a b => total_tokens (totals b) < total_tokens (totals a))
       (top_sessions Examples.fifteen).
Proof.
  destruct (top_sessions_rule Examples.fifteen)
    as (_ & _ & _ & _ & _ & _ & Hfifteen).
  destruct Hfifteen as (Hlen & Hstrict & _).
  - reflexivity.
  - simpl.
    repeat (constructor;
            [ simpl; intros H;
              repeat (destruct H as [ H | H ]; [ discriminate H | ]);
              exact H | ]).
    constructor.
  - split; [ exact Hlen | ]. split; [ reflexivity | exact Hstrict ].
Defined.

(** ** Used percent *)






(** The quotient is rounded before it is scaled: for 7 tokens of a limit
    of 25 the percent is 28.000000000000004, not the 28.0 that scaling
    first would give. *)
Lemma division_before_scaling :
  (q <- true_div 7 25 ;; Ok (min_100 (fmul q float_100)))
  = Ok (S754_finite false 7881299347898369 (-48))
  /\ true_div (100 * 7) 25 = Ok (S754_finite false 7881299347898368 (-48)).
Proof. split; vm_compute; reflexivity. Qed.

Section UsedPercent.
Context {RT : Runtime}.


End UsedPercent.



(** ** Runs with the same files and the same [now] *)

Section Determinism.
Context {RT : Runtime}.

Lemma on_item_clock (c1 c2 : datetime) (item : json) (st : locals) :
  stamped (Decoded item) = true ->
  on_item c1 item st = on_item c2 item st.
Proof.
  destruct item as [ | | | | | | fields ]; try reflexivity.
  intros Hstamped.
  destruct (is_token_count fields) eqn:Hkind.
  - rewrite !(on_item_token_count _ fields st Hkind).
    unfold stamped in Hstamped. rewrite Hkind in Hstamped. simpl in Hstamped.
    destruct (_parse_iso8601 (dict_get fields "timestamp"))
      as [ [ t | ] | e ]; try discriminate.
    cbn [bind]. unfold on_token_count, on_total_usage. reflexivity.
  - unfold on_item. unfold is_token_count, payload_of in Hkind.
    destruct (_parse_iso8601 (dict_get fields "timestamp"))
      as [ timestamp | e ]; [ | reflexivity ].
    cbn [bind].
    destruct (is_str (dict_get fields "type") "session_meta");
      [ reflexivity | ].
    rewrite <- negb_andb, Hkind. reflexivity.
Qed.

Lemma read_lines_clock (c1 c2 : nat -> datetime) (lines : list line) :
  Forall (fun l => stamped l = true) lines ->
  forall (n : nat) (st : locals),
    read_lines c1 n lines st = read_lines c2 n lines st.
Proof.
  induction 1 as [ | l rest Hl _ IH ]; intros n st; simpl.
  - reflexivity.
  - destruct l as [ | | item | | e ]; try apply IH; try reflexivity.
    rewrite (on_item_clock (c1 n) (c2 n) item st Hl).
    destruct (on_item (c2 n) item st); simpl; [ apply IH | reflexivity ].
Qed.

Lemma scan_files_clock (c1 c2 : nat -> nat -> datetime)
  (files : list (Path * list line)) :
  (forall path lines, In (path, lines) files ->
                      Forall (fun l => stamped l = true) lines) ->
  forall (k : nat) (acc : scan),
    scan_files c1 k files acc = scan_files c2 k files acc.
Proof.
  induction files as [ | (path, lines) rest IH ]; intros Hfiles k acc; simpl.
  - reflexivity.
  - unfold _parse_session_file.
    rewrite (read_lines_clock (c1 k) (c2 k) lines)
      by (apply (Hfiles path); left; reflexivity).
    destruct (read_lines (c2 k) 0 lines (initial_locals path))
      as [ st | [ | | | | | name ] ]; simpl; try reflexivity.
    + destruct (is_empty (l_events st) && (total_tokens (l_totals st) =? 0));
        simpl; apply IH; intros p ls Hin; apply (Hfiles p); right; exact Hin.
    + apply IH. intros p ls Hin. apply (Hfiles p). right. exact Hin.
Qed.

End Determinism.

(** C2 (amended).  For fixed session files, tracker attributes, runtime
    and instant [now], the document does not depend on the wall clock read
    during the parse, and so is the same in every run, generation
    timestamp and seconds until reset included, provided every
    [token_count] record has a parsable timestamp.  An event taken from a
    record without one is stamped with the wall clock of the parse, which
    the fields computed from the events then follow. *)
Theorem same_files_same_document :
  forall (RT : Runtime) (self : UsageTracker) (now : datetime)
         (clock1 clock2 : nat -> nat -> datetime)
         (files : list (Path * list line)),
    (forall path lines, In (path, lines) files ->
                        Forall (fun l => stamped l = true) lines) ->
    generate_snapshot self now clock1 files
    = generate_snapshot self now clock2 files.
Proof.
  intros RT self now clock1 clock2 files Hfiles.
  unfold generate_snapshot.
  rewrite (scan_files_clock clock1 clock2 files Hfiles 0 empty_scan).
  reflexivity.
Qed.

Lemma same_files_same_document_witness :
  generate_snapshot (RT := Sample.runtime) Examples.tracker Examples.noon
    (Examples.still_clock (Examples.noon + 1500))
    [(Examples.path_a, Examples.readings_log);
     (Examples.path_b, Examples.busy_log)]
  = generate_snapshot (RT := Sample.runtime) Examples.tracker Examples.noon
      (Examples.still_clock (Examples.noon + 2300))
      [(Examples.path_a, Examples.readings_log);
       (Examples.path_b, Examples.busy_log)].
Proof.
  apply same_files_same_document.
  intros path lines [ Hin | [ Hin | [] ] ]; injection Hin as <- <-;
    repeat constructor.
Defined.

(** A record with usage and no timestamp: two runs over the same file,
    with the same [now], that read the wall clock 1.5 ms and 2.3 ms after
    [now] give documents that differ in [last_activity_at]. *)
Lemma unstamped_record_follows_clock :
  exists doc1 doc2 : Doc.Snapshot,
    generate_snapshot (RT := Sample.runtime) Examples.tracker Examples.noon
      (Examples.still_clock (Examples.noon + 1500))
      [(Examples.path_a, Examples.unstamped_log)] = Ok doc1
    /\ generate_snapshot (RT := Sample.runtime) Examples.tracker Examples.noon
         (Examples.still_clock (Examples.noon + 2300))
         [(Examples.path_a, Examples.unstamped_log)] = Ok doc2
    /\ Doc.generated_at doc1 = Doc.generated_at doc2
    /\ Doc.last_activity_at doc1 = Some "2024-01-01T12:00:00.001500Z"
    /\ Doc.last_activity_at doc2 = Some "2024-01-01T12:00:00.002300Z"
    /\ Doc.last_activity_at doc1 <> Doc.last_activity_at doc2.
Proof.
  do 2 eexists.
  split; [ vm_compute; reflexivity | ].
  split; [ vm_compute; reflexivity | ].
  split; [ reflexivity | ].
  split; [ reflexivity | ].
  split; [ reflexivity | ].
  simpl. intros H. discriminate H.
Qed.

(** ** Logs without negative numbers *)

Section CleanLogs.
Context {RT : Runtime}.

Lemma increment_nonneg (prev : option TokenUsage) (u : TokenUsage) :
  nonneg u -> nonneg (increment prev u).
Proof.
  intros Hu. destruct prev as [ p | ]; simpl; [ apply delta_nonneg | exact Hu ].
Qed.

Lemma on_total_usage_nonneg (clock : datetime) (timestamp : option datetime)
  (u : TokenUsage) (st : locals) :
  nonneg u -> events_nonneg (l_events st) ->
  events_nonneg (l_events (on_total_usage clock timestamp u st)).
Proof.
  intros Hu Hst. unfold on_total_usage.
  destruct (has_activity u); [ | exact Hst ].
  destruct (has_activity (increment (l_prev_totals st) u)); simpl;
    [ | exact Hst ].
  apply Forall_app. split; [ exact Hst | ].
  constructor; [ apply increment_nonneg; exact Hu | constructor ].
Qed.

Lemma on_item_nonneg (clock : datetime) (item : json) (st st' : locals) :
  clean_line (Decoded item) ->
  on_item clock item st = Ok st' ->
  events_nonneg (l_events st) -> events_nonneg (l_events st').
Proof.
  destruct item as [ | | | | | | fields ]; try discriminate.
  intros Hclean Hrun Hst.
  destruct (on_item_cases clock fields st st' Hrun)
    as (timestamp & _
        & [ (_ & _ & started & _ & ->)
          | [ (_ & _ & ->) | (_ & u & Hu & ->) ] ]);
    try exact Hst.
  destruct (on_rate_limits_usage timestamp
    (dict_get (payload_of fields) "rate_limits")
    (on_total_usage clock timestamp u
       (set_last_event_at (touch timestamp (l_last_event_at st)) st)))
    as (_ & -> & _).
  apply on_total_usage_nonneg; [ | exact Hst ].
  eapply from_mapping_nonneg; [ exact Hclean | exact Hu ].
Qed.

Lemma read_lines_nonneg (clock : nat -> datetime) (lines : list line) :
  Forall clean_line lines ->
  forall (n : nat) (st st' : locals),
    read_lines clock n lines st = Ok st' ->
    events_nonneg (l_events st) -> events_nonneg (l_events st').
Proof.
  induction 1 as [ | l rest Hl _ IH ]; intros n st st'; simpl.
  - intros H; injection H as <-. auto.
  - destruct l as [ | | item | | e ]; try (apply IH); try discriminate.
    intros H Hst. apply bind_Ok in H as (mid & Hmid & H).
    eapply IH; [ exact H | ].
    eapply on_item_nonneg; eassumption.
Qed.

Lemma parse_nonneg (clock : nat -> datetime) (path : Path)
  (lines : list line) (session : ParsedSession) :
  Forall clean_line lines ->
  _parse_session_file clock path lines = Ok (Some session) ->
  events_nonneg (events session).
Proof.
  intros Hclean. unfold _parse_session_file.
  destruct (read_lines clock 0 lines (initial_locals path))
    as [ st | [ | | | | | name ] ] eqn:Hrun; try discriminate.
  destruct (is_empty (l_events st) && (total_tokens (l_totals st) =? 0));
    [ discriminate | ].
  intros H; injection H as <-. simpl.
  eapply read_lines_nonneg; [ exact Hclean | exact Hrun | constructor ].
Qed.

Lemma scan_files_nonneg (clock : nat -> nat -> datetime)
  (files : list (Path * list line)) :
  (forall path lines, In (path, lines) files -> Forall clean_line lines) ->
  forall (k : nat) (acc sc : scan),
    scan_files clock k files acc = Ok sc ->
    events_nonneg (all_events acc) -> events_nonneg (all_events sc).
Proof.
  induction files as [ | (path, lines) rest IH ]; intros Hfiles k acc sc; simpl.
  - intros H; injection H as <-. auto.
  - intros H Hacc. apply bind_Ok in H as (parsed & Hparsed & H).
    assert (Hrest : forall p ls, In (p, ls) rest -> Forall clean_line ls)
      by (intros p ls Hin; apply (Hfiles p); right; exact Hin).
    destruct parsed as [ session | ].
    + eapply (IH Hrest); [ exact H | ]. simpl.
      apply Forall_app. split; [ exact Hacc | ].
      eapply parse_nonneg; [ | exact Hparsed ].
      apply (Hfiles path). left. reflexivity.
    + eapply (IH Hrest); eassumption.
Qed.

(** In a run over logs without negative numbers the five windows of the
    document grow with the window. *)
Lemma snapshot_windows_monotone (self : UsageTracker) (now : datetime)
  (clock : nat -> nat -> datetime) (files : list (Path * list line))
  (doc : Doc.Snapshot) :
  (forall path lines, In (path, lines) files -> Forall clean_line lines) ->
  generate_snapshot self now clock files = Ok doc ->
  let w := Doc.windows doc in
  usage_le (Doc.Windows.last_5h w) (Doc.Windows.last_24h w)
  /\ usage_le (Doc.Windows.last_24h w) (Doc.Windows.last_7d w)
  /\ usage_le (Doc.Windows.last_7d w) (Doc.Windows.last_30d w)
  /\ usage_le (Doc.Windows.last_30d w) (Doc.Windows.all_time w).
Proof.
  intros Hfiles H. unfold generate_snapshot in H.
  apply bind_Ok in H as (sc & Hscan & H).
  apply bind_Ok in H as (w5 & Hw5 & H).
  apply bind_Ok in H as (w24 & Hw24 & H).
  apply bind_Ok in H as (w7 & Hw7 & H).
  apply bind_Ok in H as (w30 & Hw30 & H).
  apply sum_window_call_Ok in Hw5, Hw24, Hw7, Hw30. subst w5 w24 w7 w30.
  repeat match type of H with
  | bind ?r _ = Ok _ =>
      let x := fresh "x" in apply bind_Ok in H as (x & _ & H)
  end.
  injection H as <-. cbn [Doc.windows Doc.Windows.last_5h Doc.Windows.last_24h
    Doc.Windows.last_7d Doc.Windows.last_30d Doc.Windows.all_time].
  assert (Hnonneg : events_nonneg
            (py_sorted Z.ltb (fst : Event -> Z) false (all_events sc))).
  { eapply Permutation_Forall;
      [ apply Permutation_sym, sort_stable_perm | ].
    eapply scan_files_nonneg; [ exact Hfiles | exact Hscan | constructor ]. }
  split; [ apply sum_window_le; [ exact Hnonneg | lia ] | ].
  split; [ apply sum_window_le; [ exact Hnonneg | lia ] | ].
  split; [ apply sum_window_le; [ exact Hnonneg | lia ] | ].
  apply sum_window_le_all. exact Hnonneg.
Qed.

End CleanLogs.

(** * Further properties *)

(** ** The loop body, case by case *)

Section LoopCases.
Context {RT : Runtime}.

Lemma is_token_count_not_meta (fields : pydict) :
  is_token_count fields = true ->
  is_str (dict_get fields "type") "session_meta" = false.
Proof.
  unfold is_token_count. intros H. apply andb_true_iff in H as (Htype & _).
  destruct (dict_get fields "type") as [ | | | | s | | ]; try discriminate.
  simpl in *. apply String.eqb_eq in Htype. subst s. reflexivity.
Qed.

(** A property of the locals that every record keeps, on lines that
    satisfy [Q], is kept by the loop. *)
Lemma read_lines_keeps (P : locals -> Prop) (Q : line -> Prop) :
  (forall clock item st st',
      Q (Decoded item) -> on_item clock item st = Ok st' -> P st -> P st') ->
  forall (clock : nat -> datetime) (lines : list line),
    Forall Q lines ->
    forall (n : nat) (st st' : locals),
      read_lines clock n lines st = Ok st' -> P st -> P st'.
Proof.
  intros Hstep clock lines Hlines.
  induction Hlines as [ | l rest Hl _ IH ]; intros n st st'; simpl.
  - intros H; injection H as <-. auto.
  - destruct l as [ | | item | | e ]; try (apply IH); try discriminate.
    intros H Hst. apply bind_Ok in H as (mid & Hmid & H).
    eapply IH; [ exact H | ].
    eapply Hstep; eassumption.
Qed.

Lemma Forall_True {A : Type} (l : list A) : Forall (fun _ => True) l.
Proof. induction l; constructor; auto. Qed.

(** The loop over two parts of a file. *)
Lemma read_lines_app (clock : nat -> datetime) (before after : list line) :
  forall (n : nat) (st : locals),
    read_lines clock n (before ++ after) st
    = (mid <- read_lines clock n before st ;;
       read_lines clock (n + List.length before) after mid).
Proof.
  induction before as [ | l rest IH ]; intros n st; simpl.
  - rewrite Nat.add_0_r. reflexivity.
  - replace (n + S (List.length rest))%nat
      with (S n + List.length rest)%nat by lia.
    destruct l as [ | | item | | e ]; try apply IH; try reflexivity.
    destruct (on_item (clock n) item st) as [ mid | e ]; simpl;
      [ apply IH | reflexivity ].
Qed.

End LoopCases.

(** ** The counter as a mapping *)

(** X1.  Decoding the mapping that [to_dict] writes gives the counter
    back, whatever its fields are, as [print_report] relies on when it
    reads the usage of a window from the document. *)
Theorem to_dict_round_trip :
  forall (RT : Runtime) (u : TokenUsage),
    from_mapping (JDict (to_dict u)) = Ok u
    /\ from_mapping (JDict (_safe_dict (JDict (to_dict u)))) = Ok u.
Proof.
  intros RT [ i c o r t ]. split; reflexivity.
Qed.

(** ** What a parsed session always satisfies *)

Section SessionFacts.
Context {RT : Runtime}.

Lemma on_total_usage_events_active (clock : datetime)
  (timestamp : option datetime) (u : TokenUsage) (st : locals) :
  events_active st -> events_active (on_total_usage clock timestamp u st).
Proof.
  unfold events_active, on_total_usage. intros Hst.
  destruct (has_activity u); [ | exact Hst ].
  destruct (has_activity (increment (l_prev_totals st) u)) eqn:Hd; simpl;
    [ | exact Hst ].
  apply Forall_app. split; [ exact Hst | ].
  constructor; [ | constructor ]. simpl.
  apply has_activity_true. exact Hd.
Qed.

Lemma on_item_events_active (clock : datetime) (item : json) (st st' : locals) :
  on_item clock item st = Ok st' -> events_active st -> events_active st'.
Proof.
  destruct item as [ | | | | | | fields ]; try discriminate.
  intros Hrun Hst.
  destruct (on_item_cases clock fields st st' Hrun)
    as (timestamp & _
        & [ (_ & _ & started & _ & ->)
          | [ (_ & _ & ->) | (_ & u & _ & ->) ] ]);
    try exact Hst.
  unfold events_active.
  destruct (on_rate_limits_usage timestamp
    (dict_get (payload_of fields) "rate_limits")
    (on_total_usage clock timestamp u
       (set_last_event_at (touch timestamp (l_last_event_at st)) st)))
    as (_ & -> & _).
  apply on_total_usage_events_active. exact Hst.
Qed.

(** A session that the parser returns comes from a read that completed. *)
Lemma parse_some (clock : nat -> datetime) (path : Path) (lines : list line)
  (session : ParsedSession) :
  _parse_session_file clock path lines = Ok (Some session) ->
  exists st,
    read_lines clock 0 lines (initial_locals path) = Ok st
    /\ session = to_session path st
    /\ (is_empty (l_events st) && (total_tokens (l_totals st) =? 0)) = false.
Proof.
  unfold _parse_session_file.
  destruct (read_lines clock 0 lines (initial_locals path))
    as [ st | [ | | | | | name ] ]; try discriminate.
  destruct (is_empty (l_events st) && (total_tokens (l_totals st) =? 0))
    eqn:Htest; [ discriminate | ].
  intros H; injection H as <-. exists st. auto.
Qed.

End SessionFacts.

(** X2.  A session that the parser returns has at least one event, its
    totals are the fieldwise sum of its events, and each of its events has
    a field greater than zero; so the test of [total_tokens] on line 209
    never keeps a session without events. *)
Theorem parsed_session_invariant :
  forall (RT : Runtime) (clock : nat -> datetime) (path : Path)
         (lines : list line) (session : ParsedSession),
    _parse_session_file clock path lines = Ok (Some session) ->
    events session <> []
    /\ totals session = sum_all (events session)
    /\ Forall (fun e : Event => some_positive (snd e)) (events session)
    /\ file_path session = path.
Proof.
  intros RT clock path lines session Hparse.
  destruct (parse_some clock path lines session Hparse)
    as (st & Hrun & -> & Htest).
  pose proof (read_lines_totals_match clock lines 0 _ _ Hrun
                (initial_totals_match path)) as Hsum.
  unfold totals_match in Hsum. simpl.
  split.
  - intros Hnil. rewrite Hnil in Htest, Hsum. rewrite Hsum in Htest.
    discriminate.
  - split; [ exact Hsum | ]. split; [ | reflexivity ].
    apply (read_lines_keeps events_active (fun _ => True)
             (fun c item s s' _ => on_item_events_active c item s s')
             clock lines (Forall_True lines) 0 _ _ Hrun).
    constructor.
Qed.

Lemma parsed_session_invariant_witness :
  exists session : ParsedSession,
    _parse_session_file (RT := Sample.runtime) (fun _ => Examples.noon)
      Examples.path_a Examples.readings_log = Ok (Some session)
    /\ events session <> []
    /\ totals session = sum_all (events session).
Proof.
  destruct (_parse_session_file (RT := Sample.runtime) (fun _ => Examples.noon)
              Examples.path_a Examples.readings_log)
    as [ [ session | ] | e ] eqn:Hparse;
    try (vm_compute in Hparse; discriminate).
  exists session. split; [ reflexivity | ].
  destruct (parsed_session_invariant Sample.runtime _ _ _ session Hparse)
    as (Hne & Hsum & _).
  split; assumption.
Defined.

(** ** Totals and the last cumulative reading *)

Lemma cover_step (prev : option TokenUsage) (sum u : TokenUsage) :
  usage_le (cursor_value prev) sum ->
  has_activity u = true ->
  usage_le u
    (if has_activity (increment prev u) then add sum (increment prev u)
     else sum).
Proof.
  intros Hcover Hu.
  destruct (has_activity (increment prev u)) eqn:Hd.
  - destruct prev as [ p | ]; simpl in *; usage_fields; lia.
  - destruct prev as [ p | ]; simpl in *; [ | congruence ].
    apply has_activity_false in Hd.
    usage_fields. lia.
Qed.

Lemma rising_step (prev : option TokenUsage) (sum u : TokenUsage) :
  sum = cursor_value prev ->
  (forall p, prev = Some p -> usage_le p u) ->
  has_activity u = true ->
  (if has_activity (increment prev u) then add sum (increment prev u)
   else sum) = u.
Proof.
  intros -> Hle Hu.
  destruct prev as [ p | ]; simpl in *.
  - specialize (Hle p eq_refl).
    destruct (has_activity (delta u p)) eqn:Hd.
    + usage_fields. f_equal; lia.
    + apply has_activity_false in Hd. usage_fields. f_equal; lia.
  - rewrite Hu. apply add_new_usage_l.
Qed.

Section Cursor.
Context {RT : Runtime}.

(** The cursor and the totals after a [token_count] record whose counter
    is [u]. *)
Lemma token_count_usage_fields (clock : datetime) (timestamp : option datetime)
  (rate_limits : json) (last : option datetime) (u : TokenUsage) (st : locals) :
  let st' := on_rate_limits timestamp rate_limits
               (on_total_usage clock timestamp u (set_last_event_at last st)) in
  l_prev_totals st'
  = (if has_activity u then Some u else l_prev_totals st)
  /\ l_totals st'
     = (if has_activity u
        then if has_activity (increment (l_prev_totals st) u)
             then add (l_totals st) (increment (l_prev_totals st) u)
             else l_totals st
        else l_totals st).
Proof.
  intros st'. subst st'.
  destruct (on_rate_limits_usage timestamp rate_limits
              (on_total_usage clock timestamp u (set_last_event_at last st)))
    as (-> & _ & -> & _).
  unfold on_total_usage.
  destruct (has_activity u); [ | split; reflexivity ].
  cbn [l_prev_totals set_last_event_at].
  destruct (has_activity (increment (l_prev_totals st) u)); split; reflexivity.
Qed.

Lemma on_item_cover (clock : datetime) (item : json) (st st' : locals) :
  on_item clock item st = Ok st' ->
  totals_cover_cursor st -> totals_cover_cursor st'.
Proof.
  destruct item as [ | | | | | | fields ]; try discriminate.
  intros Hrun Hst.
  destruct (on_item_cases clock fields st st' Hrun)
    as (timestamp & _
        & [ (_ & _ & started & _ & ->)
          | [ (_ & _ & ->) | (_ & u & _ & ->) ] ]);
    try exact Hst.
  unfold totals_cover_cursor in *.
  destruct (token_count_usage_fields clock timestamp
              (dict_get (payload_of fields) "rate_limits")
              (touch timestamp (l_last_event_at st)) u st) as (-> & ->).
  destruct (has_activity u) eqn:Hu; [ | exact Hst ].
  simpl. apply cover_step; assumption.
Qed.

Lemma last_default {A : Type} (l : list A) (x d d' : A) :
  last (x :: l) d = last (x :: l) d'.
Proof.
  revert x. induction l as [ | y rest IH ]; intros x; [ reflexivity | ].
  change (last (y :: rest) d = last (y :: rest) d'). apply IH.
Qed.

Lemma last_cursor (counters : list TokenUsage) (prev : option TokenUsage) :
  cursor_value (fold_left (fun _ u => Some u) counters prev)
  = last counters (cursor_value prev).
Proof.
  revert prev. induction counters as [ | u rest IH ]; intros prev.
  - reflexivity.
  - cbn [fold_left]. rewrite IH. cbn [cursor_value].
    destruct rest as [ | t rest ]; [ reflexivity | ].
    change (last (t :: rest) u = last (t :: rest) (cursor_value prev)).
    apply last_default.
Qed.

(** With readings that only grow, the totals follow the cursor. *)
Lemma read_lines_rising (clock : nat -> datetime) (lines : list line) :
  forall (n : nat) (st st' : locals),
    read_lines clock n lines st = Ok st' ->
    l_totals st = cursor_value (l_prev_totals st) ->
    (forall p, l_prev_totals st = Some p -> rising p (readings lines)) ->
    (l_prev_totals st = None -> nondecreasing (readings lines)) ->
    l_totals st' = cursor_value (l_prev_totals st')
    /\ l_prev_totals st'
       = fold_left (fun _ u => Some u) (readings lines) (l_prev_totals st).
Proof.
  induction lines as [ | l rest IH ]; intros n st st'; simpl.
  - intros H; injection H as <-. auto.
  - destruct l as [ | | item | | e ]; try (apply IH); try discriminate.
    intros H Hsum Hsome Hnone.
    apply bind_Ok in H as (mid & Hmid & H).
    destruct item as [ | | | | | | fields ]; try discriminate.
    destruct (on_item_cases (clock n) fields st mid Hmid)
      as (timestamp & _
          & [ (_ & Hkind & started & _ & ->)
            | [ (_ & Hkind & ->) | (Hkind & u & Hu & ->) ] ]);
      rewrite Hkind in *.
    + apply (IH _ _ _ H); assumption.
    + apply (IH _ _ _ H); assumption.
    + rewrite Hu in *.
      destruct (token_count_usage_fields (clock n) timestamp
                  (dict_get (payload_of fields) "rate_limits")
                  (touch timestamp (l_last_event_at st)) u st)
        as (Hprev & Htot).
      destruct (has_activity u) eqn:Hact.
      * assert (Hle : forall p, l_prev_totals st = Some p -> usage_le p u).
        { intros p Hp. apply (Hsome p Hp). }
        assert (Hrest : rising u (readings rest)).
        { destruct (l_prev_totals st) as [ p | ] eqn:Hp.
          - apply (Hsome p eq_refl).
          - apply (Hnone eq_refl). }
        rewrite (rising_step _ _ u Hsum Hle Hact) in Htot.
        destruct (IH _ _ _ H) as (Hfinal & Hcursor).
        { rewrite Htot, Hprev. reflexivity. }
        { intros p Hp. rewrite Hprev in Hp. injection Hp as <-. exact Hrest. }
        { rewrite Hprev. discriminate. }
        split; [ exact Hfinal | ]. rewrite Hcursor, Hprev. reflexivity.
      * destruct (IH _ _ _ H) as (Hfinal & Hcursor).
        { rewrite Htot, Hprev. exact Hsum. }
        { rewrite Hprev. exact Hsome. }
        { rewrite Hprev. exact Hnone. }
        split; [ exact Hfinal | ]. rewrite Hcursor, Hprev. reflexivity.
Qed.

End Cursor.

(** X3.  When the read of a file completes, the totals of the session
    are, field by field, at least its last cumulative reading with
    activity: adding up clamped increments never loses usage, whatever the
    readings are. *)
Theorem totals_cover_last_reading :
  forall (RT : Runtime) (clock : nat -> datetime) (path : Path)
         (lines : list line) (st : locals) (reading : TokenUsage),
    read_lines clock 0 lines (initial_locals path) = Ok st ->
    l_prev_totals st = Some reading ->
    usage_le reading (l_totals st)
    /\ usage_le reading (totals (to_session path st)).
Proof.
  intros RT clock path lines st reading Hrun Hprev.
  assert (Hcover : totals_cover_cursor st).
  { apply (read_lines_keeps totals_cover_cursor (fun _ => True)
             (fun c item s s' _ => on_item_cover c item s s')
             clock lines (Forall_True lines) 0 _ _ Hrun).
    apply usage_le_refl. }
  unfold totals_cover_cursor in Hcover. rewrite Hprev in Hcover.
  split; exact Hcover.
Qed.

Lemma totals_cover_last_reading_witness :
  exists st : locals,
    read_lines (RT := Sample.runtime) (fun _ => Examples.noon) 0
      Examples.readings_log (initial_locals Examples.path_a) = Ok st
    /\ l_prev_totals st = Some (mkTokenUsage 0 0 0 0 200)
    /\ l_totals st = mkTokenUsage 0 0 0 0 210
    /\ usage_le (mkTokenUsage 0 0 0 0 200) (l_totals st).
Proof.
  destruct (read_lines (RT := Sample.runtime) (fun _ => Examples.noon) 0
              Examples.readings_log (initial_locals Examples.path_a))
    as [ st | e ] eqn:Hrun; [ | vm_compute in Hrun; discriminate ].
  exists st. split; [ reflexivity | ].
  assert (Hprev : l_prev_totals st = Some (mkTokenUsage 0 0 0 0 200)).
  { vm_compute in Hrun. injection Hrun as <-. reflexivity. }
  split; [ exact Hprev | ].
  split.
  - vm_compute in Hrun. injection Hrun as <-. reflexivity.
  - exact (proj1 (totals_cover_last_reading Sample.runtime _ _ _ st _
                    Hrun Hprev)).
Defined.

(** X4.  When the cumulative readings of a file only grow, field by field,
    the totals of the session are exactly the last reading, and so is the
    cursor: the increments telescope. *)
Theorem rising_readings_totals :
  forall (RT : Runtime) (clock : nat -> datetime) (path : Path)
         (lines : list line) (st : locals),
    read_lines clock 0 lines (initial_locals path) = Ok st ->
    nondecreasing (readings lines) ->
    l_totals st = last (readings lines) new_usage
    /\ totals (to_session path st) = last (readings lines) new_usage
    /\ l_prev_totals st
       = fold_left (fun _ u => Some u) (readings lines) None.
Proof.
  intros RT clock path lines st Hrun Hrising.
  destruct (read_lines_rising clock lines 0 _ st Hrun) as (Hsum & Hcursor).
  - reflexivity.
  - intros p Hp. discriminate Hp.
  - intros _. exact Hrising.
  - simpl in Hcursor. rewrite Hcursor in Hsum.
    rewrite last_cursor in Hsum. simpl in Hsum.
    split; [ exact Hsum | ]. split; [ exact Hsum | exact Hcursor ].
Qed.

Lemma rising_readings_totals_witness :
  exists st : locals,
    read_lines (RT := Sample.runtime) (fun _ => Examples.noon) 0
      MoreExamples.healthy_log (initial_locals Examples.path_a) = Ok st
    /\ l_totals st = mkTokenUsage 120 0 0 0 200.
Proof.
  destruct (read_lines (RT := Sample.runtime) (fun _ => Examples.noon) 0
              MoreExamples.healthy_log (initial_locals Examples.path_a))
    as [ st | e ] eqn:Hrun; [ | vm_compute in Hrun; discriminate ].
  exists st. split; [ reflexivity | ].
  destruct (rising_readings_totals Sample.runtime _ _ _ st Hrun) as (Hsum & _).
  - vm_compute. repeat split; discriminate.
  - rewrite Hsum. reflexivity.
Defined.

(** ** The last-seen instant and the events *)

Lemma touch_keeps (timestamp last : option datetime) (l : datetime) :
  last = Some l -> exists l', touch timestamp last = Some l' /\ l <= l'.
Proof.
  intros ->. destruct timestamp as [ t | ]; simpl.
  - rewrite Z.gtb_ltb. destruct (l <? t) eqn:Hcmp.
    + apply Z.ltb_lt in Hcmp. exists t. split; [ reflexivity | lia ].
    + exists l. split; [ reflexivity | lia ].
  - exists l. split; [ reflexivity | lia ].
Qed.

Lemma touch_reaches (t : datetime) (last : option datetime) :
  exists l', touch (Some t) last = Some l' /\ t <= l'.
Proof.
  destruct last as [ l | ]; simpl.
  - rewrite Z.gtb_ltb. destruct (l <? t) eqn:Hcmp.
    + exists t. split; [ reflexivity | lia ].
    + apply Z.ltb_ge in Hcmp. exists l. split; [ reflexivity | exact Hcmp ].
  - exists t. split; [ reflexivity | lia ].
Qed.

Section LastSeenBound.
Context {RT : Runtime}.

Lemma events_before_later (events : list Event) (last last' : option datetime) :
  (forall l, last = Some l -> exists l', last' = Some l' /\ l <= l') ->
  Forall (fun e : Event => exists t, last = Some t /\ fst e <= t) events ->
  Forall (fun e : Event => exists t, last' = Some t /\ fst e <= t) events.
Proof.
  intros Hlater. apply Forall_impl. intros e (t & Ht & He).
  destruct (Hlater t Ht) as (t' & Ht' & Hle).
  exists t'. split; [ exact Ht' | lia ].
Qed.

Lemma on_item_before_last_seen (clock : datetime) (item : json)
  (st st' : locals) :
  stamped (Decoded item) = true ->
  on_item clock item st = Ok st' ->
  events_before_last_seen st -> events_before_last_seen st'.
Proof.
  destruct item as [ | | | | | | fields ]; try discriminate.
  intros Hstamped Hrun Hst. unfold events_before_last_seen in *.
  destruct (on_item_cases clock fields st st' Hrun)
    as (timestamp & Hts
        & [ (_ & _ & started & _ & ->)
          | [ (_ & _ & ->) | (Hkind & u & _ & ->) ] ]).
  - simpl. eapply events_before_later; [ | exact Hst ].
    intros l Hl. apply touch_keeps. exact Hl.
  - exact Hst.
  - unfold stamped in Hstamped. rewrite Hkind, Hts in Hstamped.
    simpl in Hstamped.
    destruct timestamp as [ t | ]; [ | discriminate ].
    destruct (on_rate_limits_usage (Some t)
      (dict_get (payload_of fields) "rate_limits")
      (on_total_usage clock (Some t) u
         (set_last_event_at (touch (Some t) (l_last_event_at st)) st)))
      as (_ & -> & _ & ->).
    rewrite on_total_usage_last_event_at. cbn [l_last_event_at set_last_event_at].
    assert (Hold : Forall (fun e : Event =>
              exists t', touch (Some t) (l_last_event_at st) = Some t'
                         /\ fst e <= t') (l_events st)).
    { eapply events_before_later; [ | exact Hst ].
      intros l Hl. apply touch_keeps. exact Hl. }
    unfold on_total_usage.
    destruct (has_activity u); [ | exact Hold ].
    destruct (has_activity (increment (l_prev_totals
                (set_last_event_at (touch (Some t) (l_last_event_at st)) st)) u));
      [ | exact Hold ].
    cbn [l_events set_last_event_at]. apply Forall_app. split; [ exact Hold | ].
    constructor; [ | constructor ]. simpl. apply touch_reaches.
Qed.

End LastSeenBound.

(** X5.  When every [token_count] record of a file has a parsable
    timestamp, a session that the parser returns has a last-seen instant,
    and no event of the session is later than it. *)
Theorem events_not_after_last_seen :
  forall (RT : Runtime) (clock : nat -> datetime) (path : Path)
         (lines : list line) (session : ParsedSession),
    Forall (fun l => stamped l = true) lines ->
    _parse_session_file clock path lines = Ok (Some session) ->
    exists t : datetime,
      last_event_at session = Some t
      /\ forall e : Event, In e (events session) -> fst e <= t.
Proof.
  intros RT clock path lines session Hstamped Hparse.
  destruct (parse_some clock path lines session Hparse)
    as (st & Hrun & -> & Htest).
  assert (Hinv : events_before_last_seen st).
  { apply (read_lines_keeps events_before_last_seen
             (fun l => stamped l = true)
             (fun c item s s' => on_item_before_last_seen c item s s')
             clock lines Hstamped 0 _ _ Hrun).
    constructor. }
  unfold events_before_last_seen in Hinv. simpl.
  destruct (l_events st) as [ | e rest ] eqn:Hev.
  - exfalso.
    pose proof (read_lines_totals_match clock lines 0 _ _ Hrun
                  (initial_totals_match path)) as Hsum.
    unfold totals_match in Hsum. rewrite Hev in Hsum.
    rewrite Hsum in Htest. discriminate.
  - inversion Hinv as [ | ? ? (t & Ht & _) _ ]; subst.
    exists t. split; [ exact Ht | ].
    intros e' Hin. rewrite Forall_forall in Hinv.
    destruct (Hinv e' Hin) as (t' & Ht' & Hle).
    rewrite Ht in Ht'. injection Ht' as <-. exact Hle.
Qed.

Lemma events_not_after_last_seen_witness :
  exists (session : ParsedSession) (t : datetime),
    _parse_session_file (RT := Sample.runtime) (fun _ => Examples.noon)
      Examples.path_a Examples.quiet_end_log = Ok (Some session)
    /\ last_event_at session = Some t
    /\ forall e : Event, In e (events session) -> fst e <= t.
Proof.
  destruct (_parse_session_file (RT := Sample.runtime) (fun _ => Examples.noon)
              Examples.path_a Examples.quiet_end_log)
    as [ [ session | ] | e ] eqn:Hparse;
    try (vm_compute in Hparse; discriminate).
  assert (Hstamped : Forall (fun l => stamped (RT := Sample.runtime) l = true)
                       Examples.quiet_end_log)
    by (repeat constructor).
  destruct (events_not_after_last_seen Sample.runtime _ _ _ session
              Hstamped Hparse) as (t & Ht & Hle).
  exists session, t. split; [ reflexivity | ]. split; assumption.
Defined.

(** ** Session metadata *)

Section MetaFacts.
Context {RT : Runtime}.

Lemma on_item_meta_defaults (path : Path) (clock : datetime) (item : json)
  (st st' : locals) :
  is_session_meta (Decoded item) = false ->
  on_item clock item st = Ok st' ->
  meta_defaults path st -> meta_defaults path st'.
Proof.
  destruct item as [ | | | | | | fields ]; try discriminate.
  simpl. intros Hmeta Hrun Hst.
  destruct (on_item_cases clock fields st st' Hrun)
    as (timestamp & _
        & [ (Habs & _) | [ (_ & _ & ->) | (_ & u & _ & ->) ] ]).
  - congruence.
  - exact Hst.
  - unfold meta_defaults in *.
    destruct (dict_get (payload_of fields) "rate_limits");
      unfold on_rate_limits, on_total_usage;
      destruct (has_activity u); try exact Hst;
      destruct (has_activity (increment _ u)); exact Hst.
Qed.

End MetaFacts.

(** X6.  In a file without a [session_meta] record, a session that the
    parser returns is named after the stem of the file and has no start
    instant and no client version: [token_count] records never set them. *)
Theorem session_named_after_file :
  forall (RT : Runtime) (clock : nat -> datetime) (path : Path)
         (lines : list line) (session : ParsedSession),
    Forall (fun l => is_session_meta l = false) lines ->
    _parse_session_file clock path lines = Ok (Some session) ->
    session_id session = stem path
    /\ started_at session = None
    /\ cli_version session = None.
Proof.
  intros RT clock path lines session Hlines Hparse.
  destruct (parse_some clock path lines session Hparse)
    as (st & Hrun & -> & _).
  apply (read_lines_keeps (meta_defaults path)
           (fun l => is_session_meta l = false)
           (fun c item s s' => on_item_meta_defaults path c item s s')
           clock lines Hlines 0 _ _ Hrun).
  repeat split.
Qed.

Lemma session_named_after_file_witness :
  exists session : ParsedSession,
    _parse_session_file (RT := Sample.runtime) (fun _ => Examples.noon)
      Examples.path_b Examples.busy_log = Ok (Some session)
    /\ session_id session = "rollout-b".
Proof.
  destruct (_parse_session_file (RT := Sample.runtime) (fun _ => Examples.noon)
              Examples.path_b Examples.busy_log)
    as [ [ session | ] | e ] eqn:Hparse;
    try (vm_compute in Hparse; discriminate).
  assert (Hlines : Forall (fun l => is_session_meta l = false)
                     Examples.busy_log)
    by (repeat constructor).
  exists session. split; [ reflexivity | ].
  exact (proj1 (session_named_after_file Sample.runtime _ _ _ session
                  Hlines Hparse)).
Defined.

(** ** Reads that fail and lines that are not objects *)

Section Failures.
Context {RT : Runtime}.

Lemma scan_files_app (clock : nat -> nat -> datetime)
  (earlier later : list (Path * list line)) :
  forall (k : nat) (acc : scan),
    scan_files clock k (earlier ++ later) acc
    = (mid <- scan_files clock k earlier acc ;;
       scan_files clock (k + List.length earlier) later mid).
Proof.
  induction earlier as [ | (path, lines) rest IH ]; intros k acc; simpl.
  - rewrite Nat.add_0_r. reflexivity.
  - replace (k + S (List.length rest))%nat
      with (S k + List.length rest)%nat by lia.
    destruct (_parse_session_file (clock k) path lines) as [ [ p | ] | e ];
      simpl; try apply IH. reflexivity.
Qed.

Lemma _safe_int_only_overflow (value : json) (default : Z) :
  only_overflow (_safe_int value default).
Proof.
  destruct value as [ | b | n | x | s | items | fields ]; simpl; auto.
  - destruct x; simpl; auto.
  - destruct (int_of_str s); simpl; auto.
Qed.

Lemma bind_only_overflow {A B : Type} (r : result A) (k : A -> result B) :
  only_overflow r -> (forall a, only_overflow (k a)) ->
  only_overflow (bind r k).
Proof.
  destruct r as [ a | e ]; simpl; auto.
Qed.

Lemma from_mapping_only_overflow (value : json) :
  only_overflow (from_mapping value).
Proof.
  destruct value; simpl; auto.
  repeat (apply bind_only_overflow;
          [ apply _safe_int_only_overflow | intros ? ]).
  exact I.
Qed.

Lemma _parse_iso8601_only_overflow (value : json) :
  only_overflow (_parse_iso8601 value).
Proof.
  destruct value as [ | b | n | x | s | items | fields ]; simpl; auto.
  destruct (String.eqb s ""); simpl; auto.
  destruct (fromisoformat (replace_Z s)) as [ (wall, [ offset | ]) | ];
    simpl; auto.
  destruct (offset =? 0); simpl; auto.
  unfold datetime_sub. destruct (in_range (wall - offset)); simpl; auto.
Qed.

Lemma on_item_escapes (clock : datetime) (item : json) (st : locals) :
  escapes (on_item clock item st).
Proof.
  destruct item as [ | | | | | | fields ]; simpl; auto.
  pose proof (_parse_iso8601_only_overflow (dict_get fields "timestamp"))
    as Hts.
  destruct (_parse_iso8601 (dict_get fields "timestamp"))
    as [ timestamp | e ]; simpl in *; auto.
  destruct (is_str (dict_get fields "type") "session_meta").
  { pose proof (_parse_iso8601_only_overflow
                  (dict_get (_safe_dict (dict_get fields "payload"))
                     "timestamp")) as Hstarted.
    destruct (_parse_iso8601 _) as [ started | e ]; simpl in *; auto. }
  destruct (negb (is_str (dict_get fields "type") "event_msg")
            || negb (is_str (dict_get (_safe_dict (dict_get fields "payload"))
                               "type") "token_count")); [ exact I | ].
  unfold on_token_count.
  pose proof (from_mapping_only_overflow
    (dict_get (_safe_dict (dict_get (_safe_dict (dict_get fields "payload"))
                             "info")) "total_token_usage")) as H.
  destruct (from_mapping _) as [ u | e ]; simpl in *; auto.
Qed.

(** An exception of the loop is one of the loop body, the [OSError] of a
    read, or the exception that the read or the decoding of a line
    raised. *)
Lemma read_lines_raises (clock : nat -> datetime) (lines : list line) :
  forall (n : nat) (st : locals) (e : exn),
    read_lines clock n lines st = Raise e ->
    e = AttributeError \/ e = OverflowError \/ e = OSError
    \/ In (Raises e) lines.
Proof.
  induction lines as [ | l rest IH ]; intros n st e; simpl.
  - discriminate.
  - destruct l as [ | | item | | e' ].
    + intros H. destruct (IH _ _ _ H) as [ H' | [ H' | [ H' | H' ] ] ]; auto.
    + intros H. destruct (IH _ _ _ H) as [ H' | [ H' | [ H' | H' ] ] ]; auto.
    + pose proof (on_item_escapes (clock n) item st) as Hitem.
      destruct (on_item (clock n) item st) as [ mid | e' ]; simpl.
      * intros H.
        destruct (IH _ _ _ H) as [ H' | [ H' | [ H' | H' ] ] ]; auto.
      * intros H; injection H as <-. simpl in Hitem. tauto.
    + intros H; injection H as <-. auto.
    + intros H; injection H as <-. auto 6.
Qed.

End Failures.

(** X7.  A read that fails with [OSError] after any number of lines gives
    absence, also when the lines read before it had produced events; in a
    run the file is passed over and the scan goes on unchanged. *)
Theorem read_failure_gives_absence :
  forall (RT : Runtime) (clock : nat -> datetime) (path : Path)
         (before after : list line) (st : locals),
    read_lines clock 0 before (initial_locals path) = Ok st ->
    _parse_session_file clock path (before ++ ReadFails :: after) = Ok None
    /\ forall (clocks : nat -> nat -> datetime) (k : nat)
              (rest : list (Path * list line)) (acc : scan),
         clocks k = clock ->
         scan_files clocks k ((path, before ++ ReadFails :: after) :: rest) acc
         = scan_files clocks (S k) rest acc.
Proof.
  intros RT clock path before after st Hrun.
  assert (Hparse : _parse_session_file clock path
                     (before ++ ReadFails :: after) = Ok None).
  { unfold _parse_session_file. rewrite read_lines_app, Hrun. reflexivity. }
  split; [ exact Hparse | ].
  intros clocks k rest acc Hk. simpl. rewrite Hk, Hparse. reflexivity.
Qed.

Lemma read_failure_gives_absence_witness :
  _parse_session_file (RT := Sample.runtime) (fun _ => Examples.noon)
    Examples.path_a MoreExamples.failing_log = Ok None.
Proof.
  destruct (read_lines (RT := Sample.runtime) (fun _ => Examples.noon) 0
              (firstn 2 MoreExamples.failing_log)
              (initial_locals Examples.path_a))
    as [ st | e ] eqn:Hrun; [ | vm_compute in Hrun; discriminate ].
  exact (proj1 (read_failure_gives_absence Sample.runtime _ Examples.path_a
                  (firstn 2 MoreExamples.failing_log)
                  (skipn 3 MoreExamples.failing_log) st Hrun)).
Defined.

(** X8.  A line that decodes to a value other than an object makes the
    parser raise [AttributeError], which no handler catches: the run over
    a list of files that holds such a file raises it too and returns no
    document. *)
Theorem non_object_line_raises :
  forall (RT : Runtime) (self : UsageTracker) (now : datetime)
         (clock : nat -> nat -> datetime)
         (earlier later : list (Path * list line)) (acc : scan)
         (path : Path) (before after : list line) (item : json)
         (st : locals),
    scan_files clock 0 earlier empty_scan = Ok acc ->
    read_lines (clock (List.length earlier)) 0 before (initial_locals path)
    = Ok st ->
    not_object item ->
    _parse_session_file (clock (List.length earlier)) path
      (before ++ Decoded item :: after) = Raise AttributeError
    /\ generate_snapshot self now clock
         (earlier ++ (path, before ++ Decoded item :: after) :: later)
       = Raise AttributeError.
Proof.
  intros RT self now clock earlier later acc path before after item st
    Hscan Hrun Hitem.
  assert (Hparse : _parse_session_file (clock (List.length earlier)) path
                     (before ++ Decoded item :: after) = Raise AttributeError).
  { unfold _parse_session_file. rewrite read_lines_app, Hrun.
    destruct item; try contradiction; reflexivity. }
  split; [ exact Hparse | ].
  unfold generate_snapshot.
  rewrite scan_files_app, Hscan. cbn [bind scan_files Nat.add].
  rewrite Hparse. reflexivity.
Qed.

Lemma non_object_line_raises_witness :
  generate_snapshot (RT := Sample.runtime) Examples.tracker Examples.noon
    (Examples.still_clock Examples.noon)
    [(Examples.path_a, Examples.busy_log);
     (Examples.path_b, MoreExamples.list_line_log)]
  = Raise AttributeError.
Proof.
  destruct (scan_files (RT := Sample.runtime)
              (Examples.still_clock Examples.noon) 0
              [(Examples.path_a, Examples.busy_log)] empty_scan)
    as [ acc | e ] eqn:Hscan; [ | vm_compute in Hscan; discriminate ].
  destruct (read_lines (RT := Sample.runtime)
              (Examples.still_clock Examples.noon 1%nat) 0
              (firstn 1 MoreExamples.list_line_log)
              (initial_locals Examples.path_b))
    as [ st | e ] eqn:Hrun; [ | vm_compute in Hrun; discriminate ].
  exact (proj2 (non_object_line_raises Sample.runtime Examples.tracker
                  Examples.noon (Examples.still_clock Examples.noon)
                  [(Examples.path_a, Examples.busy_log)] [] acc
                  Examples.path_b (firstn 1 MoreExamples.list_line_log) []
                  (JList [JInt 1; JInt 2]) st Hscan Hrun I)).
Defined.

(** X9.  An exception that escapes the parser is never an [OSError].
    It is an [AttributeError], an [OverflowError], or an exception that the
    read or the decoding of one of the lines raised: the parser itself adds
    no other, the [TypeError] and [ValueError] of its conversions being
    caught. *)
Theorem parser_escapes :
  forall (RT : Runtime) (clock : nat -> datetime) (path : Path)
         (lines : list line) (e : exn),
    _parse_session_file clock path lines = Raise e ->
    e <> OSError
    /\ (e = AttributeError \/ e = OverflowError \/ In (Raises e) lines).
Proof.
  intros RT clock path lines e. unfold _parse_session_file.
  destruct (read_lines clock 0 lines (initial_locals path))
    as [ st | e' ] eqn:Hrun.
  - destruct (is_empty (l_events st) && (total_tokens (l_totals st) =? 0));
      discriminate.
  - intros H.
    assert (He : e' = e /\ e <> OSError).
    { destruct e'; try discriminate; injection H as <-;
        (split; [ reflexivity | discriminate ]). }
    destruct He as (-> & Hos). split; [ exact Hos | ].
    destruct (read_lines_raises clock lines 0 _ e Hrun)
      as [ He | [ He | [ He | He ] ] ]; auto.
    contradiction.
Qed.

Lemma parser_escapes_witness :
  _parse_session_file (RT := Sample.runtime) (fun _ => Examples.noon)
    Examples.path_a
    [Decoded (token_count_record (JStr "2024-01-01T10:00:00Z")
                (only_total 100));
     Raises ValueError] = Raise ValueError
  /\ ValueError <> OSError.
Proof.
  split; [ reflexivity | ].
  exact (proj1 (parser_escapes Sample.runtime (fun _ => Examples.noon)
                  Examples.path_a
                  [Decoded (token_count_record (JStr "2024-01-01T10:00:00Z")
                              (only_total 100));
                   Raises ValueError] ValueError eq_refl)).
Defined.

(** ** The document, field by field *)

Section DocumentFields.
Context {RT : Runtime}.

(** The fields of a document that a run returned, read back from the
    scan of the run. *)
Lemma generate_snapshot_fields (self : UsageTracker) (now : datetime)
  (clock : nat -> nat -> datetime) (files : list (Path * list line))
  (doc : Doc.Snapshot) :
  generate_snapshot self now clock files = Ok doc ->
  exists sc : scan,
    scan_files clock 0 files empty_scan = Ok sc
    /\ Doc.files_scanned doc = List.length files
    /\ Doc.sessions_count doc = List.length (parsed_sessions sc)
    /\ Doc.events_count doc = List.length (sorted_events_of sc)
    /\ Doc.last_activity_at doc
       = _to_iso8601 (latest_instant (sorted_events_of sc))
    /\ Doc.windows doc
       = Doc.Windows.make
           (sum_window now (sorted_events_of sc) (5 * 60))
           (sum_window now (sorted_events_of sc) (24 * 60))
           (sum_window now (sorted_events_of sc) (7 * 24 * 60))
           (sum_window now (sorted_events_of sc) (30 * 24 * 60))
           (sum_all (sorted_events_of sc))
    /\ Doc.Window.usage (Doc.session_window doc)
       = sum_window now (sorted_events_of sc) (session_window_minutes self)
    /\ Doc.Window.usage (Doc.weekly_window doc)
       = sum_window now (sorted_events_of sc) (week_window_minutes self)
    /\ Doc.active_session doc
       = match active_session (parsed_sessions sc) with
         | Some active => session_entry active
         | None => no_session_entry
         end
    /\ Doc.daily_totals doc
       = py_sorted String.ltb (fst : string * TokenUsage -> string) true
           (daily_buckets (sorted_events_of sc))
    /\ Doc.top_sessions doc
       = map session_entry (top_sessions (parsed_sessions sc))
    /\ Doc.RateLimits.captured_at (Doc.rate_limits doc)
       = _to_iso8601 (scan_rate_limits_at sc).
Proof.
  unfold generate_snapshot. intros H.
  apply bind_Ok in H as (sc & Hscan & H).
  apply bind_Ok in H as (w5 & Hw5 & H).
  apply bind_Ok in H as (w24 & Hw24 & H).
  apply bind_Ok in H as (w7 & Hw7 & H).
  apply bind_Ok in H as (w30 & Hw30 & H).
  apply bind_Ok in H as (ws & Hws & H).
  apply bind_Ok in H as (ww & Hww & H).
  apply sum_window_call_Ok in Hw5, Hw24, Hw7, Hw30, Hws, Hww.
  subst w5 w24 w7 w30 ws ww.
  repeat match type of H with
  | bind ?r _ = Ok _ =>
      let x := fresh "x" in apply bind_Ok in H as (x & _ & H)
  end.
  injection H as <-. exists sc. unfold sorted_events_of.
  repeat (split; [ first [ exact Hscan | reflexivity ] | ]).
  reflexivity.
Qed.

Lemma scan_files_consistent (clock : nat -> nat -> datetime)
  (files : list (Path * list line)) :
  forall (k : nat) (acc sc : scan),
    scan_files clock k files acc = Ok sc ->
    scan_consistent acc -> scan_consistent sc.
Proof.
  induction files as [ | (path, lines) rest IH ]; intros k acc sc; simpl.
  - intros H; injection H as <-. auto.
  - intros H Hacc. apply bind_Ok in H as (parsed & Hparsed & H).
    destruct parsed as [ session | ]; [ | eapply IH; eassumption ].
    eapply IH; [ exact H | ].
    destruct Hacc as (Hevents & Hsessions).
    destruct (parse_some (clock k) path lines session Hparsed)
      as (st & Hrun & -> & Htest).
    pose proof (read_lines_totals_match (clock k) lines 0 _ _ Hrun
                  (initial_totals_match path)) as Hsum.
    unfold totals_match in Hsum.
    split; simpl.
    + rewrite flat_map_app, Hevents. simpl. rewrite app_nil_r. reflexivity.
    + apply Forall_app. split; [ exact Hsessions | ].
      constructor; [ | constructor ]. simpl. split; [ | exact Hsum ].
      intros Hnil. rewrite Hnil in Htest, Hsum. rewrite Hsum in Htest.
      discriminate.
Qed.

Lemma scan_files_count (clock : nat -> nat -> datetime)
  (files : list (Path * list line)) :
  forall (k : nat) (acc sc : scan),
    scan_files clock k files acc = Ok sc ->
    (List.length (parsed_sessions sc)
     <= List.length (parsed_sessions acc) + List.length files)%nat.
Proof.
  induction files as [ | (path, lines) rest IH ]; intros k acc sc; simpl.
  - intros H; injection H as <-. lia.
  - intros H. apply bind_Ok in H as (parsed & _ & H).
    destruct parsed as [ session | ].
    + apply IH in H. simpl in H. rewrite length_app in H. simpl in H. lia.
    + apply IH in H. lia.
Qed.

Lemma empty_scan_consistent : scan_consistent empty_scan.
Proof. split; [ reflexivity | constructor ]. Qed.

Lemma flat_map_length_ge (sessions : list ParsedSession) :
  Forall (fun s : ParsedSession =>
            events s <> [] /\ totals s = sum_all (events s)) sessions ->
  (List.length sessions <= List.length (flat_map events sessions))%nat.
Proof.
  induction 1 as [ | s rest (Hne & _) _ IH ]; simpl; [ lia | ].
  rewrite length_app. destruct (events s); [ contradiction | simpl; lia ].
Qed.

End DocumentFields.

(** X10.  In a document that a run returns, [files_scanned] is the number
    of discovered files, whether or not they gave a session;
    [sessions_count] is at most [files_scanned] and at most
    [events_count], every session having an event; and [top_sessions]
    lists the smaller of ten and [sessions_count] sessions. *)
Theorem document_counts :
  forall (RT : Runtime) (self : UsageTracker) (now : datetime)
         (clock : nat -> nat -> datetime) (files : list (Path * list line))
         (doc : Doc.Snapshot),
    generate_snapshot self now clock files = Ok doc ->
    Doc.files_scanned doc = List.length files
    /\ (Doc.sessions_count doc <= Doc.files_scanned doc)%nat
    /\ (Doc.sessions_count doc <= Doc.events_count doc)%nat
    /\ List.length (Doc.top_sessions doc)
       = Nat.min 10 (Doc.sessions_count doc).
Proof.
  intros RT self now clock files doc Hdoc.
  destruct (generate_snapshot_fields self now clock files doc Hdoc)
    as (sc & Hscan & -> & -> & -> & _ & _ & _ & _ & _ & _ & -> & _).
  destruct (scan_files_consistent clock files 0 _ sc Hscan
              empty_scan_consistent) as (Hevents & Hsessions).
  split; [ reflexivity | ].
  split; [ apply (scan_files_count clock files 0 _ sc Hscan) | ].
  split.
  - change (sorted_events_of sc)
      with (sort_stable Z.ltb (fst : Event -> Z) (all_events sc)).
    rewrite (Permutation_length
               (sort_stable_perm (fst : Event -> Z) (all_events sc))).
    rewrite Hevents. apply flat_map_length_ge. exact Hsessions.
  - rewrite length_map. unfold top_sessions.
    rewrite length_firstn.
    rewrite (Permutation_length
               (py_sorted_reverse_perm
                  (fun sess : ParsedSession => total_tokens (totals sess))
                  (parsed_sessions sc))).
    reflexivity.
Qed.

Lemma document_counts_witness :
  exists doc : Doc.Snapshot,
    generate_snapshot (RT := Sample.runtime) Examples.tracker Examples.noon
      (Examples.still_clock Examples.noon)
      [(Examples.path_a, Examples.readings_log);
       (Examples.path_b, Examples.meta_log)] = Ok doc
    /\ Doc.files_scanned doc = 2%nat
    /\ (Doc.sessions_count doc <= Doc.events_count doc)%nat.
Proof.
  destruct (generate_snapshot (RT := Sample.runtime) Examples.tracker
              Examples.noon (Examples.still_clock Examples.noon)
              [(Examples.path_a, Examples.readings_log);
               (Examples.path_b, Examples.meta_log)])
    as [ doc | e ] eqn:Hrun; [ | vm_compute in Hrun; discriminate ].
  exists doc. split; [ reflexivity | ].
  destruct (document_counts Sample.runtime _ _ _ _ doc Hrun)
    as (Hfiles & _ & Hev & _).
  split; [ exact Hfiles | exact Hev ].
Defined.

(** ** Sums that do not depend on the order *)

Lemma sum_all_cons (e : Event) (events : list Event) :
  sum_all (e :: events) = add (snd e) (sum_all events).
Proof.
  unfold sum_all at 1. simpl. rewrite sum_all_from, add_new_usage_l.
  reflexivity.
Qed.

Lemma sum_all_app (a b : list Event) :
  sum_all (a ++ b) = add (sum_all a) (sum_all b).
Proof.
  unfold sum_all at 1. rewrite fold_left_app.
  fold (sum_all a). apply sum_all_from.
Qed.

Lemma sum_all_perm (a b : list Event) :
  Permutation a b -> sum_all a = sum_all b.
Proof.
  induction 1 as [ | x l l' _ IH | x y l | l l' l'' _ IH1 _ IH2 ].
  - reflexivity.
  - rewrite !sum_all_cons, IH. reflexivity.
  - rewrite !sum_all_cons, !add_assoc, (add_comm (snd y) (snd x)).
    reflexivity.
  - congruence.
Qed.

Lemma sum_usages_perm (a b : list TokenUsage) :
  Permutation a b -> sum_usages a = sum_usages b.
Proof.
  induction 1 as [ | x l l' _ IH | x y l | l l' l'' _ IH1 _ IH2 ]; simpl.
  - reflexivity.
  - rewrite IH. reflexivity.
  - rewrite !add_assoc, (add_comm y x). reflexivity.
  - congruence.
Qed.

Lemma sum_all_sessions (sessions : list ParsedSession) :
  Forall (fun s : ParsedSession =>
            events s <> [] /\ totals s = sum_all (events s)) sessions ->
  sum_all (flat_map events sessions) = sum_usages (map totals sessions).
Proof.
  induction 1 as [ | s rest (_ & Hs) _ IH ]; simpl; [ reflexivity | ].
  rewrite sum_all_app, IH, Hs. reflexivity.
Qed.

(** X11.  In a document that a run returns, the all-time window is the
    fieldwise sum of the totals of the parsed sessions; when there are at
    most ten sessions it is the sum of the totals listed in
    [top_sessions]. *)
Theorem all_time_is_sum_of_totals :
  forall (RT : Runtime) (self : UsageTracker) (now : datetime)
         (clock : nat -> nat -> datetime) (files : list (Path * list line))
         (doc : Doc.Snapshot),
    generate_snapshot self now clock files = Ok doc ->
    (exists sc : scan,
        scan_files clock 0 files empty_scan = Ok sc
        /\ Doc.Windows.all_time (Doc.windows doc)
           = sum_usages (map totals (parsed_sessions sc)))
    /\ ((Doc.sessions_count doc <= 10)%nat ->
        Doc.Windows.all_time (Doc.windows doc)
        = sum_usages (map Doc.Session.totals (Doc.top_sessions doc))).
Proof.
  intros RT self now clock files doc Hdoc.
  destruct (generate_snapshot_fields self now clock files doc Hdoc)
    as (sc & Hscan & _ & Hcount & _ & _ & Hwin & _ & _ & _ & _ & Htop & _).
  destruct (scan_files_consistent clock files 0 _ sc Hscan
              empty_scan_consistent) as (Hevents & Hsessions).
  assert (Hall : Doc.Windows.all_time (Doc.windows doc)
                 = sum_usages (map totals (parsed_sessions sc))).
  { rewrite Hwin. cbn [Doc.Windows.all_time].
    change (sorted_events_of sc)
      with (sort_stable Z.ltb (fst : Event -> Z) (all_events sc)).
    rewrite (sum_all_perm _ _
               (sort_stable_perm (fst : Event -> Z) (all_events sc))).
    rewrite Hevents. apply sum_all_sessions. exact Hsessions. }
  split; [ exists sc; split; [ exact Hscan | exact Hall ] | ].
  intros Hten. rewrite Hall, Htop, map_map. cbn [Doc.Session.totals session_entry].
  apply sum_usages_perm, Permutation_map, Permutation_sym.
  unfold top_sessions. rewrite firstn_all2.
  - apply py_sorted_reverse_perm.
  - rewrite (Permutation_length
               (py_sorted_reverse_perm
                  (fun sess : ParsedSession => total_tokens (totals sess))
                  (parsed_sessions sc))).
    rewrite <- Hcount. exact Hten.
Qed.

Lemma all_time_is_sum_of_totals_witness :
  exists doc : Doc.Snapshot,
    generate_snapshot (RT := Sample.runtime) Examples.tracker Examples.noon
      (Examples.still_clock Examples.noon)
      [(Examples.path_a, Examples.readings_log);
       (Examples.path_b, Examples.busy_log)] = Ok doc
    /\ Doc.Windows.all_time (Doc.windows doc)
       = sum_usages (map Doc.Session.totals (Doc.top_sessions doc))
    /\ Doc.Windows.all_time (Doc.windows doc) = mkTokenUsage 0 0 0 0 260.
Proof.
  destruct (generate_snapshot (RT := Sample.runtime) Examples.tracker
              Examples.noon (Examples.still_clock Examples.noon)
              [(Examples.path_a, Examples.readings_log);
               (Examples.path_b, Examples.busy_log)])
    as [ doc | e ] eqn:Hrun; [ | vm_compute in Hrun; discriminate ].
  exists doc. split; [ reflexivity | ].
  destruct (all_time_is_sum_of_totals Sample.runtime _ _ _ _ doc Hrun)
    as (_ & Hten).
  split.
  - apply Hten. vm_compute in Hrun. injection Hrun as <-. simpl. lia.
  - vm_compute in Hrun. injection Hrun as <-. reflexivity.
Defined.

(** ** Daily totals *)

(** The order of [str] as [<] tests it. *)
Lemma string_ltb_lt (a b : string) :
  String.ltb a b = true <-> OrderedTypeEx.String_as_OT.lt a b.
Proof.
  rewrite <- OrderedTypeEx.String_as_OT.cmp_lt.
  unfold String.ltb, OrderedTypeEx.String_as_OT.cmp.
  destruct (String.compare a b); split; congruence.
Qed.

Lemma string_ltb_asym (a b : string) :
  String.ltb a b = true -> String.ltb b a = false.
Proof.
  unfold String.ltb. rewrite (String.compare_antisym b a).
  destruct (String.compare a b); simpl; congruence.
Qed.

Lemma string_ltb_total (a b : string) :
  String.ltb a b = false -> String.ltb b a = false -> a = b.
Proof.
  unfold String.ltb. rewrite (String.compare_antisym b a).
  destruct (String.compare a b) eqn:Hcmp; simpl; try congruence.
  intros _ _. apply String.compare_eq_iff. exact Hcmp.
Qed.

Lemma string_ltb_trans (a b c : string) :
  String.ltb a b = true -> String.ltb b c = true -> String.ltb a c = true.
Proof.
  rewrite !string_ltb_lt. apply OrderedTypeEx.String_as_OT.lt_trans.
Qed.

Lemma string_ltb_irrefl (a : string) : String.ltb a a = false.
Proof.
  destruct (String.ltb a a) eqn:H; [ | reflexivity ].
  pose proof (string_ltb_asym a a H). congruence.
Qed.

(** Not below, twice, is not below. *)
Lemma string_not_ltb_trans (a b c : string) :
  String.ltb b a = false -> String.ltb c b = false -> String.ltb c a = false.
Proof.
  intros Hba Hcb.
  destruct (String.ltb c a) eqn:Hca; [ | reflexivity ].
  destruct (String.ltb a b) eqn:Hab.
  - pose proof (string_ltb_trans c a b Hca Hab). congruence.
  - pose proof (string_ltb_total a b Hab Hba). subst b. congruence.
Qed.

Section SortedByText.
Context {A : Type} (key : A -> string).

Lemma insert_text_perm (x : A) (l : list A) :
  Permutation (insert_sorted String.ltb key x l) (x :: l).
Proof.
  induction l as [ | y rest IH ]; simpl.
  - apply Permutation_refl.
  - destruct (String.ltb (key y) (key x)).
    + eapply perm_trans; [ apply perm_skip, IH | apply perm_swap ].
    + apply Permutation_refl.
Qed.

Lemma sort_text_perm (l : list A) :
  Permutation (sort_stable String.ltb key l) l.
Proof.
  induction l as [ | x rest IH ]; simpl.
  - apply perm_nil.
  - eapply perm_trans; [ apply insert_text_perm | apply perm_skip, IH ].
Qed.

Lemma insert_text_ascending (x : A) (l : list A) :
  StronglySorted (fun a b => String.ltb (key b) (key a) = false) l ->
  StronglySorted (fun a b => String.ltb (key b) (key a) = false)
    (insert_sorted String.ltb key x l).
Proof.
  induction 1 as [ | y rest Hrest IH Hy ]; simpl.
  - constructor; constructor.
  - destruct (String.ltb (key y) (key x)) eqn:Hcmp.
    + constructor; [ exact IH | ].
      eapply Permutation_Forall;
        [ apply Permutation_sym, insert_text_perm | ].
      constructor; [ apply string_ltb_asym; exact Hcmp | exact Hy ].
    + constructor.
      * constructor; assumption.
      * constructor; [ exact Hcmp | ].
        eapply Forall_impl; [ | exact Hy ].
        intros z Hz. simpl in Hz.
        eapply string_not_ltb_trans; eassumption.
Qed.

Lemma sort_text_ascending (l : list A) :
  StronglySorted (fun a b => String.ltb (key b) (key a) = false)
    (sort_stable String.ltb key l).
Proof.
  induction l as [ | x rest IH ]; simpl.
  - constructor.
  - apply insert_text_ascending. exact IH.
Qed.

Lemma sorted_text_rev (l : list A) :
  StronglySorted (fun a b => String.ltb (key b) (key a) = false) l ->
  StronglySorted (fun a b => String.ltb (key a) (key b) = false) (rev l).
Proof.
  induction 1 as [ | y rest Hrest IH Hy ]; simpl.
  - constructor.
  - apply StronglySorted_snoc; [ exact IH | ].
    apply Forall_rev. exact Hy.
Qed.

Lemma py_sorted_text_reverse_perm (l : list A) :
  Permutation (py_sorted String.ltb key true l) l.
Proof.
  unfold py_sorted.
  eapply perm_trans; [ apply Permutation_sym, Permutation_rev | ].
  eapply perm_trans; [ apply sort_text_perm | ].
  apply Permutation_sym, Permutation_rev.
Qed.

(** With keys that are all different, the reversed sort is strictly
    descending. *)
Lemma py_sorted_text_reverse_strict (l : list A) :
  NoDup (map key l) ->
  StronglySorted (fun a b => String.ltb (key b) (key a) = true)
    (py_sorted String.ltb key true l).
Proof.
  intros Hdup.
  assert (Hdup' : NoDup (map key (py_sorted String.ltb key true l))).
  { eapply Permutation_NoDup; [ | exact Hdup ].
    apply Permutation_map, Permutation_sym, py_sorted_text_reverse_perm. }
  assert (Hsorted : StronglySorted
            (fun a b => String.ltb (key a) (key b) = false)
            (py_sorted String.ltb key true l))
    by apply sorted_text_rev, sort_text_ascending.
  revert Hdup'. induction Hsorted as [ | x rest Hrest IH Hx ]; intros Hdup'.
  - constructor.
  - simpl in Hdup'. inversion Hdup' as [ | ? ? Hnotin Hdup'' ]; subst.
    constructor; [ apply IH; exact Hdup'' | ].
    rewrite Forall_forall in *. intros y Hy.
    specialize (Hx y Hy). simpl in Hx.
    destruct (String.ltb (key y) (key x)) eqn:Hyx; [ reflexivity | ].
    exfalso. apply Hnotin.
    rewrite (string_ltb_total (key x) (key y) Hx Hyx).
    apply in_map. exact Hy.
Qed.

End SortedByText.

Lemma bucket_add_keys (d : string) (u : TokenUsage)
  (l : list (string * TokenUsage)) (day : string) :
  In day (map fst (bucket_add d u l)) <-> day = d \/ In day (map fst l).
Proof.
  induction l as [ | (k, b) rest IH ]; simpl.
  - intuition.
  - destruct (String.eqb k d) eqn:Hk; simpl.
    + apply String.eqb_eq in Hk. subst k. intuition.
    + rewrite IH. intuition.
Qed.

Lemma bucket_add_NoDup (d : string) (u : TokenUsage)
  (l : list (string * TokenUsage)) :
  NoDup (map fst l) -> NoDup (map fst (bucket_add d u l)).
Proof.
  induction l as [ | (k, b) rest IH ]; simpl; intros Hdup.
  - constructor; [ intros [] | constructor ].
  - inversion Hdup as [ | ? ? Hnotin Hrest ]; subst.
    destruct (String.eqb k d) eqn:Hk; simpl.
    + exact Hdup.
    + apply String.eqb_neq in Hk.
      constructor; [ | apply IH; exact Hrest ].
      rewrite bucket_add_keys. intros [ -> | Hin ]; [ congruence | auto ].
Qed.

Lemma bucket_add_sum (d : string) (u : TokenUsage)
  (l : list (string * TokenUsage)) :
  sum_usages (map snd (bucket_add d u l)) = add (sum_usages (map snd l)) u.
Proof.
  induction l as [ | (k, b) rest IH ]; simpl.
  - rewrite add_new_usage_r. reflexivity.
  - destruct (String.eqb k d); simpl.
    + rewrite <- !add_assoc.
      rewrite (add_comm u (sum_usages (map snd rest))). reflexivity.
    + rewrite IH. apply add_assoc.
Qed.

(** What [bucket_add] leaves in the buckets. *)
Lemma bucket_add_In (d : string) (u : TokenUsage)
  (l : list (string * TokenUsage)) (day : string) (v : TokenUsage) :
  NoDup (map fst l) ->
  In (day, v) (bucket_add d u l) ->
  (day <> d /\ In (day, v) l)
  \/ (day = d
      /\ ((exists b, In (d, b) l /\ v = add b u)
          \/ (~ In d (map fst l) /\ v = add new_usage u))).
Proof.
  induction l as [ | (k, b) rest IH ]; simpl; intros Hdup Hin.
  - destruct Hin as [ Hin | [] ]. injection Hin as <- <-.
    right. split; [ reflexivity | ]. right. split; [ tauto | reflexivity ].
  - inversion Hdup as [ | ? ? Hnotin Hrest ]; subst.
    destruct (String.eqb k d) eqn:Hk.
    + apply String.eqb_eq in Hk. subst k.
      destruct Hin as [ Hin | Hin ].
      * injection Hin as <- <-. right. split; [ reflexivity | ].
        left. exists b. split; [ left; reflexivity | reflexivity ].
      * left. split; [ | right; exact Hin ].
        intros ->. apply Hnotin.
        change d with (fst (d, v)). apply in_map. exact Hin.
    + apply String.eqb_neq in Hk.
      destruct Hin as [ Hin | Hin ].
      * injection Hin as <- <-. left. split; [ exact Hk | left; reflexivity ].
      * destruct (IH Hrest Hin)
          as [ (Hne & Hold) | (-> & [ (b' & Hb' & ->) | (Hfresh & ->) ]) ].
        -- left. split; [ exact Hne | right; exact Hold ].
        -- right. split; [ reflexivity | ]. left. exists b'.
           split; [ right; exact Hb' | reflexivity ].
        -- right. split; [ reflexivity | ]. right.
           split; [ | reflexivity ].
           intros [ Heq | Hin' ]; [ congruence | contradiction ].
Qed.

Lemma filter_none {A : Type} (f : A -> bool) (l : list A) :
  (forall x, In x l -> f x = false) -> filter f l = [].
Proof.
  induction l as [ | x rest IH ]; simpl; intros H; [ reflexivity | ].
  rewrite (H x (or_introl eq_refl)). apply IH. intros y Hy. apply H. auto.
Qed.

Lemma Permutation_filter {A : Type} (f : A -> bool) (l l' : list A) :
  Permutation l l' -> Permutation (filter f l) (filter f l').
Proof.
  induction 1 as [ | x l l' _ IH | x y l | l l' l'' _ IH1 _ IH2 ]; simpl.
  - constructor.
  - destruct (f x); [ apply perm_skip | ]; exact IH.
  - destruct (f x), (f y); try apply Permutation_refl. apply perm_swap.
  - eapply perm_trans; eassumption.
Qed.

Section Buckets.
Context {RT : Runtime}.

Lemma buckets_of_step (events : list Event) (daily : list (string * TokenUsage))
  (e : Event) :
  buckets_of events daily ->
  buckets_of (events ++ [e]) (bucket_add (local_date (fst e)) (snd e) daily).
Proof.
  intros (Hdup & Hsum & Hkeys & Hback).
  split; [ apply bucket_add_NoDup; exact Hdup | ].
  split; [ | split ].
  - intros day v Hin. rewrite filter_app. simpl.
    destruct (bucket_add_In _ _ _ _ _ Hdup Hin)
      as [ (Hne & Hold) | (-> & [ (b & Hb & ->) | (Hfresh & ->) ]) ].
    + replace (String.eqb (local_date (fst e)) day) with false
        by (symmetry; apply String.eqb_neq; congruence).
      rewrite app_nil_r. apply Hsum. exact Hold.
    + rewrite String.eqb_refl, sum_all_snoc, <- (Hsum _ _ Hb). reflexivity.
    + rewrite String.eqb_refl, sum_all_snoc.
      rewrite filter_none; [ reflexivity | ].
      intros x Hx. apply String.eqb_neq. intros Heq.
      apply Hfresh. rewrite <- Heq. apply Hkeys. exact Hx.
  - intros x Hx. rewrite bucket_add_keys.
    apply in_app_or in Hx as [ Hx | [ <- | [] ] ];
      [ right; apply Hkeys; exact Hx | left; reflexivity ].
  - intros day Hday. rewrite bucket_add_keys in Hday.
    destruct Hday as [ -> | Hday ].
    + exists e. split; [ apply in_or_app; right; left | ]; reflexivity.
    + destruct (Hback day Hday) as (x & Hx & Hdate).
      exists x. split; [ apply in_or_app; left; exact Hx | exact Hdate ].
Qed.

Lemma buckets_of_fold (events : list Event) :
  forall (done : list Event) (daily : list (string * TokenUsage)),
    buckets_of done daily ->
    buckets_of (done ++ events)
      (fold_left
         (fun daily (event : Event) =>
            bucket_add (local_date (fst event)) (snd event) daily)
         events daily).
Proof.
  induction events as [ | e rest IH ]; intros done daily Hok; simpl.
  - rewrite app_nil_r. exact Hok.
  - replace (done ++ e :: rest) with ((done ++ [e]) ++ rest)
      by (rewrite <- app_assoc; reflexivity).
    apply IH, buckets_of_step. exact Hok.
Qed.

Lemma daily_buckets_ok (events : list Event) :
  buckets_of events (daily_buckets events).
Proof.
  apply (buckets_of_fold events [] []).
  split; [ constructor | ]. split; [ intros day u [] | ].
  split; [ intros e [] | intros day [] ].
Qed.

Lemma daily_buckets_sum (events : list Event) :
  sum_usages (map snd (daily_buckets events)) = sum_all events.
Proof.
  unfold daily_buckets.
  assert (Hgen : forall daily,
            sum_usages (map snd
              (fold_left
                 (fun daily (event : Event) =>
                    bucket_add (local_date (fst event)) (snd event) daily)
                 events daily))
            = add (sum_usages (map snd daily)) (sum_all events)).
  { induction events as [ | e rest IH ]; intros daily; simpl.
    - rewrite add_new_usage_r. reflexivity.
    - rewrite IH, bucket_add_sum, sum_all_cons. symmetry. apply add_assoc. }
  rewrite Hgen. apply add_new_usage_l.
Qed.

End Buckets.

(** X12.  In a document that a run returns, the daily totals hold one
    entry per local date on which an event falls, and none more; the entry
    of a date is the fieldwise sum of the events of that date; the entries
    come in strictly descending order of their date text; and together
    they add up to the all-time window. *)
Theorem daily_totals_rule :
  forall (RT : Runtime) (self : UsageTracker) (now : datetime)
         (clock : nat -> nat -> datetime) (files : list (Path * list line))
         (doc : Doc.Snapshot),
    generate_snapshot self now clock files = Ok doc ->
    exists sc : scan,
      scan_files clock 0 files empty_scan = Ok sc
      /\ StronglySorted
           (fun a b : string * TokenUsage => String.ltb (fst b) (fst a) = true)
           (Doc.daily_totals doc)
      /\ (forall day u, In (day, u) (Doc.daily_totals doc) ->
            u = sum_all
                  (filter
                     (fun e : Event => String.eqb (local_date (fst e)) day)
                     (all_events sc))
            /\ exists e : Event,
                 In e (all_events sc) /\ local_date (fst e) = day)
      /\ (forall e : Event, In e (all_events sc) ->
            In (local_date (fst e)) (map fst (Doc.daily_totals doc)))
      /\ sum_usages (map snd (Doc.daily_totals doc))
         = Doc.Windows.all_time (Doc.windows doc).
Proof.
  intros RT self now clock files doc Hdoc.
  destruct (generate_snapshot_fields self now clock files doc Hdoc)
    as (sc & Hscan & _ & _ & _ & _ & Hwin & _ & _ & _ & Hdaily & _).
  exists sc. split; [ exact Hscan | ].
  pose proof (sort_stable_perm (fst : Event -> Z) (all_events sc)) as Hperm.
  change (sort_stable Z.ltb (fst : Event -> Z) (all_events sc))
    with (sorted_events_of sc) in Hperm.
  destruct (daily_buckets_ok (sorted_events_of sc))
    as (Hdup & Hsum & Hkeys & Hback).
  pose proof (py_sorted_text_reverse_perm
                (fst : string * TokenUsage -> string)
                (daily_buckets (sorted_events_of sc))) as Hsorted.
  rewrite <- Hdaily in Hsorted.
  split.
  { rewrite Hdaily. apply py_sorted_text_reverse_strict. exact Hdup. }
  split.
  { intros day u Hin.
    apply (Permutation_in _ Hsorted) in Hin.
    split.
    - rewrite (Hsum day u Hin).
      apply sum_all_perm, Permutation_filter. exact Hperm.
    - destruct (Hback day) as (e & He & Hdate).
      { change day with (fst (day, u)). apply in_map. exact Hin. }
      exists e. split; [ | exact Hdate ].
      apply (Permutation_in _ Hperm). exact He. }
  split.
  { intros e He.
    apply (Permutation_in _ (Permutation_sym Hperm)) in He.
    apply (Permutation_in _
             (Permutation_map fst (Permutation_sym Hsorted))).
    apply Hkeys. exact He. }
  rewrite (sum_usages_perm _ _ (Permutation_map snd Hsorted)).
  rewrite daily_buckets_sum, Hwin. reflexivity.
Qed.

Lemma daily_totals_rule_witness :
  exists doc : Doc.Snapshot,
    generate_snapshot (RT := Sample.runtime) Examples.tracker Examples.noon
      (Examples.still_clock Examples.noon)
      [(Examples.path_a, Examples.readings_log);
       (Examples.path_b, Examples.busy_log)] = Ok doc
    /\ Doc.daily_totals doc = [("2024-01-01", mkTokenUsage 0 0 0 0 260)]
    /\ sum_usages (map snd (Doc.daily_totals doc))
       = Doc.Windows.all_time (Doc.windows doc).
Proof.
  destruct (generate_snapshot (RT := Sample.runtime) Examples.tracker
              Examples.noon (Examples.still_clock Examples.noon)
              [(Examples.path_a, Examples.readings_log);
               (Examples.path_b, Examples.busy_log)])
    as [ doc | e ] eqn:Hrun; [ | vm_compute in Hrun; discriminate ].
  exists doc. split; [ reflexivity | ].
  destruct (daily_totals_rule Sample.runtime _ _ _ _ doc Hrun)
    as (sc & _ & _ & _ & _ & Hsum).
  split; [ | exact Hsum ].
  vm_compute in Hrun. injection Hrun as <-. reflexivity.
Defined.

(** ** The greatest item *)

(** [max] returns the first of the items with the greatest key. *)
Lemma py_max_first {A : Type} (key : A -> Z) (others : list A) :
  forall first : A,
    exists before after : list A,
      first :: others = before ++ py_max key first others :: after
      /\ (forall x, In x before -> key x < key (py_max key first others))
      /\ (forall x, In x after -> key x <= key (py_max key first others)).
Proof.
  induction others as [ | x rest IH ]; intros first; simpl.
  - exists [], []. split; [ reflexivity | ]. split; intros y [].
  - destruct (key first <? key x) eqn:Hcmp.
    + apply Z.ltb_lt in Hcmp.
      destruct (IH x) as (before & after & Hsplit & Hbefore & Hafter).
      exists (first :: before), after.
      split; [ simpl; rewrite <- Hsplit; reflexivity | ].
      split; [ | exact Hafter ].
      intros y [ <- | Hy ]; [ | apply Hbefore; exact Hy ].
      assert (Hx : key x <= key (py_max key x rest)).
      { destruct before as [ | b before' ].
        - simpl in Hsplit. injection Hsplit as Hsplit _.
          rewrite <- Hsplit. lia.
        - simpl in Hsplit. injection Hsplit as -> _.
          pose proof (Hbefore b (or_introl eq_refl)). lia. }
      lia.
    + apply Z.ltb_ge in Hcmp.
      destruct (IH first) as (before & after & Hsplit & Hbefore & Hafter).
      destruct before as [ | b before' ].
      * simpl in Hsplit. injection Hsplit as Hfirst Hrest.
        exists [], (x :: after).
        split; [ simpl; rewrite <- Hfirst, <- Hrest; reflexivity | ].
        split; [ intros y [] | ].
        intros y [ <- | Hy ]; [ rewrite <- Hfirst; exact Hcmp | ].
        apply Hafter. exact Hy.
      * simpl in Hsplit. injection Hsplit as <- Hrest.
        exists (first :: x :: before'), after.
        split; [ simpl; rewrite <- Hrest; reflexivity | ].
        split; [ | exact Hafter ].
        pose proof (Hbefore first (or_introl eq_refl)) as Hfirst.
        intros y [ <- | [ <- | Hy ] ]; [ exact Hfirst | lia | ].
        apply Hbefore. right. exact Hy.
Qed.



(** X14.  In a document that a run returns, [last_activity_at] is absent
    exactly when the run has no session; otherwise it is the text of the
    instant of an event of the run that no event of the run exceeds. *)
Theorem last_activity_rule :
  forall (RT : Runtime) (self : UsageTracker) (now : datetime)
         (clock : nat -> nat -> datetime) (files : list (Path * list line))
         (doc : Doc.Snapshot),
    generate_snapshot self now clock files = Ok doc ->
    (Doc.sessions_count doc = 0%nat -> Doc.last_activity_at doc = None)
    /\ ((Doc.sessions_count doc > 0)%nat ->
        exists (sc : scan) (latest : datetime),
          scan_files clock 0 files empty_scan = Ok sc
          /\ Doc.last_activity_at doc = Some (isoformat_z latest)
          /\ In latest (map fst (all_events sc))
          /\ forall e : Event, In e (all_events sc) -> fst e <= latest).
Proof.
  intros RT self now clock files doc Hdoc.
  destruct (generate_snapshot_fields self now clock files doc Hdoc)
    as (sc & Hscan & _ & Hcount & _ & Hlast & _).
  destruct (scan_files_consistent clock files 0 _ sc Hscan
              empty_scan_consistent) as (Hevents & Hsessions).
  pose proof (sort_stable_perm (fst : Event -> Z) (all_events sc)) as Hperm.
  change (sort_stable Z.ltb (fst : Event -> Z) (all_events sc))
    with (sorted_events_of sc) in Hperm.
  rewrite Hcount, Hlast. split.
  - intros Hnone. apply length_zero_iff_nil in Hnone.
    rewrite Hnone in Hevents. simpl in Hevents.
    rewrite Hevents in Hperm. apply Permutation_sym, Permutation_nil in Hperm.
    rewrite Hperm. reflexivity.
  - intros Hsome.
    destruct (sorted_events_of sc) as [ | first others ] eqn:Hsorted.
    + exfalso. apply Permutation_nil in Hperm.
      pose proof (flat_map_length_ge _ Hsessions) as Hlen.
      rewrite <- Hevents, Hperm in Hlen. simpl in Hlen. lia.
    + exists sc, (py_max (fun t : Z => t) (fst first) (map fst others)).
      split; [ exact Hscan | ]. split; [ reflexivity | ].
      destruct (py_max_first (fun t : Z => t) (map fst others) (fst first))
        as (before & after & Hsplit & Hbefore & Hafter).
      assert (Hin : forall t, In t (map fst (first :: others)) ->
                t <= py_max (fun t : Z => t) (fst first) (map fst others)).
      { intros t Ht.
        pose proof (eq_ind _ (fun l : list Z => In t l) Ht _ Hsplit) as Hplace.
        simpl in Hplace.
        apply in_app_or in Hplace as [ Ht' | [ <- | Ht' ] ].
        - specialize (Hbefore t Ht'). simpl in Hbefore. lia.
        - lia.
        - apply (Hafter t Ht'). }
      split.
      * apply (Permutation_in _ (Permutation_map fst Hperm)).
        pose proof (in_elt (py_max (fun t : Z => t) (fst first)
                              (map fst others)) before after) as Hmid.
        rewrite <- Hsplit in Hmid. exact Hmid.
      * intros e He. apply Hin.
        apply (Permutation_in _ (Permutation_map fst (Permutation_sym Hperm))).
        apply in_map. exact He.
Qed.

Lemma last_activity_rule_witness :
  exists doc : Doc.Snapshot,
    generate_snapshot (RT := Sample.runtime) Examples.tracker Examples.noon
      (Examples.still_clock Examples.noon)
      [(Examples.path_a, MoreExamples.healthy_log)] = Ok doc
    /\ Doc.last_activity_at doc = Some "2024-01-01T10:02:00Z".
Proof.
  destruct (generate_snapshot (RT := Sample.runtime) Examples.tracker
              Examples.noon (Examples.still_clock Examples.noon)
              [(Examples.path_a, MoreExamples.healthy_log)])
    as [ doc | e ] eqn:Hrun; [ | vm_compute in Hrun; discriminate ].
  exists doc. split; [ reflexivity | ].
  destruct (proj2 (last_activity_rule Sample.runtime _ _ _ _ doc Hrun))
    as (sc & latest & Hscan & Hlast & Hin & Hmax).
  - vm_compute in Hrun. injection Hrun as <-. simpl. lia.
  - vm_compute in Hscan. injection Hscan as <-.
    rewrite Hlast. simpl in Hin.
    destruct Hin as [ <- | [ <- | [ <- | [] ] ] ];
      [ exfalso | exfalso | reflexivity ].
    + pose proof (Hmax _ (or_intror (or_intror (or_introl eq_refl)))) as Hle.
      simpl in Hle. lia.
    + pose proof (Hmax _ (or_intror (or_intror (or_introl eq_refl)))) as Hle.
      simpl in Hle. lia.
Defined.

(** ** The rate limits of one file *)

Section FileLimits.
Context {RT : Runtime}.

Lemma on_total_usage_limits (clock : datetime) (timestamp : option datetime)
  (u : TokenUsage) (st : locals) :
  let st' := on_total_usage clock timestamp u st in
  l_latest_rate_limits st' = l_latest_rate_limits st
  /\ l_rate_limits_timestamp st' = l_rate_limits_timestamp st.
Proof.
  unfold on_total_usage.
  destruct (has_activity u); [ | split; reflexivity ].
  destruct (has_activity (increment (l_prev_totals st) u));
    split; reflexivity.
Qed.

(** A record that brings no rate limits leaves those of the file alone. *)
Lemma on_item_without_limits (clock : datetime) (item : json)
  (st st' : locals) :
  limits_of (Decoded item) = None ->
  on_item clock item st = Ok st' ->
  l_latest_rate_limits st' = l_latest_rate_limits st
  /\ l_rate_limits_timestamp st' = l_rate_limits_timestamp st.
Proof.
  destruct item as [ | | | | | | fields ]; try discriminate.
  intros Hnone Hrun. simpl in Hnone.
  destruct (on_item_cases clock fields st st' Hrun)
    as (timestamp & Hts
        & [ (_ & _ & started & _ & ->)
          | [ (_ & _ & ->) | (Hkind & u & _ & ->) ] ]).
  - split; reflexivity.
  - split; reflexivity.
  - rewrite Hkind, Hts in Hnone.
    destruct (dict_get (payload_of fields) "rate_limits");
      try discriminate; cbn [on_rate_limits];
      apply (on_total_usage_limits clock _ u (set_last_event_at _ st)).
Qed.

(** A record that brings rate limits replaces those of the file, and
    replaces their instant when it has one. *)
Lemma on_item_with_limits (clock : datetime) (item : json) (st st' : locals)
  (limits : pydict) (stamp : option datetime) :
  limits_of (Decoded item) = Some (limits, stamp) ->
  on_item clock item st = Ok st' ->
  l_latest_rate_limits st' = Some limits
  /\ l_rate_limits_timestamp st' = or_else stamp (l_rate_limits_timestamp st).
Proof.
  destruct item as [ | | | | | | fields ]; try discriminate.
  intros Hsome Hrun. simpl in Hsome.
  destruct (on_item_cases clock fields st st' Hrun)
    as (timestamp & Hts
        & [ (_ & Hkind & _) | [ (_ & Hkind & _) | (Hkind & u & _ & ->) ] ]);
    rewrite Hkind in Hsome; try discriminate.
  rewrite Hts in Hsome.
  destruct (dict_get (payload_of fields) "rate_limits");
    try discriminate.
  injection Hsome as <- <-. cbn [on_rate_limits l_latest_rate_limits
                                  l_rate_limits_timestamp].
  split; [ reflexivity | ].
  f_equal. apply (on_total_usage_limits clock _ u (set_last_event_at _ st)).
Qed.

Lemma read_lines_without_limits (clock : nat -> datetime) (lines : list line) :
  Forall (fun l => limits_of l = None) lines ->
  forall (n : nat) (st st' : locals),
    read_lines clock n lines st = Ok st' ->
    l_latest_rate_limits st' = l_latest_rate_limits st
    /\ l_rate_limits_timestamp st' = l_rate_limits_timestamp st.
Proof.
  intros Hlines n st st' Hrun.
  refine (read_lines_keeps
            (fun s => l_latest_rate_limits s = l_latest_rate_limits st
                      /\ l_rate_limits_timestamp s = l_rate_limits_timestamp st)
            (fun l => limits_of l = None) _ clock lines Hlines n st st' Hrun
            (conj eq_refl eq_refl)).
  intros c item s s' Hnone Hstep (H1 & H2).
  destruct (on_item_without_limits c item s s' Hnone Hstep) as (-> & ->).
  split; assumption.
Qed.

End FileLimits.

(** X15.  Within one file that is read to its end, the rate limits kept
    are those of the last [token_count] record whose [rate_limits] is a
    mapping, and none when there is no such record.  Their instant is the
    timestamp of that record when it has one that parses; otherwise it is
    the instant kept before that record, which belongs to earlier limits
    or is absent. *)
Theorem file_rate_limits_rule :
  forall (RT : Runtime) (clock : nat -> datetime) (path : Path),
    (forall (lines : list line) (st : locals),
        Forall (fun l => limits_of l = None) lines ->
        read_lines clock 0 lines (initial_locals path) = Ok st ->
        l_latest_rate_limits st = None /\ l_rate_limits_timestamp st = None)
    /\ (forall (before after : list line) (l : line) (limits : pydict)
               (stamp : option datetime) (st : locals),
          limits_of l = Some (limits, stamp) ->
          Forall (fun l' => limits_of l' = None) after ->
          read_lines clock 0 (before ++ l :: after) (initial_locals path)
          = Ok st ->
          exists mid : locals,
            read_lines clock 0 before (initial_locals path) = Ok mid
            /\ l_latest_rate_limits st = Some limits
            /\ l_rate_limits_timestamp st
               = match stamp with
                 | Some t => Some t
                 | None => l_rate_limits_timestamp mid
                 end).
Proof.
  intros RT clock path. split.
  - intros lines st Hlines Hrun.
    apply (read_lines_without_limits clock lines Hlines 0 _ st Hrun).
  - intros before after l limits stamp st Hl Hafter Hrun.
    rewrite read_lines_app in Hrun.
    apply bind_Ok in Hrun as (mid & Hmid & Hrun).
    exists mid. split; [ exact Hmid | ].
    destruct l as [ | | item | | e ]; try discriminate.
    cbn [read_lines] in Hrun.
    apply bind_Ok in Hrun as (st1 & Hitem & Hrun).
    destruct (on_item_with_limits _ item mid st1 limits stamp Hl Hitem)
      as (Hlimits & Hstamp).
    destruct (read_lines_without_limits clock after Hafter _ st1 st Hrun)
      as (-> & ->).
    rewrite Hlimits, Hstamp. split; [ reflexivity | ].
    destruct stamp; reflexivity.
Qed.

Lemma file_rate_limits_rule_witness :
  exists st : locals,
    read_lines (RT := Sample.runtime) (fun _ => Examples.noon) 0
      MoreExamples.two_limits_log (initial_locals Examples.path_a) = Ok st
    /\ l_latest_rate_limits st
       = Some [("primary", JDict [("used_percent", JInt 40)])]
    /\ l_rate_limits_timestamp st = Some 1704103200000000.
Proof.
  destruct (read_lines (RT := Sample.runtime) (fun _ => Examples.noon) 0
              MoreExamples.two_limits_log (initial_locals Examples.path_a))
    as [ st | e ] eqn:Hrun; [ | vm_compute in Hrun; discriminate ].
  exists st. split; [ reflexivity | ].
  destruct (proj2 (file_rate_limits_rule Sample.runtime
                     (fun _ => Examples.noon) Examples.path_a)
              [Decoded (rate_limits_record (JStr "2024-01-01T10:00:00Z")
                          (only_total 10)
                          (JDict [("primary",
                                   JDict [("used_percent", JInt 20)])]))]
              [Decoded (token_count_record (JStr "2024-01-01T10:05:00Z")
                          (only_total 50))]
              (Decoded (rate_limits_record JNull (only_total 30)
                          (JDict [("primary",
                                   JDict [("used_percent", JInt 40)])])))
              [("primary", JDict [("used_percent", JInt 40)])] None st)
    as (mid & Hmid & Hlimits & Hstamp).
  - reflexivity.
  - repeat constructor.
  - exact Hrun.
  - split; [ exact Hlimits | ].
    rewrite Hstamp. vm_compute in Hmid. injection Hmid as <-. reflexivity.
Defined.

(** ** Timestamps *)

Lemma replace_Z_app (a b : string) :
  replace_Z (String.append a b)
  = String.append (replace_Z a) (replace_Z b).
Proof.
  induction a as [ | c rest IH ]; simpl; [ reflexivity | ].
  destruct (Ascii.eqb c "Z"%char); simpl; rewrite IH; reflexivity.
Qed.

Lemma append_not_empty (a : string) (c : ascii) (b : string) :
  String.eqb (String.append a (String c b)) "" = false.
Proof. destruct a; reflexivity. Qed.

(** X16.  A timestamp text with a [Z] parses to the same instant, or is
    rejected alike, as the text with [+00:00] written in place of that
    [Z], wherever the [Z] stands and whatever the runtime's parser of ISO
    texts accepts. *)
Theorem z_reads_as_utc_offset :
  forall (RT : Runtime) (a b : string),
    _parse_iso8601 (JStr (String.append a (String.append "Z" b)))
    = _parse_iso8601 (JStr (String.append a (String.append "+00:00" b))).
Proof.
  intros RT a b. unfold _parse_iso8601.
  change (String.append "Z" b) with (String "Z"%char b).
  change (String.append "+00:00" b)
    with (String "+"%char (String.append "00:00" b)).
  rewrite !append_not_empty, !replace_Z_app.
  reflexivity.
Qed.

(** ** A run without data *)

Section NoData.
Context {RT : Runtime}.

Lemma percent_of_nothing (limit : option Z) :
  percent_or_limit None limit new_usage
  = Ok match limit with
       | Some l => if 0 <? l then Some float_zero else None
       | None => None
       end.
Proof. destruct limit as [ [ | l | l ] | ]; reflexivity. Qed.

Lemma scan_files_without_usage (clock : nat -> nat -> datetime)
  (files : list (Path * list line)) :
  Forall file_without_usage files ->
  forall (k : nat) (acc : scan), scan_files clock k files acc = Ok acc.
Proof.
  induction 1 as [ | (path, lines) rest Hfile _ IH ]; intros k acc; simpl.
  - reflexivity.
  - rewrite (parse_no_usage (clock k) path lines Hfile). simpl. apply IH.
Qed.

End NoData.

(** X17.  A run over files none of which can add usage, such as a run
    that discovers no file, returns a document, provided that the
    timestamps of the records are parsed without an exception and that the
    cutoffs of the six windows are in range.  The document counts the
    files, no session and no event, has no last activity, every window at
    zero, no rate limits, no active session, no daily totals and no top
    sessions.  The used percent of a window is [0.0] when a positive limit
    is configured for it and absent otherwise. *)
Theorem document_without_data :
  forall (RT : Runtime) (self : UsageTracker) (now : datetime)
         (clock : nat -> nat -> datetime) (files : list (Path * list line)),
    Forall file_without_usage files ->
    windows_in_range self now ->
    exists doc : Doc.Snapshot,
      generate_snapshot self now clock files = Ok doc
      /\ Doc.files_scanned doc = List.length files
      /\ Doc.sessions_count doc = 0%nat
      /\ Doc.events_count doc = 0%nat
      /\ Doc.last_activity_at doc = None
      /\ Doc.windows doc
         = Doc.Windows.make new_usage new_usage new_usage new_usage new_usage
      /\ Doc.session_window doc
         = Doc.Window.make (session_window_minutes self) new_usage
             match session_limit_tokens self with
             | Some l => if 0 <? l then Some float_zero else None
             | None => None
             end None None None
      /\ Doc.weekly_window doc
         = Doc.Window.make (week_window_minutes self) new_usage
             match week_limit_tokens self with
             | Some l => if 0 <? l then Some float_zero else None
             | None => None
             end None None None
      /\ Doc.RateLimits.captured_at (Doc.rate_limits doc) = None
      /\ Doc.RateLimits.credits (Doc.rate_limits doc) = None
      /\ Doc.active_session doc = no_session_entry
      /\ Doc.daily_totals doc = []
      /\ Doc.top_sessions doc = [].
Proof.
  intros RT self now clock files Hfiles Hrange.
  unfold generate_snapshot.
  rewrite (scan_files_without_usage clock files Hfiles 0 empty_scan).
  cbn [bind empty_scan all_events scan_rate_limits scan_rate_limits_at
       parsed_sessions py_sorted sort_stable fold_right].
  rewrite !(windows_in_range_calls self now [] Hrange)
    by (unfold window_lengths; simpl; auto 10).
  cbn [bind dict_get _safe_dict
       _safe_float_or_none _safe_int_or_none _safe_int _seconds_until_epoch
       _epoch_to_iso8601 sum_window fold_left].
  rewrite !percent_of_nothing.
  cbn [bind]. eexists. split; [ reflexivity | ].
  repeat split; reflexivity.
Qed.

Lemma document_without_data_witness :
  exists doc : Doc.Snapshot,
    generate_snapshot (RT := Sample.runtime) Examples.limited_tracker
      Examples.noon (Examples.still_clock Examples.noon)
      [(Examples.path_a, Examples.meta_log)] = Ok doc
    /\ Doc.Window.used_percent (Doc.session_window doc) = Some float_zero
    /\ Doc.Window.used_percent (Doc.weekly_window doc) = None.
Proof.
  destruct (document_without_data Sample.runtime Examples.limited_tracker
              Examples.noon (Examples.still_clock Examples.noon)
              [(Examples.path_a, Examples.meta_log)])
    as (doc & Hrun & _ & _ & _ & _ & _ & Hsession & Hweekly & _).
  - repeat constructor.
  - intros minutes Hin.
    repeat (destruct Hin as [ <- | Hin ];
            [ eexists; vm_compute; reflexivity | ]).
    destruct Hin.
  - exists doc. split; [ exact Hrun | ].
    rewrite Hsession, Hweekly. split; reflexivity.
Defined.

(** ** The remaining time as text *)





(** The conversions to [int] raise on an infinite float only. *)
Section RaisingConversions.
Context {RT : Runtime}.

Lemma _safe_int_raises (value : json) (default : Z) :
  (exists e, _safe_int value default = Raise e) <-> infinite value.
Proof.
  unfold infinite. split.
  - intros (e & He).
    destruct value as [ | b | n | x | s | items | fields ];
      simpl in He; try discriminate.
    + destruct x as [ sg | sg | | sg m ex ]; simpl in He; try discriminate.
      exists sg. reflexivity.
    + destruct (int_of_str s); discriminate.
  - intros (sg & ->). exists OverflowError. reflexivity.
Qed.

Lemma _safe_int_or_none_raises (value : json) :
  (exists e, _safe_int_or_none value = Raise e) <-> infinite value.
Proof.
  unfold infinite. split.
  - intros (e & He).
    destruct value as [ | b | n | x | s | items | fields ];
      simpl in He; try discriminate.
    + destruct x as [ sg | sg | | sg m ex ]; simpl in He; try discriminate.
      exists sg. reflexivity.
    + destruct (int_of_str s); discriminate.
  - intros (sg & ->). exists OverflowError. reflexivity.
Qed.

Lemma _safe_int_or_none_only_overflow (value : json) :
  only_overflow (_safe_int_or_none value).
Proof.
  destruct value as [ | b | n | x | s | items | fields ]; simpl; auto.
  - destruct x; simpl; auto.
  - destruct (int_of_str s); simpl; auto.
Qed.

End RaisingConversions.





(** ** The windows of a document *)

Lemma sum_window_nonneg (now : datetime) (events : list Event) (minutes : Z) :
  Forall (fun e : Event => nonneg (snd e)) events ->
  usage_le new_usage (sum_window now events minutes).
Proof.
  intros Hnonneg. unfold sum_window.
  assert (Hgen : forall start : TokenUsage,
             usage_le new_usage start ->
             usage_le new_usage
               (fold_left
                  (fun total (event : Event) =>
                     if fst event >=? now - minutes * 60000000
                     then add total (snd event) else total)
                  events start));
    [ | apply Hgen, usage_le_refl ].
  induction Hnonneg as [ | e rest He _ IH ]; intros start Hstart; simpl.
  - exact Hstart.
  - apply IH. destruct (fst e >=? now - minutes * 60000000);
      [ apply usage_le_add_nonneg; assumption | exact Hstart ].
Qed.

Lemma clean_token_count {RT : Runtime} (timestamp usage : json) :
  (forall key, nonneg_value (dict_get (_safe_dict usage) key)) ->
  clean_line (Decoded (token_count_record timestamp usage)).
Proof. intros H key. exact (H key). Qed.

Lemma clean_session_meta {RT : Runtime} (timestamp id : json) :
  clean_line (Decoded (session_meta_record timestamp id)).
Proof. intros key. exact I. Qed.

(** X19.  In a document returned for logs whose counters carry no
    negative number, no window has a negative field and the windows grow
    with their length, field by field: 5 hours, 24 hours, 7 days, 30
    days, all time.  The usage of the session window and of the weekly
    window is at most the all-time usage, the session window is at most
    the weekly one when it is configured no longer, and with the default
    lengths of 300 and 10080 minutes they are the 5-hour and the 7-day
    window. *)
Theorem document_windows_ordered :
  forall (RT : Runtime) (self : UsageTracker) (now : datetime)
         (clock : nat -> nat -> datetime) (files : list (Path * list line))
         (doc : Doc.Snapshot),
    (forall path lines, In (path, lines) files -> Forall clean_line lines) ->
    generate_snapshot self now clock files = Ok doc ->
    let w := Doc.windows doc in
    let session := Doc.Window.usage (Doc.session_window doc) in
    let weekly := Doc.Window.usage (Doc.weekly_window doc) in
    usage_le new_usage (Doc.Windows.last_5h w)
    /\ usage_le (Doc.Windows.last_5h w) (Doc.Windows.last_24h w)
    /\ usage_le (Doc.Windows.last_24h w) (Doc.Windows.last_7d w)
    /\ usage_le (Doc.Windows.last_7d w) (Doc.Windows.last_30d w)
    /\ usage_le (Doc.Windows.last_30d w) (Doc.Windows.all_time w)
    /\ usage_le new_usage session
    /\ usage_le new_usage weekly
    /\ usage_le session (Doc.Windows.all_time w)
    /\ usage_le weekly (Doc.Windows.all_time w)
    /\ (session_window_minutes self <= week_window_minutes self ->
        usage_le session weekly)
    /\ (session_window_minutes self = 300 ->
        session = Doc.Windows.last_5h w)
    /\ (week_window_minutes self = 10080 ->
        weekly = Doc.Windows.last_7d w).
Proof.
  intros RT self now clock files doc Hfiles Hdoc.
  destruct (generate_snapshot_fields self now clock files doc Hdoc)
    as (sc & Hscan & _ & _ & _ & _ & Hwindows & Hsession & Hweekly & _).
  assert (Hnonneg : events_nonneg (sorted_events_of sc)).
  { eapply Permutation_Forall;
      [ apply Permutation_sym, sort_stable_perm | ].
    eapply scan_files_nonneg; [ exact Hfiles | exact Hscan | constructor ]. }
  cbv zeta. rewrite Hwindows, Hsession, Hweekly.
  cbn [Doc.Windows.last_5h Doc.Windows.last_24h Doc.Windows.last_7d
       Doc.Windows.last_30d Doc.Windows.all_time].
  split; [ apply sum_window_nonneg; exact Hnonneg | ].
  split; [ apply sum_window_le; [ exact Hnonneg | lia ] | ].
  split; [ apply sum_window_le; [ exact Hnonneg | lia ] | ].
  split; [ apply sum_window_le; [ exact Hnonneg | lia ] | ].
  split; [ apply sum_window_le_all; exact Hnonneg | ].
  split; [ apply sum_window_nonneg; exact Hnonneg | ].
  split; [ apply sum_window_nonneg; exact Hnonneg | ].
  split; [ apply sum_window_le_all; exact Hnonneg | ].
  split; [ apply sum_window_le_all; exact Hnonneg | ].
  split; [ intros Hle; apply sum_window_le; assumption | ].
  split; intros ->; reflexivity.
Qed.

Lemma document_windows_ordered_witness :
  exists doc : Doc.Snapshot,
    generate_snapshot (RT := Sample.runtime) Examples.tracker Examples.noon
      (Examples.still_clock Examples.noon)
      [(Examples.path_a, MoreExamples.healthy_log)] = Ok doc
    /\ Doc.Window.usage (Doc.session_window doc)
       = Doc.Windows.last_5h (Doc.windows doc)
    /\ usage_le (Doc.Windows.last_5h (Doc.windows doc))
         (Doc.Windows.all_time (Doc.windows doc)).
Proof.
  destruct (generate_snapshot (RT := Sample.runtime) Examples.tracker
              Examples.noon (Examples.still_clock Examples.noon)
              [(Examples.path_a, MoreExamples.healthy_log)])
    as [ doc | e ] eqn:Hrun; [ | vm_compute in Hrun; discriminate ].
  exists doc. split; [ reflexivity | ].
  assert (Hclean : forall path lines,
             In (path, lines) [(Examples.path_a, MoreExamples.healthy_log)] ->
             Forall (clean_line (RT := Sample.runtime)) lines).
  { intros path lines [ Hin | [] ]. injection Hin as _ <-.
    repeat constructor;
      try apply clean_session_meta;
      apply clean_token_count; intros key; cbn [dict_get _safe_dict];
      (destruct (String.eqb "input_tokens" key); [ simpl; lia | ]);
      (destruct (String.eqb "total_tokens" key); [ simpl; lia | exact I ]). }
  destruct (document_windows_ordered Sample.runtime _ _ _ _ doc Hclean Hrun)
    as (_ & H1 & H2 & H3 & H4 & _ & _ & _ & _ & _ & Hsame & _).
  split; [ apply Hsame; reflexivity | ].
  eapply usage_le_trans; [ exact H1 | ].
  eapply usage_le_trans; [ exact H2 | ].
  eapply usage_le_trans; [ exact H3 | exact H4 ].
Defined.

(** ** The configuration *)

Section Attributes.
Context {RT : Runtime}.

(** The four conversions of [__init__] raise [OverflowError], exactly
    when one of the keys is bound to an infinite float. *)
Lemma attributes_raise (home path : string) (config : pydict) (e : exn) :
  (session_window_minutes <-
     _safe_int (dict_get config "session_window_minutes") 300 ;;
   week_window_minutes <-
     _safe_int (dict_get config "week_window_minutes") 10080 ;;
   session_limit_tokens <-
     _safe_int_or_none (dict_get config "session_limit_tokens") ;;
   week_limit_tokens <-
     _safe_int_or_none (dict_get config "week_limit_tokens") ;;
   Ok (mkUsageTracker home path
         session_window_minutes week_window_minutes
         session_limit_tokens week_limit_tokens)) = Raise e
  <-> e = OverflowError
      /\ exists key, In key config_keys /\ infinite (dict_get config key).
Proof.
  pose proof (_safe_int_raises (dict_get config "session_window_minutes") 300)
    as H1.
  pose proof (_safe_int_raises (dict_get config "week_window_minutes") 10080)
    as H2.
  pose proof (_safe_int_or_none_raises (dict_get config "session_limit_tokens"))
    as H3.
  pose proof (_safe_int_or_none_raises (dict_get config "week_limit_tokens"))
    as H4.
  pose proof (_safe_int_only_overflow
                (dict_get config "session_window_minutes") 300) as O1.
  pose proof (_safe_int_only_overflow
                (dict_get config "week_window_minutes") 10080) as O2.
  pose proof (_safe_int_or_none_only_overflow
                (dict_get config "session_limit_tokens")) as O3.
  pose proof (_safe_int_or_none_only_overflow
                (dict_get config "week_limit_tokens")) as O4.
  destruct (_safe_int (dict_get config "session_window_minutes") 300)
    as [ a | e1 ]; cbn [bind].
  2: { simpl in O1. subst e1. split.
       - intros H; injection H as <-. split; [ reflexivity | ].
         exists "session_window_minutes". split; [ simpl; auto | ].
         apply H1. eexists. reflexivity.
       - intros (-> & _). reflexivity. }
  destruct (_safe_int (dict_get config "week_window_minutes") 10080)
    as [ b | e2 ]; cbn [bind].
  2: { simpl in O2. subst e2. split.
       - intros H; injection H as <-. split; [ reflexivity | ].
         exists "week_window_minutes". split; [ simpl; auto | ].
         apply H2. eexists. reflexivity.
       - intros (-> & _). reflexivity. }
  destruct (_safe_int_or_none (dict_get config "session_limit_tokens"))
    as [ c | e3 ]; cbn [bind].
  2: { simpl in O3. subst e3. split.
       - intros H; injection H as <-. split; [ reflexivity | ].
         exists "session_limit_tokens". split; [ simpl; auto | ].
         apply H3. eexists. reflexivity.
       - intros (-> & _). reflexivity. }
  destruct (_safe_int_or_none (dict_get config "week_limit_tokens"))
    as [ d | e4 ]; cbn [bind].
  2: { simpl in O4. subst e4. split.
       - intros H; injection H as <-. split; [ reflexivity | ].
         exists "week_limit_tokens". split; [ simpl; auto 6 | ].
         apply H4. eexists. reflexivity.
       - intros (-> & _). reflexivity. }
  split; [ discriminate | ].
  intros (_ & key & Hkey & Hinf). exfalso.
  destruct Hkey as [ <- | [ <- | [ <- | [ <- | [] ] ] ] ].
  - destruct (proj2 H1 Hinf) as (e' & He'). discriminate.
  - destruct (proj2 H2 Hinf) as (e' & He'). discriminate.
  - destruct (proj2 H3 Hinf) as (e' & He'). discriminate.
  - destruct (proj2 H4 Hinf) as (e' & He'). discriminate.
Qed.

End Attributes.

(** X20.  [__init__] raises what resolving the home directory raises,
    else what expanding the configuration path raises, else the [OSError]
    of [path.exists()]; beyond these it raises [OverflowError] only, and
    it does exactly when the configuration binds one of the four keys it
    reads to an infinite float.  With paths that resolve, a configuration
    file that is missing, that cannot be read or decoded, or that holds
    something other than an object gives the defaults: windows of 300 and
    10080 minutes and no limit. *)
Theorem config_rule :
  forall (RT : Runtime) (resolved_home expanded_config : result string)
         (file : config_file),
    (forall e : exn,
        __init__ resolved_home expanded_config file = Raise e
        <-> resolved_home = Raise e
            \/ ((exists home, resolved_home = Ok home)
                /\ expanded_config = Raise e)
            \/ ((exists home, resolved_home = Ok home)
                /\ (exists path, expanded_config = Ok path)
                /\ ((file = ExistsRaises /\ e = OSError)
                    \/ (e = OverflowError
                        /\ exists (config : pydict) (key : string),
                             _load_config file = Ok config
                             /\ In key config_keys
                             /\ infinite (dict_get config key)))))
    /\ (forall home path : string,
          resolved_home = Ok home ->
          expanded_config = Ok path ->
          file <> ExistsRaises ->
          (forall fields, file <> Loaded (JDict fields)) ->
          __init__ resolved_home expanded_config file
          = Ok (mkUsageTracker home path 300 10080 None None)).
Proof.
  intros RT resolved_home expanded_config file. split.
  - intros e. unfold __init__.
    destruct resolved_home as [ home | eh ]; cbn [bind].
    2: { split.
         - intros H; injection H as <-. left. reflexivity.
         - intros [ H | [ ((h & Hh) & _) | ((h & Hh) & _) ] ];
             [ injection H as <-; reflexivity | discriminate | discriminate ]. }
    destruct expanded_config as [ path | ec ]; cbn [bind].
    2: { split.
         - intros H; injection H as <-. right. left.
           split; [ eexists; reflexivity | reflexivity ].
         - intros [ H | [ (_ & H) | (_ & (q & Hq) & _) ] ];
             [ discriminate | injection H as <-; reflexivity | discriminate ]. }
    destruct (_load_config file) as [ config | el ] eqn:Hload; cbn [bind].
    + rewrite attributes_raise. split.
      * intros (-> & key & Hkey & Hinf). right. right.
        split; [ eexists; reflexivity | ].
        split; [ eexists; reflexivity | ].
        right. split; [ reflexivity | ].
        exists config, key. auto.
      * intros [ H | [ (_ & H) | (_ & _ & [ (Hf & _) | (-> & c & key & Hc & Hk) ]) ] ];
          try discriminate.
        -- subst file. discriminate.
        -- injection Hc as <-. split; [ reflexivity | ]. exists key. exact Hk.
    + assert (Hfile : file = ExistsRaises /\ el = OSError).
      { destruct file as [ | | | [ | | | | | | fields ] ];
          try discriminate. injection Hload as <-. auto. }
      destruct Hfile as (-> & ->). split.
      * intros H; injection H as <-. right. right.
        split; [ eexists; reflexivity | ].
        split; [ eexists; reflexivity | ]. left. auto.
      * intros [ H | [ (_ & H) | (_ & _ & [ (_ & ->) | (_ & c & key & Hc & _) ]) ] ];
          try discriminate; reflexivity.
  - intros home path -> -> Hexists Hfile. unfold __init__. cbn [bind].
    destruct file as [ | | | [ | | | | | | fields ] ]; try reflexivity.
    + contradiction.
    + exfalso. apply (Hfile fields). reflexivity.
Qed.

Lemma config_rule_witness :
  __init__ (RT := Sample.runtime) (Ok "/home/u/.codex")
    (Ok "/home/u/config.json") (Loaded (JList [])) =
  Ok (mkUsageTracker "/home/u/.codex" "/home/u/config.json"
        300 10080 None None).
Proof.
  apply (proj2 (config_rule Sample.runtime (Ok "/home/u/.codex")
                  (Ok "/home/u/config.json") (Loaded (JList [])))
           "/home/u/.codex" "/home/u/config.json" eq_refl eq_refl).
  - discriminate.
  - intros fields. discriminate.
Defined.

(** ** The order of the session files *)

(** Two lists in strictly descending order with the same members are
    the same list. *)
Lemma descending_unique {A : Type} (R : A -> A -> Prop) (l1 : list A) :
  (forall x, ~ R x x) ->
  (forall x y, R x y -> R y x -> False) ->
  forall l2 : list A,
    StronglySorted R l1 -> StronglySorted R l2 ->
    (forall x, In x l1 <-> In x l2) ->
    l1 = l2.
Proof.
  intros Hirrefl Hasym.
  induction l1 as [ | x1 rest1 IH ]; intros l2 Hs1 Hs2 Hsame.
  - destruct l2 as [ | x2 rest2 ]; [ reflexivity | ].
    exfalso. apply (proj2 (Hsame x2)). left. reflexivity.
  - destruct l2 as [ | x2 rest2 ].
    { exfalso. apply (proj1 (Hsame x1)). left. reflexivity. }
    apply StronglySorted_inv in Hs1 as (Hs1 & Hx1).
    apply StronglySorted_inv in Hs2 as (Hs2 & Hx2).
    rewrite Forall_forall in Hx1, Hx2.
    assert (Hhead : x1 = x2).
    { destruct (proj1 (Hsame x1) (or_introl eq_refl)) as [ H | H ];
        [ symmetry; exact H | ].
      destruct (proj2 (Hsame x2) (or_introl eq_refl)) as [ H' | H' ];
        [ exact H' | ].
      exfalso. apply (Hasym x1 x2); [ apply Hx1, H' | apply Hx2, H ]. }
    subst x2. f_equal. apply IH; [ exact Hs1 | exact Hs2 | ].
    intros y. split; intros Hy.
    + destruct (proj1 (Hsame y) (or_intror Hy)) as [ <- | H ];
        [ | exact H ].
      exfalso. apply (Hirrefl x1), Hx1, Hy.
    + destruct (proj2 (Hsame y) (or_intror Hy)) as [ <- | H ];
        [ | exact H ].
      exfalso. apply (Hirrefl x1), Hx2, Hy.
Qed.

Lemma sum_window_perm (now : datetime) (a b : list Event) (minutes : Z) :
  Permutation a b -> sum_window now a minutes = sum_window now b minutes.
Proof.
  intros Hperm. rewrite !sum_window_filter.
  apply sum_all_perm, Permutation_filter, Hperm.
Qed.

Lemma latest_instant_perm (a b : list Event) :
  Permutation a b -> latest_instant a = latest_instant b.
Proof.
  intros Hperm.
  destruct a as [ | a1 resta ].
  { apply Permutation_nil in Hperm. subst b. reflexivity. }
  destruct b as [ | b1 restb ].
  { apply Permutation_sym, Permutation_nil in Hperm. discriminate. }
  simpl. f_equal.
  pose proof (Permutation_map fst Hperm) as Hkeys.
  change (map fst (a1 :: resta)) with (fst a1 :: map fst resta) in Hkeys.
  change (map fst (b1 :: restb)) with (fst b1 :: map fst restb) in Hkeys.
  destruct (py_max_first (fun t : Z => t) (map fst resta) (fst a1))
    as (xa & ya & Ha & Hxa & Hya).
  destruct (py_max_first (fun t : Z => t) (map fst restb) (fst b1))
    as (xb & yb & Hb & Hxb & Hyb).
  set (ma := py_max (fun t : Z => t) (fst a1) (map fst resta)) in *.
  set (mb := py_max (fun t : Z => t) (fst b1) (map fst restb)) in *.
  assert (Hina : In ma (xb ++ mb :: yb)).
  { rewrite <- Hb. apply (Permutation_in _ Hkeys).
    pose proof (in_elt ma xa ya) as Hmid. rewrite <- Ha in Hmid.
    exact Hmid. }
  assert (Hinb : In mb (xa ++ ma :: ya)).
  { rewrite <- Ha. apply (Permutation_in _ (Permutation_sym Hkeys)).
    pose proof (in_elt mb xb yb) as Hmid. rewrite <- Hb in Hmid.
    exact Hmid. }
  assert (Hle1 : ma <= mb).
  { apply in_app_or in Hina as [ H | [ H | H ] ].
    - specialize (Hxb _ H). simpl in Hxb. lia.
    - lia.
    - apply (Hyb _ H). }
  assert (Hle2 : mb <= ma).
  { apply in_app_or in Hinb as [ H | [ H | H ] ].
    - specialize (Hxa _ H). simpl in Hxa. lia.
    - lia.
    - apply (Hya _ H). }
  lia.
Qed.

Section FileOrder.
Context {RT : Runtime}.

Lemma daily_totals_perm (a b : list Event) :
  Permutation a b ->
  py_sorted String.ltb (fst : string * TokenUsage -> string) true
    (daily_buckets a)
  = py_sorted String.ltb (fst : string * TokenUsage -> string) true
      (daily_buckets b).
Proof.
  intros Hperm.
  assert (Hhalf : forall a b : list Event,
             Permutation a b ->
             forall x : string * TokenUsage,
               In x (daily_buckets a) -> In x (daily_buckets b)).
  { clear a b Hperm. intros a b Hperm (day, u) Hin.
    destruct (daily_buckets_ok a) as (_ & Hsum & _ & Hback).
    destruct (daily_buckets_ok b) as (_ & Hsum' & Hkeys' & _).
    destruct (Hback day) as (e & He & Hday);
      [ apply (in_map fst _ _ Hin) | ].
    apply (Permutation_in _ Hperm) in He.
    apply Hkeys' in He. rewrite Hday in He.
    apply in_map_iff in He as ((day', u') & Hfst & Hin').
    simpl in Hfst. subst day'.
    rewrite (Hsum day u Hin).
    rewrite (sum_all_perm _ _ (Permutation_filter _ _ _ Hperm)).
    rewrite <- (Hsum' day u' Hin'). exact Hin'. }
  apply (descending_unique
           (fun x y : string * TokenUsage => String.ltb (fst y) (fst x) = true)).
  - intros x. rewrite string_ltb_irrefl. discriminate.
  - intros x y Hxy Hyx. rewrite (string_ltb_asym _ _ Hxy) in Hyx.
    discriminate.
  - apply py_sorted_text_reverse_strict. apply (daily_buckets_ok a).
  - apply py_sorted_text_reverse_strict. apply (daily_buckets_ok b).
  - pose proof (py_sorted_text_reverse_perm
                  (fst : string * TokenUsage -> string) (daily_buckets a))
      as Hpa.
    pose proof (py_sorted_text_reverse_perm
                  (fst : string * TokenUsage -> string) (daily_buckets b))
      as Hpb.
    intros x. split; intros Hx.
    + apply (Permutation_in _ (Permutation_sym Hpb)).
      apply (Hhalf a b Hperm).
      apply (Permutation_in _ Hpa). exact Hx.
    + apply (Permutation_in _ (Permutation_sym Hpa)).
      apply (Hhalf b a (Permutation_sym Hperm)).
      apply (Permutation_in _ Hpb). exact Hx.
Qed.

Lemma scan_files_sessions (clock : nat -> nat -> datetime)
  (files : list (Path * list line)) :
  all_stamped files ->
  forall (k : nat) (acc sc : scan),
    scan_files clock k files acc = Ok sc ->
    parsed_sessions sc = parsed_sessions acc ++ flat_map file_sessions files.
Proof.
  induction files as [ | (path, lines) rest IH ]; intros Hfiles k acc sc;
    simpl.
  - intros H; injection H as <-. rewrite app_nil_r. reflexivity.
  - assert (Hrest : all_stamped rest)
      by (intros p ls Hin; apply (Hfiles p); right; exact Hin).
    assert (Hsame : _parse_session_file (clock k) path lines
                    = _parse_session_file (fun _ => 0) path lines).
    { unfold _parse_session_file.
      rewrite (read_lines_clock (clock k) (fun _ => 0) lines)
        by (apply (Hfiles path); left; reflexivity).
      reflexivity. }
    unfold file_sessions at 1. cbn [fst snd]. rewrite <- Hsame.
    intros H. apply bind_Ok in H as (parsed & -> & H).
    destruct parsed as [ session | ].
    + rewrite (IH Hrest _ _ _ H). simpl. rewrite <- app_assoc. reflexivity.
    + apply (IH Hrest _ _ _ H).
Qed.

End FileOrder.

(** X21.  The order in which the session files are discovered does not
    change the totals of the document.  For two runs over the same files
    in different orders that both return a document, every [token_count]
    record having a timestamp that parses, the two documents agree on the
    number of files, sessions and events, on the last activity, on the five
    rolling windows, on the usage of the session and weekly windows, and
    on the daily totals. *)
Theorem totals_ignore_file_order :
  forall (RT : Runtime) (self : UsageTracker) (now : datetime)
         (clock1 clock2 : nat -> nat -> datetime)
         (files1 files2 : list (Path * list line))
         (doc1 doc2 : Doc.Snapshot),
    Permutation files1 files2 ->
    all_stamped files1 ->
    generate_snapshot self now clock1 files1 = Ok doc1 ->
    generate_snapshot self now clock2 files2 = Ok doc2 ->
    Doc.files_scanned doc1 = Doc.files_scanned doc2
    /\ Doc.sessions_count doc1 = Doc.sessions_count doc2
    /\ Doc.events_count doc1 = Doc.events_count doc2
    /\ Doc.last_activity_at doc1 = Doc.last_activity_at doc2
    /\ Doc.windows doc1 = Doc.windows doc2
    /\ Doc.Window.usage (Doc.session_window doc1)
       = Doc.Window.usage (Doc.session_window doc2)
    /\ Doc.Window.usage (Doc.weekly_window doc1)
       = Doc.Window.usage (Doc.weekly_window doc2)
    /\ Doc.daily_totals doc1 = Doc.daily_totals doc2.
Proof.
  intros RT self now clock1 clock2 files1 files2 doc1 doc2 Hfiles Hstamped
    Hdoc1 Hdoc2.
  assert (Hstamped2 : all_stamped files2).
  { intros path lines Hin. apply (Hstamped path).
    apply (Permutation_in _ (Permutation_sym Hfiles)). exact Hin. }
  destruct (generate_snapshot_fields self now clock1 files1 doc1 Hdoc1)
    as (sc1 & Hscan1 & Hf1 & Hs1 & He1 & Hl1 & Hw1 & Hsw1 & Hww1 & _ & Hd1 & _).
  destruct (generate_snapshot_fields self now clock2 files2 doc2 Hdoc2)
    as (sc2 & Hscan2 & Hf2 & Hs2 & He2 & Hl2 & Hw2 & Hsw2 & Hww2 & _ & Hd2 & _).
  destruct (scan_files_consistent clock1 files1 0 _ sc1 Hscan1
              empty_scan_consistent) as (Hev1 & _).
  destruct (scan_files_consistent clock2 files2 0 _ sc2 Hscan2
              empty_scan_consistent) as (Hev2 & _).
  pose proof (scan_files_sessions clock1 files1 Hstamped 0 _ sc1 Hscan1)
    as Hps1.
  pose proof (scan_files_sessions clock2 files2 Hstamped2 0 _ sc2 Hscan2)
    as Hps2.
  simpl in Hps1, Hps2.
  assert (Hsessions : Permutation (parsed_sessions sc1) (parsed_sessions sc2)).
  { rewrite Hps1, Hps2. apply Permutation_flat_map. exact Hfiles. }
  assert (Hevents : Permutation (sorted_events_of sc1) (sorted_events_of sc2)).
  { eapply perm_trans;
      [ apply (sort_stable_perm (fst : Event -> Z) (all_events sc1)) | ].
    eapply perm_trans;
      [ | apply Permutation_sym,
            (sort_stable_perm (fst : Event -> Z) (all_events sc2)) ].
    rewrite Hev1, Hev2. apply Permutation_flat_map. exact Hsessions. }
  split; [ rewrite Hf1, Hf2; apply Permutation_length, Hfiles | ].
  split; [ rewrite Hs1, Hs2; apply Permutation_length, Hsessions | ].
  split; [ rewrite He1, He2; apply Permutation_length, Hevents | ].
  split; [ rewrite Hl1, Hl2, (latest_instant_perm _ _ Hevents); reflexivity | ].
  split.
  { rewrite Hw1, Hw2.
    rewrite !(sum_window_perm now _ _ _ Hevents).
    rewrite (sum_all_perm _ _ Hevents). reflexivity. }
  split; [ rewrite Hsw1, Hsw2; apply sum_window_perm, Hevents | ].
  split; [ rewrite Hww1, Hww2; apply sum_window_perm, Hevents | ].
  rewrite Hd1, Hd2. apply daily_totals_perm, Hevents.
Qed.

Lemma totals_ignore_file_order_witness :
  exists doc1 doc2 : Doc.Snapshot,
    generate_snapshot (RT := Sample.runtime) Examples.tracker Examples.noon
      (Examples.still_clock Examples.noon)
      [(Examples.path_a, Examples.readings_log);
       (Examples.path_b, Examples.busy_log)] = Ok doc1
    /\ generate_snapshot (RT := Sample.runtime) Examples.tracker Examples.noon
         (Examples.still_clock Examples.noon)
         [(Examples.path_b, Examples.busy_log);
          (Examples.path_a, Examples.readings_log)] = Ok doc2
    /\ Doc.windows doc1 = Doc.windows doc2
    /\ Doc.daily_totals doc1 = Doc.daily_totals doc2.
Proof.
  destruct (generate_snapshot (RT := Sample.runtime) Examples.tracker
              Examples.noon (Examples.still_clock Examples.noon)
              [(Examples.path_a, Examples.readings_log);
               (Examples.path_b, Examples.busy_log)])
    as [ doc1 | e ] eqn:Hrun1; [ | vm_compute in Hrun1; discriminate ].
  destruct (generate_snapshot (RT := Sample.runtime) Examples.tracker
              Examples.noon (Examples.still_clock Examples.noon)
              [(Examples.path_b, Examples.busy_log);
               (Examples.path_a, Examples.readings_log)])
    as [ doc2 | e ] eqn:Hrun2; [ | vm_compute in Hrun2; discriminate ].
  exists doc1, doc2. split; [ reflexivity | ]. split; [ reflexivity | ].
  assert (Hstamped : all_stamped (RT := Sample.runtime)
                       [(Examples.path_a, Examples.readings_log);
                        (Examples.path_b, Examples.busy_log)]).
  { intros path lines [ Hin | [ Hin | [] ] ]; injection Hin as <- <-;
      repeat constructor. }
  destruct (totals_ignore_file_order Sample.runtime _ _ _ _ _ _ doc1 doc2
              (perm_swap (Examples.path_b, Examples.busy_log)
                 (Examples.path_a, Examples.readings_log) [])
              Hstamped Hrun1 Hrun2)
    as (_ & _ & _ & _ & Hwindows & _ & _ & Hdaily).
  split; assumption.
Defined.
